(** * GROMACS2PMM: the geometry-block extractor of [parser.py]

    A shallow embedding of [src/parser.py] and the properties of its
    block locator, token transformer and orchestration.

    Conventions of the embedding.
    - A Python [str] is a [list ascii]; a character is a code point in
      0..255 (Latin-1).
    - A file holds decoded text.  Decoding and encoding (UTF-8) are not
      part of the model.
    - The [logging] module is the list of records handed to it, in call
      order.  Filtering by the configured threshold and the formatting
      of handlers happen inside [logging] and are outside the model.
    - Functions that log, raise or touch the file system live in the
      monad [M] over [World].
    - [main] is embedded from the parsed arguments on; the module [Cli]
      adds the argument parser, the level of the log and the exit of
      the process.

    The two scripts beside it, [src/order.py] and [src/matrix.py], are
    embedded in the modules [Order] and [Matrix]: what they print is
    kept as messages with their values, and the numbers of [matrix.py]
    are an abstract type with an abstract [float()]. *)

From Stdlib Require Import Ascii String List Arith Lia Bool DecimalString.
From stdpp Require Import base list strings gmap.

Import ListNotations.
Local Open Scope list_scope.
Local Open Scope nat_scope.

(* ===================================================================== *)
(** ** Text *)
(* ===================================================================== *)

Abbreviation str := (list ascii).

(** A string literal as a [str]. *)
Definition L (s : string) : str := list_ascii_of_string s.

(** ["\n"] *)
Definition nl : ascii := ascii_of_nat 10.
(** ["\r"] *)
Definition cr : ascii := ascii_of_nat 13.

Definition chr_eqb (a b : ascii) : bool := Ascii.eqb a b.
Arguments chr_eqb : simpl never.

(** [str.isspace] on one character, which is also the class [\s] of
    [re] on [str] patterns: TAB, LF, VT, FF, CR, FS, GS, RS, US, SPACE,
    NEL (0x85) and NBSP (0xA0) are the whitespace code points below 256. *)
Definition py_isspace (c : ascii) : bool :=
  let n := nat_of_ascii c in
  ((9 <=? n) && (n <=? 13)) || ((28 <=? n) && (n <=? 32))
  || (n =? 133) || (n =? 160).

(** The class [\S]. *)
Definition py_nonspace (c : ascii) : bool := negb (py_isspace c).
Arguments py_isspace : simpl never.
Arguments py_nonspace : simpl never.

(** The longest prefix of [s] whose characters satisfy [p], and what is
    left after it: a greedy [p*] at the start of [s]. *)
Fixpoint take_while (p : ascii -> bool) (s : str) : str :=
  match s with
  | [] => []
  | c :: s' => if p c then c :: take_while p s' else []
  end.

Fixpoint drop_while (p : ascii -> bool) (s : str) : str :=
  match s with
  | [] => []
  | c :: s' => if p c then drop_while p s' else s
  end.

(** [s.lstrip()], [s.rstrip()], [s.strip()] *)
Definition lstrip (s : str) : str := drop_while py_isspace s.
Definition rstrip (s : str) : str := rev (drop_while py_isspace (rev s)).
Definition strip (s : str) : str := rstrip (lstrip s).

(** [s.rstrip("\n")]: every trailing ["\n"] is removed. *)
Definition rstrip_nl (s : str) : str := rev (drop_while (chr_eqb nl) (rev s)).

(** Truthiness of a [str]: the empty string is false. *)
Definition truthy (s : str) : bool :=
  match s with [] => false | _ :: _ => true end.

Definition str_eqb (a b : str) : bool := bool_decide (a = b).

(** [needle in hay] *)
Fixpoint is_prefix (p s : str) : bool :=
  match p, s with
  | [], _ => true
  | _ :: _, [] => false
  | a :: p', b :: s' => chr_eqb a b && is_prefix p' s'
  end.

Fixpoint contains (needle hay : str) : bool :=
  is_prefix needle hay ||
  match hay with
  | [] => false
  | _ :: hay' => contains needle hay'
  end.

(** [str(n)] for a non-negative [int]. *)
Definition str_of_nat (n : nat) : str :=
  L (NilZero.string_of_uint (Nat.to_uint n)).

(* ===================================================================== *)
(** ** Configuration: the mapping and the two patterns *)
(* ===================================================================== *)

(** A [dict] with [str] keys keeps its insertion order. *)
Definition dict (V : Type) := list (str * V).

Fixpoint dict_get {V} (d : dict V) (k : str) : option V :=
  match d with
  | [] => None
  | (k', v) :: d' => if str_eqb k' k then Some v else dict_get d' k
  end.

(** [k in d] *)
Definition dict_mem {V} (d : dict V) (k : str) : bool :=
  match dict_get d k with Some _ => true | None => false end.

Definition dict_keys {V} (d : dict V) : list str := map fst d.

Definition MASS_BY_SYMBOL : dict nat :=
  [ (L "N", 14); (L "C", 12); (L "O", 16); (L "H", 1) ].

(** Lower case of an ASCII letter; other characters are unchanged.
    Under [re.IGNORECASE] a character of the text matches an ASCII
    letter of the pattern when their lower cases agree; below 256 only
    the two ASCII forms of the letter do. *)
Definition ascii_lower (c : ascii) : ascii :=
  let n := nat_of_ascii c in
  if (65 <=? n) && (n <=? 90) then ascii_of_nat (n + 32) else c.

(** A literal of the pattern matched, ignoring case, at the start of
    [s]; what follows it in [s]. *)
Fixpoint match_literal_ci (pat s : str) : option str :=
  match pat with
  | [] => Some s
  | p :: pat' =>
      match s with
      | [] => None
      | c :: s' =>
          if chr_eqb (ascii_lower c) (ascii_lower p)
          then match_literal_ci pat' s'
          else None
      end
  end.

(** [GEOM_HEADER_PATTERN]: [CARTESIAN], [\s+], [COORDINATES], [\s* ],
    [\(ANGSTROEM\)], ignoring case, anchored at the start of [s].  The literal after each
    whitespace run starts with a non-space character, so the greedy run
    is the only run that can match. *)
Definition GEOM_HEADER_PATTERN_at (s : str) : bool :=
  match match_literal_ci (L "CARTESIAN") s with
  | None => false
  | Some s1 =>
      match s1 with
      | [] => false
      | c :: _ =>
          if py_isspace c then
            match match_literal_ci (L "COORDINATES")
                    (drop_while py_isspace s1) with
            | None => false
            | Some s2 =>
                match match_literal_ci (L "(ANGSTROEM)")
                        (drop_while py_isspace s2) with
                | None => false
                | Some _ => true
                end
            end
          else false
      end
  end.

(** [GEOM_HEADER_PATTERN.search(s)] as a truth value: a match at some
    position of [s]. *)
Fixpoint GEOM_HEADER_PATTERN_search (s : str) : bool :=
  GEOM_HEADER_PATTERN_at s ||
  match s with
  | [] => false
  | _ :: s' => GEOM_HEADER_PATTERN_search s'
  end.

(** [.* $] on what follows the token: [.] matches any character but
    ["\n"], and [$] matches at the end of the text or just before a
    ["\n"] that ends it.  The group is the text without that final
    ["\n"]. *)
Definition dot_star_eol (s : str) : option str :=
  let body :=
    match rev s with
    | c :: r => if chr_eqb c nl then rev r else s
    | [] => s
    end in
  if existsb (chr_eqb nl) body then None else Some body.

(** [FIRST_TOKEN_RE.match(s)], where [FIRST_TOKEN_RE] is, anchored by
    [^] and [$], the group [lead_ws] = [\s* ], the group [tok] = [\S+]
    and the group [rest] = [.* ]: the groups [(lead_ws, tok, rest)] of
    the match, or [None].
    [\s*] must stop at the first non-space character, because [\S+] has
    to start there; a shorter [tok] would leave a non-space character and
    everything behind it to [.*], which then fails whenever it fails
    after the longest [tok]; so the greedy match is the one returned. *)
Definition FIRST_TOKEN_RE_match (s : str) : option (str * str * str) :=
  let lead_ws := take_while py_isspace s in
  let s1 := drop_while py_isspace s in
  let tok := take_while py_nonspace s1 in
  let s2 := drop_while py_nonspace s1 in
  match tok with
  | [] => None
  | _ :: _ =>
      match dot_star_eol s2 with
      | None => None
      | Some rest => Some (lead_ws, tok, rest)
      end
  end.


(* ===================================================================== *)
(** ** The world: files, log records, exceptions *)
(* ===================================================================== *)

(** A [pathlib.Path] is its list of components; the empty list is the
    root. *)
Abbreviation Path := (list string).

(** [path.parent] *)
Definition parent (p : Path) : Path := removelast p.

(** [path / name] *)
Definition path_join (p : Path) (name : string) : Path := p ++ [name].

Inductive node :=
| File (content : str)
| Dir.

Inductive level := DEBUG | INFO | WARNING | ERROR | CRITICAL.

Inductive exn :=
| ValueError (message : str)
| RuntimeError (message : str)
| FileNotFoundError (p : Path)
| IsADirectoryError (p : Path)
| NotADirectoryError (p : Path)
| FileExistsError (p : Path).

(** An argument of a log call. *)
Inductive arg :=
| AStr (s : str)
| AInt (n : nat)
| APath (p : Path)
| AExn (e : exn).

(** A [logging.LogRecord]: the level, the format string and the
    arguments of the call. *)
Record LogRecord := mkLogRecord {
  levelname : level;
  msg : str;
  args : list arg
}.

Record World := mkWorld {
  fs : gmap Path node;
  records : list LogRecord
}.

Inductive Res (A : Type) :=
| Ok (a : A)
| Raise (e : exn).
Arguments Ok {A} a.
Arguments Raise {A} e.

(** Computations that read and change the world and may raise. *)
Definition M (A : Type) : Type := World -> Res A * World.

Definition ret {A} (a : A) : M A := fun w => (Ok a, w).

Definition raise {A} (e : exn) : M A := fun w => (Raise e, w).

Definition bind {A B} (m : M A) (k : A -> M B) : M B :=
  fun w =>
    match m w with
    | (Ok a, w') => k a w'
    | (Raise e, w') => (Raise e, w')
    end.

(** [try: m  except Exception as exc: h exc] *)
Definition try_except {A} (m : M A) (h : exn -> M A) : M A :=
  fun w =>
    match m w with
    | (Ok a, w') => (Ok a, w')
    | (Raise e, w') => h e w'
    end.

Notation "'let*' x ':=' m 'in' k" := (bind m (fun x => k))
  (at level 10, x name, m at level 100, k at level 200).
Notation "m ';;' k" := (bind m (fun _ => k))
  (at level 100, k at level 200, right associativity).

(** The log call [logging.<level>(msg, *args)]. *)
Definition logging_log (lv : level) (m : str) (a : list arg) : M unit :=
  fun w =>
    (Ok tt, mkWorld (fs w) (records w ++ [mkLogRecord lv m a])).

Definition logging_info := logging_log INFO.
Definition logging_warning := logging_log WARNING.
Definition logging_error := logging_log ERROR.
(** [logging.exception] logs at level ERROR (and adds the traceback). *)
Definition logging_exception := logging_log ERROR.

(** The character U+2192 of one format string is outside 0..255; it is
    held as its three UTF-8 bytes.  No property below reads it. *)
Definition arrow : str :=
  [ascii_of_nat 226; ascii_of_nat 134; ascii_of_nat 146].

(** *** Rendering of a record *)

Fixpoint join (sep : str) (parts : list str) : str :=
  match parts with
  | [] => []
  | [x] => x
  | x :: rest => x ++ sep ++ join sep rest
  end.

(** [str(path)] for an absolute path. *)
Definition str_of_path (p : Path) : str :=
  L "/" ++ join (L "/") (map L p).

(** [str(exc)].  The text of an OS error depends on the platform; only
    its path is rendered. *)
Definition str_of_exn (e : exn) : str :=
  match e with
  | ValueError m | RuntimeError m => m
  | FileNotFoundError p | IsADirectoryError p
  | NotADirectoryError p | FileExistsError p => str_of_path p
  end.

Definition str_of_arg (a : arg) : str :=
  match a with
  | AStr s => s
  | AInt n => str_of_nat n
  | APath p => str_of_path p
  | AExn e => str_of_exn e
  end.

Definition percent : ascii := ascii_of_nat 37.

(** [fmt % args] for the conversions [%s] and [%d]. *)
Fixpoint py_format (fmt : str) (a : list arg) : str :=
  match fmt with
  | [] => []
  | c :: fmt' =>
      if chr_eqb c percent then
        match fmt' with
        | d :: fmt'' =>
            if chr_eqb d (ascii_of_nat 115) || chr_eqb d (ascii_of_nat 100)
            then
              match a with
              | x :: a' => str_of_arg x ++ py_format fmt'' a'
              | [] => c :: d :: py_format fmt'' []
              end
            else c :: py_format fmt' a
        | [] => [c]
        end
      else c :: py_format fmt' a
  end.

(** [record.getMessage()] *)
Definition getMessage (r : LogRecord) : str := py_format (msg r) (args r).

(** *** [sorted] and [repr] for the error text *)

(** [a <= b] on characters and on strings, by code point. *)
Definition chr_leb (a b : ascii) : bool :=
  nat_of_ascii a <=? nat_of_ascii b.

Fixpoint str_leb (a b : str) : bool :=
  match a, b with
  | [], _ => true
  | _ :: _, [] => false
  | x :: a', y :: b' =>
      if chr_eqb x y then str_leb a' b' else chr_leb x y
  end.

Fixpoint insert_sorted (x : str) (l : list str) : list str :=
  match l with
  | [] => [x]
  | y :: l' => if str_leb x y then x :: l else y :: insert_sorted x l'
  end.

(** [sorted(l)] for a list of strings. *)
Definition sorted (l : list str) : list str :=
  fold_right insert_sorted [] l.

(** [repr(s)] for a string of printable characters without quotes or
    backslashes, and [repr] of a list of such strings. *)
Definition repr_str (s : str) : str := L "'" ++ s ++ L "'".

Definition repr_list (l : list str) : str :=
  L "[" ++ join (L ", ") (map repr_str l) ++ L "]".


(* ===================================================================== *)
(** ** Data types *)
(* ===================================================================== *)

Record GeometryBlock := mkGeometryBlock {
  start_line : nat;      (* inclusive index of the first data line *)
  end_line : nat;        (* exclusive index, one past the last line *)
  lines : list str
}.

(** The parsed command line. *)
Record Args := mkArgs {
  input : Path;
  outdir : Path;
  strict : bool;
  log : level
}.

(* ===================================================================== *)
(** ** Core logic *)
(* ===================================================================== *)

(** The [for i, line in enumerate(lines)] loop of [find_geometry_block]:
    the index of the first line the header pattern is found in, counted
    from [i]. *)
Fixpoint find_header (all_lines : list str) (i : nat) : option nat :=
  match all_lines with
  | [] => None
  | line :: rest =>
      if GEOM_HEADER_PATTERN_search line then Some i
      else find_header rest (S i)
  end.

(** The [while end < len(lines) and lines[end].strip()] loop.  The
    index is in range exactly when the lookup is defined.  [fuel] bounds
    the number of iterations; [scan_end_exit] shows that [length lines]
    is never used up. *)
Fixpoint scan_end (fuel : nat) (all_lines : list str) (end_ : nat) : nat :=
  match fuel with
  | 0 => end_
  | S fuel' =>
      match all_lines !! end_ with
      | Some line =>
          if truthy (strip line) then scan_end fuel' all_lines (S end_)
          else end_
      | None => end_
      end
  end.

(** [l[a:b]] for [0 <= a]. *)
Definition slice {A} (l : list A) (a b : nat) : list A :=
  take (b - a) (drop a l).

Definition find_geometry_block (all_lines : list str)
  : M (option GeometryBlock) :=
  match find_header all_lines 0 with
  | None =>
      logging_info (L "Geometry header not found.") [] ;;
      ret None
  | Some header_idx =>
      (* Start two lines after the header line *)
      let start := header_idx + 2 in
      if length all_lines <=? start then ret None
      else
        (* Consume until first blank line *)
        let end_ := scan_end (length all_lines) all_lines start in
        if end_ <=? start then ret None
        else
          let block_lines := slice all_lines start end_ in
          ret (Some (mkGeometryBlock start end_ block_lines))
  end.

Definition symbol_to_mass_token (token : str) (strict : bool) : M str :=
  match dict_get MASS_BY_SYMBOL token with
  | Some mass => ret (str_of_nat mass)
  | None =>
      if strict then
        raise (ValueError
                 (L "Unrecognized atomic symbol '" ++ token
                  ++ L "' in geometry block; supported: "
                  ++ repr_list (sorted (dict_keys MASS_BY_SYMBOL))))
      else
        logging_warning
          (L "Unrecognized first token '%s' in geometry row; leaving unchanged.")
          [AStr token] ;;
        ret token
  end.

(** The body of the [for line in raw_lines] loop of
    [transform_geometry_lines], with [out_lines] as it stands. *)
Fixpoint transform_loop (raw_lines : list str) (strict : bool)
    (out_lines : list str) : M (list str) :=
  match raw_lines with
  | [] => ret out_lines
  | line :: more =>
      match FIRST_TOKEN_RE_match (rstrip_nl line) with
      | None =>
          (* Unlikely due to regex, but handle gracefully *)
          transform_loop more strict (out_lines ++ [line])
      | Some (lead_ws, tok, rest) =>
          let* new_tok := symbol_to_mass_token tok strict in
          transform_loop more strict
            (out_lines ++ [lead_ws ++ new_tok ++ rest ++ [nl]])
      end
  end.

Definition transform_geometry_lines (raw_lines : list str) (strict : bool)
  : M (list str) :=
  transform_loop raw_lines strict [].

(* ===================================================================== *)
(** ** I/O utilities *)
(* ===================================================================== *)

(** The node at a path; the root is always a directory. *)
Definition node_at (m : gmap Path node) (p : Path) : option node :=
  match p with
  | [] => Some Dir
  | _ :: _ => m !! p
  end.

(** [path.exists()] *)
Definition path_exists (p : Path) : M bool :=
  fun w =>
    (Ok (match node_at (fs w) p with Some _ => true | None => false end), w).

(** Universal newlines on reading: ["\r\n"] and ["\r"] become ["\n"]. *)
Fixpoint universal_newlines (s : str) : str :=
  match s with
  | [] => []
  | c :: s' =>
      if chr_eqb c cr then
        match s' with
        | d :: s'' =>
            if chr_eqb d nl then nl :: universal_newlines s''
            else nl :: universal_newlines s'
        | [] => [nl]
        end
      else c :: universal_newlines s'
  end.

(** [f.readlines()] on text: the lines, each with its ["\n"], the last
    one without it when the text does not end in one. *)
Fixpoint readlines (s : str) : list str :=
  match s with
  | [] => []
  | c :: s' =>
      if chr_eqb c nl then [nl] :: readlines s'
      else
        match readlines s' with
        | [] => [[c]]
        | l :: ls => (c :: l) :: ls
        end
  end.

Definition read_text_lines (path : Path) : M (list str) :=
  fun w =>
    match node_at (fs w) path with
    | Some (File content) => (Ok (readlines (universal_newlines content)), w)
    | Some Dir => (Raise (IsADirectoryError path), w)
    | None => (Raise (FileNotFoundError path), w)
    end.

(** [d.mkdir(parents=True, exist_ok=True)]: every missing directory on
    the way to [d] is created, from the root down; a file on the way
    makes it fail.  [done] is the part of the path already checked. *)
Fixpoint mkdir_from (done : Path) (todo : list string) : M unit :=
  match todo with
  | [] => ret tt
  | c :: todo' =>
      let d := done ++ [c] in
      fun w =>
        match fs w !! d with
        | Some Dir => mkdir_from d todo' w
        | Some (File _) => (Raise (FileExistsError d), w)
        | None =>
            mkdir_from d todo' (mkWorld (<[d := Dir]> (fs w)) (records w))
        end
  end.

Definition mkdir_parents (d : Path) : M unit := mkdir_from [] d.

(** [path.open("w")]: the file is created or truncated. *)
Definition open_w (path : Path) : M unit :=
  fun w =>
    match node_at (fs w) path with
    | Some Dir => (Raise (IsADirectoryError path), w)
    | _ =>
        match node_at (fs w) (parent path) with
        | Some Dir =>
            (Ok tt, mkWorld (<[path := File []]> (fs w)) (records w))
        | Some (File _) => (Raise (NotADirectoryError path), w)
        | None => (Raise (FileNotFoundError path), w)
        end
    end.

(** [f.write(ln)] on the file opened at [path], with [newline="\n"]: the
    text is appended as it is. *)
Definition file_write (path : Path) (ln : str) : M unit :=
  fun w =>
    match fs w !! path with
    | Some (File content) =>
        (Ok tt, mkWorld (<[path := File (content ++ ln)]> (fs w)) (records w))
    | _ => (Raise (FileNotFoundError path), w)
    end.

(** [for ln in lines: f.write(ln)] *)
Fixpoint write_loop (path : Path) (out : list str) : M unit :=
  match out with
  | [] => ret tt
  | ln :: more => file_write path ln ;; write_loop path more
  end.

Definition write_text_lines (path : Path) (out : list str) : M unit :=
  mkdir_parents (parent path) ;;
  open_w path ;;
  write_loop path out.

(* ===================================================================== *)
(** ** Orchestration *)
(* ===================================================================== *)

Definition generate_geometry_file (inp outdir : Path) (strict : bool)
  : M Path :=
  let* all_lines := read_text_lines inp in
  let* block := find_geometry_block all_lines in
  match block with
  | None =>
      raise (RuntimeError
               (L "Failed to locate geometry block starting two lines after the 'CARTESIAN COORDINATES (ANGSTROEM)' header."))
  | Some block =>
      let* transformed := transform_geometry_lines (lines block) strict in
      let out_path := path_join outdir "geometry.txt" in
      write_text_lines out_path transformed ;;
      logging_info (L "Wrote geometry: %s (" ++ arrow ++ L " %d lines)")
        [APath out_path; AInt (length transformed)] ;;
      ret out_path
  end.

(** [main] from the parsed arguments on ([argparse] itself is not
    modelled).  The result is the exit code.  [logging.basicConfig] only
    sets the threshold and the layout of the handler, which are outside
    the model.  [None] from the [try] statement stands for falling
    through to [return 0]. *)
Definition main (a : Args) : M nat :=
  let* found := path_exists (input a) in
  if negb found then
    logging_error (L "Input file not found: %s") [APath (input a)] ;;
    ret 2
  else
    let* early :=
      try_except
        (let* geom_path :=
           generate_geometry_file (input a) (outdir a) (strict a) in
         logging_info (L "Geometry saved to: %s") [APath geom_path] ;;
         ret None)
        (fun exc =>
           logging_exception (L "Failed to generate geometry.txt: %s")
             [AExn exc] ;;
           ret (Some 1)) in
    match early with
    | Some code => ret code
    | None => ret 0
    end.

(* ===================================================================== *)
(** ** Vocabulary of the properties *)
(* ===================================================================== *)

(** A token: a non-empty run of characters that are not whitespace. *)
Definition is_token (tok : str) : bool :=
  truthy tok && forallb py_nonspace tok.

(** The remainder of a line after its first token: it is empty or
    starts with whitespace (the token is maximal), and it holds no
    ["\n"] (the terminators are not part of it). *)
Definition is_remainder (rest : str) : bool :=
  match rest with [] => true | c :: _ => py_isspace c end
  && negb (existsb (chr_eqb nl) rest).

(** The ways the pattern [FIRST_TOKEN_RE] can match a text [s] from its
    start to its end: a run of whitespace, a non-empty run of characters
    that are not whitespace, a run of characters other than ["\n"], and
    the end of the text or the ["\n"] that ends it. *)
Definition FIRST_TOKEN_RE_matches (s lead tok rest : str) : Prop :=
  forallb py_isspace lead = true /\
  is_token tok = true /\
  existsb (chr_eqb nl) rest = false /\
  (s = lead ++ tok ++ rest \/ s = lead ++ tok ++ rest ++ [nl]).

(** Two texts that agree up to the case of ASCII letters. *)
Definition eq_ignore_case (a b : str) : Prop :=
  map ascii_lower a = map ascii_lower b.

(** The pattern [GEOM_HEADER_PATTERN] is found in [s]: somewhere in [s]
    stands [CARTESIAN], at least one whitespace, [COORDINATES], any
    whitespace and [(ANGSTROEM)], in any case of the letters. *)
Definition GEOM_HEADER_PATTERN_matches (s : str) : Prop :=
  exists before a ws1 b ws2 c after,
    s = before ++ a ++ ws1 ++ b ++ ws2 ++ c ++ after /\
    eq_ignore_case a (L "CARTESIAN") /\
    truthy ws1 = true /\ forallb py_isspace ws1 = true /\
    eq_ignore_case b (L "COORDINATES") /\
    forallb py_isspace ws2 = true /\
    eq_ignore_case c (L "(ANGSTROEM)").

(** A line that is not empty after trimming. *)
Definition non_blank (line : str) : bool := truthy (strip line).

(** A line as [readlines] gives it: not empty, and with no ["\n"] before
    its last character. *)
Definition text_line (line : str) : bool :=
  match rev line with
  | [] => false
  | _ :: r => negb (existsb (chr_eqb nl) r)
  end.

(** A text that ends in exactly one ["\n"] and has no other. *)
Definition one_terminator (line : str) : bool :=
  match rev line with
  | [] => false
  | c :: r => chr_eqb c nl && negb (existsb (chr_eqb nl) r)
  end.

(** One round of the loop of [transform_geometry_lines]: what is
    appended to [out_lines] for [line]. *)
Definition transform_line (line : str) (strict : bool) : M str :=
  match FIRST_TOKEN_RE_match (rstrip_nl line) with
  | None => ret line
  | Some (lead_ws, tok, rest) =>
      let* new_tok := symbol_to_mass_token tok strict in
      ret (lead_ws ++ new_tok ++ rest ++ [nl])
  end.

(** A line that the transformer takes without raising when [strict] is
    set: its first token, if the tokenizer finds one, has a mass. *)
Definition accepted_in_strict (line : str) : bool :=
  match FIRST_TOKEN_RE_match (rstrip_nl line) with
  | None => true
  | Some (_, tok, _) => dict_mem MASS_BY_SYMBOL tok
  end.

(** The result of a computation, and the world it leaves. *)
Definition result_of {A} (m : M A) (w : World) : Res A := fst (m w).
Definition world_after {A} (m : M A) (w : World) : World := snd (m w).

(** The path of the output artifact. *)
Definition geometry_txt (a : Args) : Path :=
  path_join (outdir a) "geometry.txt".

(** The steps of the orchestrator, as its contract lists them, and where
    a run stops. *)
Inductive outcome :=
| InputNotFound
| ReadFailure
| BlockNotFound
| UnrecognizedSymbol
| WriteFailure
| Success.

Definition run_outcome (a : Args) (w : World) : outcome :=
  match node_at (fs w) (input a) with
  | None => InputNotFound
  | Some Dir => ReadFailure
  | Some (File content) =>
      let all_lines := readlines (universal_newlines content) in
      match result_of (find_geometry_block all_lines) w with
      | Raise _ | Ok None => BlockNotFound
      | Ok (Some block) =>
          match result_of
                  (transform_geometry_lines (lines block) (strict a)) w with
          | Raise _ => UnrecognizedSymbol
          | Ok transformed =>
              match result_of
                      (write_text_lines (geometry_txt a) transformed) w with
              | Raise _ => WriteFailure
              | Ok _ => Success
              end
          end
      end
  end.

Definition exit_code (o : outcome) : nat :=
  match o with
  | InputNotFound => 2
  | Success => 0
  | ReadFailure | BlockNotFound | UnrecognizedSymbol | WriteFailure => 1
  end.

(** A computation that only appends records to the log: its result does
    not depend on the world, and the files are left alone. *)
Definition log_only {A} (m : M A) : Prop :=
  exists r logs, forall w, m w = (r, mkWorld (fs w) (records w ++ logs)).

(** The world before anything happened. *)
Definition empty_world : World := mkWorld ∅ [].

(** What one round of the transformer's loop yields for a line, and the
    records it logs. *)
Definition line_result (line : str) (strict : bool) : Res str :=
  result_of (transform_line line strict) empty_world.

Definition line_records (line : str) (strict : bool) : list LogRecord :=
  records (world_after (transform_line line strict) empty_world).

(** The text of the error raised for an unrecognized symbol, and the
    record logged for one when [strict] is not set. *)
Definition unrecognized_symbol_message (tok : str) : str :=
  L "Unrecognized atomic symbol '" ++ tok
  ++ L "' in geometry block; supported: ['C', 'H', 'N', 'O']".

Definition unrecognized_token_record (tok : str) : LogRecord :=
  mkLogRecord WARNING
    (L "Unrecognized first token '%s' in geometry row; leaving unchanged.")
    [AStr tok].

(** The replacement the specification gives for each known symbol. *)
Definition expected_mass_token : dict str :=
  [ (L "N", L "14"); (L "C", L "12"); (L "O", L "16"); (L "H", L "1") ].

(** A computation that only reads and changes the files: what it does
    depends on the files alone, and the log is left alone. *)
Definition fs_only {A} (m : M A) : Prop :=
  exists g : gmap Path node -> Res A * gmap Path node,
    forall w, m w = (fst (g (fs w)), mkWorld (snd (g (fs w))) (records w)).

(** The lines a run is about to write: those of the located block,
    transformed; [None] when a step before the writing fails. *)
Definition planned_output (a : Args) (w : World) : option (list str) :=
  match node_at (fs w) (input a) with
  | Some (File content) =>
      match result_of
              (find_geometry_block (readlines (universal_newlines content)))
              w with
      | Ok (Some block) =>
          match result_of
                  (transform_geometry_lines (lines block) (strict a)) w with
          | Ok transformed => Some transformed
          | Raise _ => None
          end
      | _ => None
      end
  | _ => None
  end.

(** *** A sample input *)

(** A line of text with its terminator. *)
Definition ln (s : string) : str := L s ++ [nl].

Definition sample_lines : list str :=
  [ ln "                  * O   R   C   A *";
    ln "";
    ln "CARTESIAN COORDINATES (ANGSTROEM)";
    ln "---------------------------------";
    ln "  N   0.000  0.000  0.000";
    ln "  H   1.000  0.000  0.000";
    ln "";
    ln "CARTESIAN COORDINATES (A.U.)" ].

(** The same with an unknown symbol in the second row. *)
Definition sample_lines_unknown : list str :=
  [ ln "                  * O   R   C   A *";
    ln "";
    ln "CARTESIAN COORDINATES (ANGSTROEM)";
    ln "---------------------------------";
    ln "  N   0.000  0.000  0.000";
    ln "  Xx  2.0 2.0 2.0";
    ln "";
    ln "CARTESIAN COORDINATES (A.U.)" ].

(** A world with the three inputs [run.out], [unknown.out] and
    [empty.out], and a directory [results]. *)
Definition sample_world : World :=
  mkWorld
    (<[ ["run.out"] := File (concat sample_lines) ]>
       (<[ ["unknown.out"] := File (concat sample_lines_unknown) ]>
          (<[ ["empty.out"] := File (L "no header here") ]>
             (<[ ["results"] := Dir ]> ∅))))
    [].


(* ===================================================================== *)
(** ** Further vocabulary *)
(* ===================================================================== *)

(** [s.split()]: the maximal runs of characters that are not whitespace,
    in order. *)
Fixpoint py_split (s : str) : list str :=
  match s with
  | [] => []
  | c :: s' =>
      if py_isspace c then py_split s'
      else
        match s' with
        | [] => [[c]]
        | d :: _ =>
            if py_isspace d then [c] :: py_split s'
            else
              match py_split s' with
              | word :: words => (c :: word) :: words
              | [] => [[c]]
              end
        end
  end.

(** A text without ["\r"]. *)
Definition no_cr (s : str) : bool := negb (existsb (chr_eqb cr) s).

Definition is_error (r : LogRecord) : bool :=
  match levelname r with ERROR => true | _ => false end.

Definition is_warning (r : LogRecord) : bool :=
  match levelname r with WARNING => true | _ => false end.

(** A record below the level ERROR. *)
Definition below_error (r : LogRecord) : bool :=
  match levelname r with DEBUG | INFO | WARNING => true | _ => false end.

(** [q] is [p] or lies under [p]. *)
Definition path_under (p q : Path) : Prop := exists rest, q = p ++ rest.


(* ===================================================================== *)
(** ** The line-swap utility of [order.py] *)
(* ===================================================================== *)

(** The script works on a host: the files, as above, and the console.
    What [print] writes is kept as the message and the values put into
    it, with the stream it goes to.  The model is that of a POSIX host,
    where writing text leaves ["\n"] as it is. *)
Module Order.

Inductive py_exn :=
| OSError (e : exn)
| IndexError.

Inductive stream := Stdout | Stderr.

Inductive message :=
| MsgFileRead (name : Path) (num_lines : nat)
    (* File '...' letto, N righe trovate. *)
| MsgTooFewLines (num_lines : nat) (required_lines max_index_needed : Z)
    (* Errore: Il file ha solo N righe, ma lo scambio richiede ... *)
| MsgSwapsBegin
    (* Inizio scambi: *)
| MsgSwap (new_row old_row : nat)
    (* - La nuova riga N prendera' il contenuto dalla vecchia riga M *)
| MsgRule
    (* twenty dashes *)
| MsgSwapsDone
    (* Scambi completati con successo. *)
| MsgSavedTo (name : Path)
    (* Il risultato e' stato salvato nel file: '...'. *)
| MsgAssumption
    (* NOTA sull'assunzione: ... (four lines) *)
| MsgInputNotFound (name : Path)
    (* Errore: File di input '...' non trovato. *)
| MsgInvalidIndex (name : Path) (required_lines : Z)
    (* Errore: Tentativo di accedere a un indice di riga non valido. ... *)
| MsgUnexpected (e : py_exn)
    (* Si e' verificato un errore imprevisto: ... *)
| MsgSampleCreated (name : Path)
    (* Creato file di esempio '...'. *)
| MsgFillSample
    (* Riempilo con almeno 31 righe di testo per un test corretto. *)
| MsgSampleExists (name : Path).
    (* Il file di input '...' esiste gia'. *)

Record Host := mkHost {
  disk : gmap Path node;
  console : list (stream * message)
}.

(** [print(..., file=s)] *)
Definition print (s : stream) (m : message) (h : Host) : Host :=
  mkHost (disk h) (console h ++ [(s, m)]).

(** A name below a regular file: one of the names above it, short of
    the root, is a file.  Looking such a name up fails with
    [NotADirectoryError], where a name that is merely missing fails with
    [FileNotFoundError]. *)
Definition below_file (d : gmap Path node) (name : Path) : bool :=
  existsb (fun k => match node_at d (take k name) with
                    | Some (File _) => true
                    | _ => false
                    end)
    (seq 1 (length name - 1)).

Definition missing (d : gmap Path node) (name : Path) : exn :=
  if below_file d name then NotADirectoryError name
  else FileNotFoundError name.

(** [open(name, 'r').readlines()], with universal newlines. *)
Definition open_readlines (name : Path) (d : gmap Path node)
  : py_exn + list str :=
  match node_at d name with
  | Some (File content) => inr (readlines (universal_newlines content))
  | Some Dir => inl (OSError (IsADirectoryError name))
  | None => inl (OSError (missing d name))
  end.

(** [open(name, 'w').writelines(out)]: the file is created or truncated
    in a directory that exists, and the lines are written one after the
    other.  Where the directory is missing the error is
    [FileNotFoundError], and [NotADirectoryError] where a name above the
    file is a regular file. *)
Definition open_writelines (name : Path) (out : list str)
    (d : gmap Path node) : (py_exn + unit) * gmap Path node :=
  match node_at d name with
  | Some Dir => (inl (OSError (IsADirectoryError name)), d)
  | _ =>
      match node_at d (parent name) with
      | Some Dir => (inr tt, <[name := File (concat out)]> d)
      | Some (File _) => (inl (OSError (NotADirectoryError name)), d)
      | None =>
          (inl (OSError (if below_file d (parent name)
                         then NotADirectoryError name
                         else FileNotFoundError name)), d)
      end
  end.

(** [new_index: old_index], in the order of the dictionary. *)
Definition content_source_map : list (nat * nat) :=
  [ (30, 19); (19, 30) ].

(** [set(keys) | set(values)], as a list. *)
Definition indices_involved : list nat :=
  map fst content_source_map ++ map snd content_source_map.

(** [-1], or [max(indices_involved)] when there is an index. *)
Definition max_index_needed : Z :=
  match indices_involved with
  | [] => (-1)%Z
  | i :: more => fold_left Z.max (map Z.of_nat more) (Z.of_nat i)
  end.

Definition required_lines : Z := (max_index_needed + 1)%Z.

(** The loop [for new_idx, old_idx in content_source_map.items()]:
    [new_lines[new_idx] = original_lines[old_idx]], where an index out of
    range raises [IndexError]. *)
Fixpoint swap_loop (items : list (nat * nat))
    (original_lines new_lines : list str) (h : Host)
  : (py_exn + list str) * Host :=
  match items with
  | [] => (inr new_lines, h)
  | (new_idx, old_idx) :: more =>
      let h1 := print Stdout (MsgSwap (new_idx + 1) (old_idx + 1)) h in
      match original_lines !! old_idx with
      | None => (inl IndexError, h1)
      | Some content =>
          if new_idx <? length new_lines
          then swap_loop more original_lines
                 (<[new_idx := content]> new_lines) h1
          else (inl IndexError, h1)
      end
  end.

(** [22 in content_source_map and content_source_map[22] == 24] *)
Definition assumption_made : bool :=
  match list_find (fun kv => bool_decide (fst kv = 22)) content_source_map
  with
  | Some (_, (_, v)) => bool_decide (v = 24)
  | None => false
  end.

(** The body of the [try] statement of [swap_specific_lines]. *)
Definition swap_body (input_filename output_filename : Path) (h : Host)
  : (py_exn + unit) * Host :=
  match open_readlines input_filename (disk h) with
  | inl e => (inl e, h)
  | inr original_lines =>
      let num_lines := length original_lines in
      let h := print Stdout (MsgFileRead input_filename num_lines) h in
      if (Z.of_nat num_lines <? required_lines)%Z then
        (inr tt,
         print Stderr
           (MsgTooFewLines num_lines required_lines max_index_needed) h)
      else
        let new_lines := original_lines in
        let h := print Stdout MsgSwapsBegin h in
        match swap_loop content_source_map original_lines new_lines h with
        | (inl e, h) => (inl e, h)
        | (inr new_lines, h) =>
            match open_writelines output_filename new_lines (disk h) with
            | (inl e, d) => (inl e, mkHost d (console h))
            | (inr _, d) =>
                let h := mkHost d (console h) in
                let h := print Stdout MsgRule h in
                let h := print Stdout MsgSwapsDone h in
                let h := print Stdout (MsgSavedTo output_filename) h in
                (inr tt,
                 if assumption_made then print Stdout MsgAssumption h
                 else h)
            end
        end
  end.

(** [swap_specific_lines(input_filename, output_filename)]: the body
    and the three [except] clauses. *)
Definition swap_specific_lines (input_filename output_filename : Path)
    (h : Host) : Host :=
  match swap_body input_filename output_filename h with
  | (inr _, h) => h
  | (inl (OSError (FileNotFoundError _)), h) =>
      print Stderr (MsgInputNotFound input_filename) h
  | (inl IndexError, h) =>
      print Stderr (MsgInvalidIndex input_filename required_lines) h
  | (inl e, h) => print Stderr (MsgUnexpected e) h
  end.

(** The lines of the sample written when there is no input:
    [f"Contenuto originale della riga {i}\n"] for [i] from 1 to 40. *)
Definition sample_rows : list str :=
  map (fun i => L "Contenuto originale della riga " ++ str_of_nat i ++ [nl])
    (seq 1 40).

(** [with open(name, 'x') as f: ...] for a name in the working
    directory: the file is created only when no file or directory has
    that name; otherwise [FileExistsError] is raised, and caught. *)
Definition create_sample (name : Path) (h : Host) : Host :=
  match node_at (disk h) name with
  | Some _ => print Stdout (MsgSampleExists name) h
  | None =>
      let h := print Stdout (MsgSampleCreated name) h in
      let h := print Stdout MsgFillSample h in
      mkHost (<[name := File (concat sample_rows)]> (disk h)) (console h)
  end.

(** The block under [if __name__ == "__main__"]; the working directory
    is the root of the files. *)
Definition nome_file_input : Path := ["input.txt"].
Definition nome_file_output : Path := ["output.txt"].

Definition script (h : Host) : Host :=
  swap_specific_lines nome_file_input nome_file_output
    (create_sample nome_file_input h).

End Order.

(** A message on the error stream. *)
Definition on_stderr (sm : Order.stream * Order.message) : bool :=
  match fst sm with Order.Stderr => true | Order.Stdout => false end.

(** The lines with the two at [i] and [j] exchanged. *)
Definition exchanged (l : list str) (i j : nat) : list str :=
  match l !! i, l !! j with
  | Some x, Some y => <[j := x]> (<[i := y]> l)
  | _, _ => l
  end.

(** Forty numbered lines, and a host with a file of them. *)
Definition numbered_lines : list str :=
  map (fun i => L "row " ++ str_of_nat i ++ [nl]) (seq 1 40).

Definition sample_host : Order.Host :=
  Order.mkHost
    (<[ ["input.txt"] := File (concat numbered_lines) ]>
       (<[ ["short.txt"] := File (L "one" ++ [nl] ++ L "two" ++ [nl]) ]> ∅))
    [].


(* ===================================================================== *)
(** ** The transition-moment matrix of [matrix.py] *)
(* ===================================================================== *)

(** The script reads two text files and prints a table.  The numbers are
    kept abstract: [float] is the type of the values, [zero] is [0.0] and
    [py_float s] is [float(s)], [None] when it raises [ValueError].  What
    [print] writes is kept as the message and the values put into it,
    with the stream it goes to.  The working directory is the root of
    the files. *)
Module Matrix.

Inductive py_exn :=
| OSError (e : exn)
| IndexError
| ValueError (s : str).
    (* could not convert string to float: '...' *)

Inductive stream := Stdout | Stderr.

Definition n_states : nat := 11.
Definition orca_filename : Path := ["Lumi0gradi.out"].
Definition dipoli_filename : Path := ["dipole_matrix.txt"].

(** [parts[-k]] for [k >= 1]. *)
Definition item_from_end (parts : list str) (k : nat) : py_exn + str :=
  if k <=? length parts then
    match parts !! (length parts - k) with
    | Some s => inr s
    | None => inl IndexError
    end
  else inl IndexError.

(** [parts[k]] for [k >= 0]. *)
Definition item (parts : list str) (k : nat) : py_exn + str :=
  match parts !! k with
  | Some s => inr s
  | None => inl IndexError
  end.

(** One statement after the other, the first exception ending them. *)
Definition and_then {A B} (r : py_exn + A) (k : A -> py_exn + B)
  : py_exn + B :=
  match r with
  | inl e => inl e
  | inr a => k a
  end.

Section Floats.

Variable float : Type.
Variable zero : float.
Variable py_float : str -> option float.

(** The three numbers at [matrix[i, j]]. *)
Definition vec : Type := float * float * float.

Inductive message :=
| MsgReadingDiagonal (name : Path)
    (* Lettura elementi diagonali da '...'... *)
| MsgOrcaBadLine (row : nat) (line_content : str) (e : py_exn)
    (* Attenzione [orca.out]: Impossibile estrarre il momento di dipolo
       dalla riga N: '...'. Errore: ... *)
| MsgDiagonalRead (diagonal_index : nat)
    (* Letti N elementi diagonali. *)
| MsgDiagonalFew (diagonal_index : nat) (name : Path) (expected : nat)
    (* Attenzione: Trovati solo N elementi diagonali in '...', ma ne
       erano attesi M. *)
| MsgDiagonalNotFound (name : Path)
    (* Errore: Il file '...' non e' stato trovato. Impossibile leggere
       gli elementi diagonali. *)
| MsgDiagonalUnexpected (name : Path) (e : py_exn)
    (* Errore inaspettato durante la lettura di '...': ... *)
| MsgReadingRow0 (name : Path)
    (* Lettura elementi riga 0 da '...'... *)
| MsgNote (reached : nat) (row : nat)
    (* Nota [dipoli.txt]: Raggiunto n_states (N). Ignoro riga M e
       successive. *)
| MsgNotThreeColumns (row : nat) (line_content : str)
    (* Attenzione [dipoli.txt]: Riga N non contiene esattamente 3
       colonne: '...'. Riga ignorata. *)
| MsgNotNumbers (row : nat) (line_content : str) (e : py_exn)
    (* Attenzione [dipoli.txt]: Impossibile convertire in numeri i valori
       sulla riga N: '...'. Errore: .... Riga ignorata. *)
| MsgRow0Read (lines_read_dipoli : nat)
    (* Letti N elementi per la riga 0. *)
| MsgRow0Few (lines_read_dipoli : nat) (name : Path)
    (expected_dipoli_lines last_j : nat)
    (* Attenzione: Lette solo N righe valide da '...', ma ne erano attese
       M per popolare la riga 0 fino a j=K. *)
| MsgRow0NotFound (name : Path)
    (* Errore: Il file '...' non e' stato trovato. Impossibile leggere
       gli elementi della riga 0. *)
| MsgRow0Unexpected (name : Path) (e : py_exn)
    (* Errore inaspettato durante la lettura di '...': ... *)
| MsgSymmetry
    (* Applicazione simmetria per colonna 0... *)
| MsgTableBegin (rows cols : nat)
    (* --- Matrice dei Momenti di Transizione (NxN) --- *)
| MsgEntry (i j : nat) (val_x val_y val_z : float)
    (* i, j and the three values, in fixed columns *)
| MsgTableEnd.
    (* --- Fine Matrice --- *)

(** The array and the console. *)
Record State := mkState {
  matrix : list (list vec);
  console : list (stream * message)
}.

(** [print(..., file=s)] *)
Definition print (s : stream) (m : message) (st : State) : State :=
  mkState (matrix st) (console st ++ [(s, m)]).

(** [np.zeros((rows, cols, 3))] *)
Definition zeros (rows cols : nat) : list (list vec) :=
  replicate rows (replicate cols (zero, zero, zero)).

(** [matrix[i, j]] *)
Definition getitem (m : list (list vec)) (i j : nat) : py_exn + vec :=
  match m !! i with
  | Some row =>
      match row !! j with
      | Some v => inr v
      | None => inl IndexError
      end
  | None => inl IndexError
  end.

(** [matrix[i, j] = v] *)
Definition setitem (m : list (list vec)) (i j : nat) (v : vec)
  : py_exn + list (list vec) :=
  match m !! i with
  | Some row =>
      if j <? length row then inr (<[i := <[j := v]> row]> m)
      else inl IndexError
  | None => inl IndexError
  end.

(** [float(s)] *)
Definition to_float (s : str) : py_exn + float :=
  match py_float s with
  | Some x => inr x
  | None => inl (ValueError s)
  end.

(** [float(parts[-3])], [float(parts[-2])], [float(parts[-1])] *)
Definition last_three (parts : list str) : py_exn + vec :=
  and_then (and_then (item_from_end parts 3) to_float) (fun dipole_x =>
  and_then (and_then (item_from_end parts 2) to_float) (fun dipole_y =>
  and_then (and_then (item_from_end parts 1) to_float) (fun dipole_z =>
  inr (dipole_x, dipole_y, dipole_z)))).

(** [float(parts[0])], [float(parts[1])], [float(parts[2])] *)
Definition first_three (parts : list str) : py_exn + vec :=
  and_then (and_then (item parts 0) to_float) (fun trans_x =>
  and_then (and_then (item parts 1) to_float) (fun trans_y =>
  and_then (and_then (item parts 2) to_float) (fun trans_z =>
  inr (trans_x, trans_y, trans_z)))).

(** The loop over the lines of the first file.  The inner [try] holds
    the conversions, the assignment and the increment; [IndexError] and
    [ValueError] are caught there. *)
Fixpoint diagonal_loop (lines : list str) (line_num diagonal_index : nat)
    (st : State) : nat * State :=
  match lines with
  | [] => (diagonal_index, st)
  | line :: more =>
      let line_content := strip line in
      if contains (L "Total Dipole Moment") line_content then
        if diagonal_index <? n_states then
          match
            and_then (last_three (py_split line_content)) (fun v =>
            setitem (matrix st) diagonal_index diagonal_index v)
          with
          | inr m =>
              diagonal_loop more (S line_num) (S diagonal_index)
                (mkState m (console st))
          | inl e =>
              diagonal_loop more (S line_num) diagonal_index
                (print Stderr (MsgOrcaBadLine (line_num + 1) line_content e)
                   st)
          end
        else diagonal_loop more (S line_num) diagonal_index st
      else diagonal_loop more (S line_num) diagonal_index st
  end.

(** Part 1: the diagonal, with the two [except] clauses. *)
Definition read_diagonal (d : gmap Path node) (st : State) : State :=
  match node_at d orca_filename with
  | Some (File content) =>
      let st := print Stdout (MsgReadingDiagonal orca_filename) st in
      let '(diagonal_index, st) :=
        diagonal_loop (readlines (universal_newlines content)) 0 0 st in
      let st := print Stdout (MsgDiagonalRead diagonal_index) st in
      if diagonal_index <? n_states then
        print Stderr
          (MsgDiagonalFew diagonal_index orca_filename n_states) st
      else st
  | Some Dir =>
      print Stderr
        (MsgDiagonalUnexpected orca_filename
           (OSError (IsADirectoryError orca_filename))) st
  | None => print Stderr (MsgDiagonalNotFound orca_filename) st
  end.

(** The loop over the lines of the second file, with its [continue] and
    [break].  The inner [try] catches [ValueError] only; any other
    exception ends the loop and is returned. *)
Fixpoint row0_loop (lines : list str) (line_num transition_j
    lines_read_dipoli : nat) (st : State)
  : (py_exn + unit) * (nat * State) :=
  match lines with
  | [] => (inr tt, (lines_read_dipoli, st))
  | line :: more =>
      let line_content := strip line in
      if negb (truthy line_content) then
        row0_loop more (S line_num) transition_j lines_read_dipoli st
      else if n_states <=? transition_j then
        (inr tt,
         (lines_read_dipoli,
          print Stdout (MsgNote n_states (line_num + 1)) st))
      else
        let parts := py_split line_content in
        if length parts =? 3 then
          match
            and_then (first_three parts) (fun v =>
            setitem (matrix st) 0 transition_j v)
          with
          | inr m =>
              row0_loop more (S line_num) (S transition_j)
                (S lines_read_dipoli) (mkState m (console st))
          | inl (ValueError s) =>
              row0_loop more (S line_num) transition_j lines_read_dipoli
                (print Stderr
                   (MsgNotNumbers (line_num + 1) line_content (ValueError s))
                   st)
          | inl e => (inl e, (lines_read_dipoli, st))
          end
        else
          row0_loop more (S line_num) transition_j lines_read_dipoli
            (print Stderr (MsgNotThreeColumns (line_num + 1) line_content)
               st)
  end.

(** Part 2: row 0, with the two [except] clauses. *)
Definition read_row0 (d : gmap Path node) (st : State) : State :=
  match node_at d dipoli_filename with
  | Some (File content) =>
      let st := print Stdout (MsgReadingRow0 dipoli_filename) st in
      match row0_loop (readlines (universal_newlines content)) 0 1 0 st with
      | (inr _, (lines_read_dipoli, st)) =>
          let st := print Stdout (MsgRow0Read lines_read_dipoli) st in
          let expected_dipoli_lines := n_states - 1 in
          if lines_read_dipoli <? expected_dipoli_lines then
            print Stderr
              (MsgRow0Few lines_read_dipoli dipoli_filename
                 expected_dipoli_lines (n_states - 1)) st
          else st
      | (inl e, (_, st)) =>
          print Stderr (MsgRow0Unexpected dipoli_filename e) st
      end
  | Some Dir =>
      print Stderr
        (MsgRow0Unexpected dipoli_filename
           (OSError (IsADirectoryError dipoli_filename))) st
  | None => print Stderr (MsgRow0NotFound dipoli_filename) st
  end.

(** Part 4: [matrix[i, 0] = matrix[0, i]] for the given [i]. *)
Fixpoint symmetry_loop (indices : list nat) (st : State)
  : (py_exn + unit) * State :=
  match indices with
  | [] => (inr tt, st)
  | i :: more =>
      match
        and_then (getitem (matrix st) 0 i) (fun v =>
        setitem (matrix st) i 0 v)
      with
      | inr m => symmetry_loop more (mkState m (console st))
      | inl e => (inl e, st)
      end
  end.

(** Part 5: one printed line for each [j] of a row, and for each row. *)
Fixpoint entries_loop (i : nat) (cols : list nat) (st : State)
  : (py_exn + unit) * State :=
  match cols with
  | [] => (inr tt, st)
  | j :: more =>
      match getitem (matrix st) i j with
      | inr (val_x, val_y, val_z) =>
          entries_loop i more
            (print Stdout (MsgEntry i j val_x val_y val_z) st)
      | inl e => (inl e, st)
      end
  end.

Fixpoint rows_loop (rows : list nat) (st : State)
  : (py_exn + unit) * State :=
  match rows with
  | [] => (inr tt, st)
  | i :: more =>
      match entries_loop i (seq 0 n_states) st with
      | (inr _, st) => rows_loop more st
      | (inl e, st) => (inl e, st)
      end
  end.

(** The script: an exception that reaches the top ends it. *)
Definition script (d : gmap Path node) : (py_exn + unit) * State :=
  let st := mkState (zeros n_states n_states) [] in
  let st := read_diagonal d st in
  let st := read_row0 d st in
  let st := print Stdout MsgSymmetry st in
  match symmetry_loop (seq 1 (n_states - 1)) st with
  | (inl e, st) => (inl e, st)
  | (inr _, st) =>
      let st := print Stdout (MsgTableBegin n_states n_states) st in
      match rows_loop (seq 0 n_states) st with
      | (inl e, st) => (inl e, st)
      | (inr _, st) => (inr tt, print Stdout MsgTableEnd st)
      end
  end.

(** The rows the two parts accept, in the order of the file: the lines
    with the marker whose last three columns are numbers, and the lines
    of exactly three columns that are numbers. *)
Definition diagonal_rows (lines : list str) : list vec :=
  omap (fun line =>
          let line_content := strip line in
          if contains (L "Total Dipole Moment") line_content then
            match last_three (py_split line_content) with
            | inr v => Some v
            | inl _ => None
            end
          else None) lines.

Definition row0_rows (lines : list str) : list vec :=
  omap (fun line =>
          let parts := py_split (strip line) in
          if length parts =? 3 then
            match first_three parts with
            | inr v => Some v
            | inl _ => None
            end
          else None) lines.

(** The exception a message reports, if it reports one. *)
Definition reported (m : message) : option py_exn :=
  match m with
  | MsgOrcaBadLine _ _ e => Some e
  | MsgDiagonalUnexpected _ e => Some e
  | MsgNotNumbers _ _ e => Some e
  | MsgRow0Unexpected _ e => Some e
  | _ => None
  end.

(** An array of [n_states] rows of [n_states] entries. *)
Definition well_shaped (m : list (list vec)) : Prop :=
  length m = n_states /\ Forall (fun row => length row = n_states) m.

(** The entry at [i], [j] for the accepted rows [diag] and [row0]:
    the diagonal from the first, row 0 and column 0 from the second,
    zero elsewhere and where the rows run out. *)
Definition expected_entry (diag row0 : list vec) (i j : nat) : vec :=
  if bool_decide (i = j) then nth i diag (zero, zero, zero)
  else if bool_decide (i = 0) then nth (j - 1) row0 (zero, zero, zero)
  else if bool_decide (j = 0) then nth (i - 1) row0 (zero, zero, zero)
  else (zero, zero, zero).

(** A warning about a line of the first file whose value is not a
    number, and the messages of the loop over the second file. *)
Definition orca_warning (sm : stream * message) : Prop :=
  exists row line_content s,
    sm = (Stderr, MsgOrcaBadLine row line_content (ValueError s)).

Definition dipoli_message (sm : stream * message) : Prop :=
  (exists reached row, sm = (Stdout, MsgNote reached row)) \/
  (exists row line_content, sm = (Stderr, MsgNotThreeColumns row line_content)) \/
  (exists row line_content s,
     sm = (Stderr, MsgNotNumbers row line_content (ValueError s))).

(** What part 1 prints, for the node at the name of the first file
    and the number of accepted rows: the opening line, the warnings, the
    count, and the shortfall when the count is under [n_states]; or the
    one error when there is no file to read. *)
Definition diagonal_report (n : option node) (accepted : nat)
    (printed : list (stream * message)) : Prop :=
  match n with
  | Some (File _) =>
      let found := Nat.min n_states accepted in
      exists warnings,
        Forall orca_warning warnings /\
        printed
        = [(Stdout, MsgReadingDiagonal orca_filename)] ++ warnings ++
          [(Stdout, MsgDiagonalRead found)] ++
          (if found <? n_states
           then [(Stderr, MsgDiagonalFew found orca_filename n_states)]
           else [])
  | Some Dir =>
      printed
      = [(Stderr,
          MsgDiagonalUnexpected orca_filename
            (OSError (IsADirectoryError orca_filename)))]
  | None => printed = [(Stderr, MsgDiagonalNotFound orca_filename)]
  end.

(** The same for part 2, where the count stops at [n_states - 1]. *)
Definition row0_report (n : option node) (accepted : nat)
    (printed : list (stream * message)) : Prop :=
  match n with
  | Some (File _) =>
      let found := Nat.min (n_states - 1) accepted in
      exists messages,
        Forall dipoli_message messages /\
        printed
        = [(Stdout, MsgReadingRow0 dipoli_filename)] ++ messages ++
          [(Stdout, MsgRow0Read found)] ++
          (if found <? n_states - 1
           then [(Stderr,
                  MsgRow0Few found dipoli_filename (n_states - 1)
                    (n_states - 1))]
           else [])
  | Some Dir =>
      printed
      = [(Stderr,
          MsgRow0Unexpected dipoli_filename
            (OSError (IsADirectoryError dipoli_filename)))]
  | None => printed = [(Stderr, MsgRow0NotFound dipoli_filename)]
  end.

(** The printed lines of the table for the entries [entry i j]. *)
Definition table (entry : nat -> nat -> vec) : list (stream * message) :=
  flat_map (fun i =>
    map (fun j =>
           let '(val_x, val_y, val_z) := entry i j in
           (Stdout, MsgEntry i j val_x val_y val_z))
        (seq 0 n_states))
    (seq 0 n_states).

(** The lines of a file, none when it cannot be read. *)
Definition lines_of (d : gmap Path node) (name : Path) : list str :=
  match node_at d name with
  | Some (File content) => readlines (universal_newlines content)
  | _ => []
  end.

End Floats.

Arguments mkState {float}.
Arguments print {float}.
Arguments zeros {float}.
Arguments to_float {float}.
Arguments last_three {float}.
Arguments first_three {float}.
Arguments diagonal_loop {float}.
Arguments read_diagonal {float}.
Arguments row0_loop {float}.
Arguments read_row0 {float}.
Arguments symmetry_loop {float}.
Arguments entries_loop {float}.
Arguments rows_loop {float}.
Arguments script {float}.
Arguments diagonal_rows {float}.
Arguments row0_rows {float}.
Arguments MsgOrcaBadLine {float}.
Arguments MsgRow0Unexpected {float}.
Arguments MsgDiagonalUnexpected {float}.
Arguments MsgNotNumbers {float}.
Arguments MsgNote {float}.
Arguments MsgDiagonalNotFound {float}.
Arguments MsgRow0NotFound {float}.
Arguments MsgDiagonalFew {float}.
Arguments MsgRow0Few {float}.
Arguments MsgEntry {float}.
Arguments matrix {float}.
Arguments console {float}.
Arguments getitem {float}.
Arguments setitem {float}.
Arguments well_shaped {float}.
Arguments reported {float}.
Arguments expected_entry {float}.
Arguments orca_warning {float}.
Arguments dipoli_message {float}.
Arguments table {float}.
Arguments diagonal_report {float}.
Arguments row0_report {float}.

End Matrix.

(** Numbers for the examples: the integers, written in digits. *)
Fixpoint digits_value (s : str) (acc : Z) : option Z :=
  match s with
  | [] => Some acc
  | c :: s' =>
      let n := nat_of_ascii c in
      if (48 <=? n) && (n <=? 57)
      then digits_value s' (10 * acc + Z.of_nat (n - 48))%Z
      else None
  end.

Definition sample_float (s : str) : option Z :=
  match s with
  | [] => None
  | _ :: _ => digits_value s 0%Z
  end.

(** Two files for the examples: a marker line with three numbers and
    one without; a row of three numbers, a blank line, a row of words
    and a row of two numbers. *)
Definition sample_disk : gmap Path node :=
  <[ Matrix.orca_filename :=
       File (L "Total Dipole Moment : 1 2 3" ++ [nl] ++
             L "Total Dipole Moment" ++ [nl]) ]>
    (<[ Matrix.dipoli_filename :=
          File (L "4 5 6" ++ [nl] ++ [nl] ++ L "x y z" ++ [nl] ++
                L "7 8" ++ [nl]) ]> ∅).


(* ===================================================================== *)
(** ** The command line *)
(* ===================================================================== *)

(** [main] above is the body of [main(argv)] from the parsed arguments
    on.  Before it come [build_arg_parser().parse_args(argv)] and
    [logging.basicConfig(level=...)]; they are embedded here, and with
    them the process [raise SystemExit(main())].

    [parse_args] is the one of [argparse] (CPython 3.11) for the parser
    that [build_arg_parser] builds: the positional [input], the options
    [--outdir] and [--log] with one argument each, the flag [--strict],
    and the [-h] and [--help] that [argparse] adds.  What [argparse]
    prints (the help, the usage and the error) is not part of the
    model.  The working directory is the root of the files. *)
Module Cli.

Inductive action := Help | Outdir | Strict | Log.

(** The option strings, in the order they are added. *)
Definition option_string_actions : dict action :=
  [ (L "-h", Help); (L "--help", Help); (L "--outdir", Outdir);
    (L "--strict", Strict); (L "--log", Log) ].

(** [choices] of [--log], with the level each name stands for. *)
Definition choices : dict level :=
  [ (L "DEBUG", DEBUG); (L "INFO", INFO); (L "WARNING", WARNING);
    (L "ERROR", ERROR); (L "CRITICAL", CRITICAL) ].

(** [s.split('=', 1)] when ['=' in s]. *)
Fixpoint split_eq (s : str) : option (str * str) :=
  match s with
  | [] => None
  | c :: s' =>
      if chr_eqb c "="%char then Some ([], s')
      else
        match split_eq s' with
        | Some (before, after) => Some (c :: before, after)
        | None => None
        end
  end.

Definition is_digit (c : ascii) : bool :=
  let n := nat_of_ascii c in (48 <=? n) && (n <=? 57).

(** [$] also matches just before a ["\n"] that ends the text. *)
Definition strip_final_newline (s : str) : str :=
  match rev s with
  | c :: r => if chr_eqb c nl then rev r else s
  | [] => s
  end.

(** [_negative_number_matcher]: [-\d+] or [-\d*\.\d+], to the end. *)
Definition negative_number (s : str) : bool :=
  match s with
  | c :: s' =>
      if chr_eqb c "-"%char then
        let t := strip_final_newline s' in
        match drop_while is_digit t with
        | [] => truthy t
        | d :: u => chr_eqb d "."%char && truthy u && forallb is_digit u
        end
      else false
  | [] => false
  end.

(** What an argument is taken for: a positional, the [--] that ends the
    options, or an option with its action ([None] when the parser has
    no such option) and the argument written with it, if any. *)
Inductive item :=
| A (arg_string : str)
| Marker
| O (act : option action) (option_string : str) (explicit_arg : option str).

(** [_get_option_tuples]: the option strings an abbreviation may stand
    for.  After two dashes these are the option strings that start with
    the text before the [=]; after one dash, the option string equal to
    the first two characters, with the rest as its argument, and the
    option strings that start with the whole text. *)
Definition get_option_tuples (arg_string : str)
  : list (action * str * option str) :=
  match arg_string with
  | _ :: c :: _ =>
      if chr_eqb c "-"%char then
        let '(option_prefix, explicit_arg) :=
          match split_eq arg_string with
          | Some (before, after) => (before, Some after)
          | None => (arg_string, None)
          end in
        omap (fun oa : str * action =>
                if is_prefix option_prefix (fst oa)
                then Some (snd oa, fst oa, explicit_arg) else None)
          option_string_actions
      else
        let short_option_prefix := take 2 arg_string in
        let short_explicit_arg := drop 2 arg_string in
        omap (fun oa : str * action =>
                if str_eqb (fst oa) short_option_prefix
                then Some (snd oa, fst oa, Some short_explicit_arg)
                else if is_prefix arg_string (fst oa)
                then Some (snd oa, fst oa, None)
                else None)
          option_string_actions
  | _ => []
  end.

(** [_parse_optional]: [None] is the error for an ambiguous
    abbreviation, which ends the process at once. *)
Definition parse_optional (arg_string : str) : option item :=
  match arg_string with
  | [] => Some (A arg_string)
  | c :: more =>
      if negb (chr_eqb c "-"%char) then Some (A arg_string)
      else
        match dict_get option_string_actions arg_string with
        | Some act => Some (O (Some act) arg_string None)
        | None =>
            match more with
            | [] => Some (A arg_string)
            | _ :: _ =>
                match
                  match split_eq arg_string with
                  | Some (option_string, explicit_arg) =>
                      match dict_get option_string_actions option_string with
                      | Some act =>
                          Some (O (Some act) option_string (Some explicit_arg))
                      | None => None
                      end
                  | None => None
                  end
                with
                | Some it => Some it
                | None =>
                    match get_option_tuples arg_string with
                    | _ :: _ :: _ => None
                    | [(act, option_string, explicit_arg)] =>
                        Some (O (Some act) option_string explicit_arg)
                    | [] =>
                        if negative_number arg_string then Some (A arg_string)
                        else if existsb (chr_eqb " "%char) arg_string
                        then Some (A arg_string)
                        else Some (O None arg_string None)
                    end
                end
            end
        end
  end.

(** The pattern of the command line: everything after the first [--] is
    a positional. *)
Fixpoint classify (arg_strings : list str) : option (list item) :=
  match arg_strings with
  | [] => Some []
  | arg_string :: more =>
      if str_eqb arg_string (L "--") then Some (Marker :: map A more)
      else
        match parse_optional arg_string with
        | None => None
        | Some it =>
            match classify more with
            | None => None
            | Some items => Some (it :: items)
            end
        end
  end.

(** [s.split('/')] *)
Fixpoint split_slash (s : str) : list str :=
  match s with
  | [] => [[]]
  | c :: s' =>
      if chr_eqb c "/"%char then [] :: split_slash s'
      else
        match split_slash s' with
        | part :: parts => (c :: part) :: parts
        | [] => [[c]]
        end
  end.

(** [Path(s)], taken from the working directory: the components of
    [s], without the empty ones and the [.] that [Path] drops.  A [..]
    stays in a [Path] and is followed by the system, and a NUL cannot
    be in an argument of a process: for such a text the result is
    [None], and the command line is outside the model. *)
Definition path_of_str (s : str) : option Path :=
  let components :=
    filter (fun c => c <> [] /\ c <> L ".") (split_slash s) in
  if existsb (chr_eqb (ascii_of_nat 0)) s then None
  else if existsb (fun c => str_eqb c (L "..")) components then None
  else Some (map string_of_list_ascii components).

(** The outcome of [parse_args]: the namespace, or the exit that
    [argparse] raises (status 0 after the help, 2 after an error), or a
    command line outside the model. *)
Inductive parsed :=
| Namespace (a : Args)
| SystemExit (code : nat)
| Uncovered.

(** The namespace while it is filled: [input] is [None] until the
    positional is seen, and [extras] says that a string was left over
    (the final error "unrecognized arguments"). *)
Record state := mkState {
  st_input : option Path;
  st_outdir : Path;
  st_strict : bool;
  st_log : level;
  extras : bool
}.

(** The defaults: [Path.cwd()], [False] and ["INFO"]. *)
Definition defaults : state := mkState None [] false INFO false.

(** The end of [_parse_known_args] and of [parse_args]: [input] is
    required, and a string left over is an error. *)
Definition finish (st : state) : parsed :=
  match st_input st with
  | None => SystemExit 2
  | Some inp =>
      if extras st then SystemExit 2
      else Namespace (mkArgs inp (st_outdir st) (st_strict st) (st_log st))
  end.

Definition set_input (s : str) (st : state) : option state :=
  match path_of_str s with
  | None => None
  | Some p =>
      Some (mkState (Some p) (st_outdir st) (st_strict st) (st_log st)
              (extras st))
  end.

Definition with_extras (st : state) (more : bool) : state :=
  mkState (st_input st) (st_outdir st) (st_strict st) (st_log st)
    (extras st || more).

(** The argument of [--outdir] or [--log] is converted and, for
    [--log], looked up in the choices. *)
Definition take_value (act : action) (value : str) (st : state)
  : parsed + state :=
  match act with
  | Outdir =>
      match path_of_str value with
      | None => inl Uncovered
      | Some p =>
          inr (mkState (st_input st) p (st_strict st) (st_log st) (extras st))
      end
  | _ =>
      match dict_get choices value with
      | None => inl (SystemExit 2)
      | Some lv =>
          inr (mkState (st_input st) (st_outdir st) (st_strict st) lv
                 (extras st))
      end
  end.

Definition set_strict (st : state) : state :=
  mkState (st_input st) (st_outdir st) true (st_log st) (extras st).

Definition is_option (it : item) : bool :=
  match it with O _ _ _ => true | _ => false end.

Definition nonempty {T} (l : list T) : bool :=
  match l with [] => false | _ :: _ => true end.

(** A [--] at the head of the pattern goes with the positional. *)
Definition skip_marker (items : list item) : list item :=
  match items with
  | Marker :: more => more
  | _ => items
  end.

(** The strings after the last option: the positional, when it is
    still to come, takes the first of them, with the [--] before or
    after it; whatever else is there is left over. *)
Definition tail_args (items : list item) (st : state) : parsed :=
  match st_input st with
  | Some _ => finish (with_extras st (nonempty items))
  | None =>
      match skip_marker items with
      | A s :: rest =>
          match set_input s st with
          | None => Uncovered
          | Some st' =>
              finish (with_extras st' (nonempty (skip_marker rest)))
          end
      | _ => finish (with_extras st (nonempty items))
      end
  end.

(** An option written with one dash. *)
Definition single_dash (option_string : str) : bool :=
  match option_string with
  | _ :: c :: _ => negb (chr_eqb c "-"%char)
  | _ => false
  end.

(** The letters written after a flag of one dash are read as more flags
    of one dash; [-h] is the only one there is, and the help is the
    first action taken. *)
Definition more_flags (explicit_arg : str) : bool :=
  truthy explicit_arg &&
  forallb (fun c =>
             match dict_get option_string_actions ["-"%char; c] with
             | Some Help => true
             | _ => false
             end) explicit_arg.

(** The loop of [_parse_known_args] over the pattern, from left to
    right: positionals and options are consumed in turn, an action is
    taken as soon as its option is consumed, and the first error or
    help ends the process.  A string that is no positional any more, or
    an option the parser does not have, is left over. *)
Fixpoint walk (items : list item) (st : state) : parsed :=
  if negb (existsb is_option items) then tail_args items st
  else
    match items with
    | [] => tail_args [] st
    | A s :: rest =>
        match st_input st with
        | None =>
            match set_input s st with
            | None => Uncovered
            | Some st' => walk rest st'
            end
        | Some _ => walk rest (with_extras st true)
        end
    | Marker :: rest => walk rest (with_extras st true)
    | O None _ _ :: rest => walk rest (with_extras st true)
    | O (Some act) option_string (Some explicit_arg) :: rest =>
        match act with
        | Help | Strict =>
            if single_dash option_string && more_flags explicit_arg
            then SystemExit 0
            else SystemExit 2
        | Outdir | Log =>
            if str_eqb explicit_arg (L "--") then Uncovered
            else
              match take_value act explicit_arg st with
              | inl p => p
              | inr st' => walk rest st'
              end
        end
    | O (Some act) _ None :: rest =>
        match act with
        | Help => SystemExit 0
        | Strict => walk rest (set_strict st)
        | Outdir | Log =>
            match rest with
            | A value :: rest' =>
                match take_value act value st with
                | inl p => p
                | inr st' => walk rest' st'
                end
            | _ => SystemExit 2
            end
        end
    end.

(** [build_arg_parser().parse_args(argv)] *)
Definition parse_args (argv : list str) : parsed :=
  match classify argv with
  | None => SystemExit 2
  | Some items => walk items defaults
  end.

(** The numeric value of a level. *)
Definition levelno (lv : level) : nat :=
  match lv with
  | DEBUG => 10
  | INFO => 20
  | WARNING => 30
  | ERROR => 40
  | CRITICAL => 50
  end.

(** [logging.basicConfig(level=getattr(logging, args.log), ...)] in a
    process that has not set up logging before: a call below the level
    makes no record. *)
Definition enabled (threshold : level) (r : LogRecord) : bool :=
  levelno threshold <=? levelno (levelname r).

(** [raise SystemExit(main())]: the exit status of the process and the
    world it leaves, for the command line [argv]; [None] for a command
    line outside the model.  An exit of [argparse] is the status of the
    process; otherwise the records are those that [main] hands to
    [logging] and that pass the level, and the status is what [main]
    returns (1 for an exception that leaves [main]). *)
Definition run (argv : list str) : option (World -> nat * World) :=
  match parse_args argv with
  | Uncovered => None
  | SystemExit code => Some (fun w => (code, w))
  | Namespace a =>
      Some (fun w =>
              let '(r, w') := main a w in
              (match r with Ok code => code | Raise _ => 1 end,
               mkWorld (fs w')
                 (records w ++
                  List.filter (enabled (log a))
                    (drop (length (records w)) (records w')))))
  end.

End Cli.

(* ===================================================================== *)
(** ** Facts about text *)
(* ===================================================================== *)

Section TextFacts.

Lemma chr_eqb_eq (a b : ascii) : chr_eqb a b = true <-> a = b.
Proof. unfold chr_eqb. apply Ascii.eqb_eq. Qed.

Lemma chr_eqb_refl (a : ascii) : chr_eqb a a = true.
Proof. apply chr_eqb_eq. reflexivity. Qed.

Lemma nl_is_space : py_isspace nl = true.
Proof. reflexivity. Qed.

Lemma nonspace_not_nl (c : ascii) : py_nonspace c = true -> chr_eqb nl c = false.
Proof.
  intros H. destruct (chr_eqb nl c) eqn:E; [|reflexivity].
  apply chr_eqb_eq in E. subst c. discriminate H.
Qed.

Variable p : ascii -> bool.

Lemma take_drop_while (s : str) : take_while p s ++ drop_while p s = s.
Proof.
  induction s as [|c s IH]; simpl; [reflexivity|].
  destruct (p c); simpl; [rewrite IH|]; reflexivity.
Qed.

Lemma take_while_all (s : str) : forallb p (take_while p s) = true.
Proof.
  induction s as [|c s IH]; simpl; [reflexivity|].
  destruct (p c) eqn:E; simpl; [rewrite E, IH|]; reflexivity.
Qed.

(** What is left after the run does not start with a [p]. *)
Lemma drop_while_head (s : str) (c : ascii) (r : str) :
  drop_while p s = c :: r -> p c = false.
Proof.
  induction s as [|d s IH]; simpl; [discriminate|].
  destruct (p d) eqn:E; [exact IH|].
  intros [= <- _]. exact E.
Qed.

Lemma drop_while_nil (s : str) :
  drop_while p s = [] <-> forallb p s = true.
Proof.
  induction s as [|c s IH]; simpl; [tauto|].
  destruct (p c); simpl; [exact IH|]. split; discriminate.
Qed.

(** A run of [p] followed by something that does not start with a [p]
    is split exactly there. *)
Lemma take_while_app (a b : str) :
  forallb p a = true ->
  match b with [] => true | c :: _ => negb (p c) end = true ->
  take_while p (a ++ b) = a.
Proof.
  intros Ha Hb. induction a as [|x a IH]; simpl in *.
  - destruct b as [|c b]; simpl; [reflexivity|].
    apply negb_true_iff in Hb. rewrite Hb. reflexivity.
  - apply andb_prop in Ha as [Hx Ha]. rewrite Hx, (IH Ha). reflexivity.
Qed.

Lemma drop_while_app (a b : str) :
  forallb p a = true ->
  match b with [] => true | c :: _ => negb (p c) end = true ->
  drop_while p (a ++ b) = b.
Proof.
  intros Ha Hb. induction a as [|x a IH]; simpl in *.
  - destruct b as [|c b]; simpl; [reflexivity|].
    apply negb_true_iff in Hb. rewrite Hb. reflexivity.
  - apply andb_prop in Ha as [Hx Ha]. rewrite Hx. exact (IH Ha).
Qed.

Lemma forallb_drop_while (s : str) :
  forallb p (drop_while p s) = forallb p s.
Proof.
  induction s as [|c s IH]; simpl; [reflexivity|].
  destruct (p c) eqn:E; simpl; [exact IH|]. rewrite E. reflexivity.
Qed.

End TextFacts.

Lemma truthy_rev (s : str) : truthy (rev s) = truthy s.
Proof.
  destruct s as [|c s]; [reflexivity|]. simpl.
  destruct (rev s ++ [c]) eqn:E; [|reflexivity].
  apply app_eq_nil in E as [_ E]. discriminate E.
Qed.

Lemma truthy_nil_iff (s : str) : truthy s = false <-> s = [].
Proof. destruct s; simpl; split; congruence. Qed.

Lemma truthy_drop_while (p : ascii -> bool) (s : str) :
  truthy (drop_while p s) = negb (forallb p s).
Proof.
  destruct (drop_while p s) eqn:E; simpl.
  - apply drop_while_nil in E. rewrite E. reflexivity.
  - destruct (forallb p s) eqn:F; [|reflexivity].
    apply drop_while_nil in F. congruence.
Qed.

Lemma forallb_rev (p : ascii -> bool) (s : str) :
  forallb p (rev s) = forallb p s.
Proof.
  induction s as [|c s IH]; simpl; [reflexivity|].
  rewrite forallb_app, IH. simpl. rewrite andb_true_r. apply andb_comm.
Qed.

(** A line is non-empty after [strip()] exactly when it has a character
    that is not whitespace. *)
Lemma truthy_strip (s : str) :
  truthy (strip s) = negb (forallb py_isspace s).
Proof.
  unfold strip, rstrip, lstrip.
  rewrite truthy_rev, truthy_drop_while, forallb_rev, forallb_drop_while.
  reflexivity.
Qed.

Lemma strip_nil_iff (s : str) : strip s = [] <-> forallb py_isspace s = true.
Proof.
  rewrite <- truthy_nil_iff, truthy_strip. apply negb_false_iff.
Qed.

Lemma negb_forallb_existsb (s : str) :
  negb (forallb py_isspace s) = existsb py_nonspace s.
Proof.
  induction s as [|c s IH]; simpl; [reflexivity|].
  rewrite negb_andb, IH. reflexivity.
Qed.

(** [rstrip("\n")] of a text that does not end in ["\n"], followed by any
    number of ["\n"]. *)
Lemma rstrip_nl_app (body : str) (n : nat) :
  match rev body with [] => true | c :: _ => negb (chr_eqb nl c) end = true ->
  rstrip_nl (body ++ repeat nl n) = body.
Proof.
  intros H. unfold rstrip_nl. rewrite rev_app_distr.
  assert (Hr : rev (repeat nl n) = repeat nl n).
  { clear. induction n as [|n IH]; [reflexivity|].
    simpl. rewrite IH. clear. induction n as [|n IH]; [reflexivity|].
    simpl. rewrite IH. reflexivity. }
  rewrite Hr, drop_while_app.
  - apply rev_involutive.
  - clear. induction n as [|n IH]; [reflexivity|exact IH].
  - exact H.
Qed.

Lemma repeat_snoc (c : ascii) (n : nat) : repeat c n ++ [c] = c :: repeat c n.
Proof. induction n as [|n IH]; [reflexivity|]. simpl. rewrite IH. reflexivity. Qed.

Lemma rstrip_nl_suffix (s : str) :
  exists n, s = rstrip_nl s ++ repeat nl n.
Proof.
  unfold rstrip_nl.
  assert (H : forall r : str,
             exists n, rev r = rev (drop_while (chr_eqb nl) r) ++ repeat nl n).
  { intros r. induction r as [|c r IH]; simpl.
    - exists 0. reflexivity.
    - destruct (chr_eqb nl c) eqn:E.
      + apply chr_eqb_eq in E. subst c. destruct IH as [n Hn].
        exists (S n). rewrite Hn, <- app_assoc, repeat_snoc. reflexivity.
      + exists 0. simpl. rewrite app_nil_r. reflexivity. }
  destruct (H (rev s)) as [n Hn]. rewrite rev_involutive in Hn.
  exists n. exact Hn.
Qed.

(** [rstrip("\n")] never ends in ["\n"]. *)
Lemma rstrip_nl_last (s : str) :
  match rev (rstrip_nl s) with
  | [] => true
  | c :: _ => negb (chr_eqb nl c)
  end = true.
Proof.
  unfold rstrip_nl. rewrite rev_involutive.
  destruct (drop_while (chr_eqb nl) (rev s)) as [|c r] eqn:E; [reflexivity|].
  apply drop_while_head in E. rewrite E. reflexivity.
Qed.

Lemma existsb_nonspace_rstrip_nl (s : str) :
  existsb py_nonspace (rstrip_nl s) = existsb py_nonspace s.
Proof.
  destruct (rstrip_nl_suffix s) as [n Hn].
  rewrite Hn at 2. rewrite existsb_app.
  assert (H : existsb py_nonspace (repeat nl n) = false).
  { clear. induction n as [|n IH]; [reflexivity|exact IH]. }
  rewrite H, orb_false_r. reflexivity.
Qed.

(* ===================================================================== *)
(** ** The tokenizer *)
(* ===================================================================== *)

Lemma chr_eqb_sym (a b : ascii) : chr_eqb a b = chr_eqb b a.
Proof.
  destruct (chr_eqb a b) eqn:E1, (chr_eqb b a) eqn:E2; try reflexivity.
  - apply chr_eqb_eq in E1. subst. rewrite chr_eqb_refl in E2. discriminate.
  - apply chr_eqb_eq in E2. subst. rewrite chr_eqb_refl in E1. discriminate.
Qed.

Lemma existsb_nl_rev (s : str) :
  existsb (chr_eqb nl) (rev s) = existsb (chr_eqb nl) s.
Proof.
  induction s as [|c s IH]; simpl; [reflexivity|].
  rewrite existsb_app, IH. simpl. rewrite orb_false_r. apply orb_comm.
Qed.

(** [.* $] takes a text without ["\n"] whole. *)
Lemma dot_star_eol_no_nl (s : str) :
  existsb (chr_eqb nl) s = false -> dot_star_eol s = Some s.
Proof.
  intros H. unfold dot_star_eol.
  destruct (rev s) as [|c r] eqn:E.
  - rewrite H. reflexivity.
  - assert (Hc : chr_eqb c nl = false).
    { rewrite <- existsb_nl_rev, E in H. simpl in H.
      apply orb_false_iff in H as [H _]. rewrite chr_eqb_sym. exact H. }
    rewrite Hc, H. reflexivity.
Qed.

Lemma dot_star_eol_sound (s body : str) :
  dot_star_eol s = Some body ->
  existsb (chr_eqb nl) body = false /\ (s = body \/ s = body ++ [nl]).
Proof.
  unfold dot_star_eol. intros H.
  destruct (rev s) as [|c r] eqn:E.
  - destruct (existsb (chr_eqb nl) s) eqn:F; [discriminate|].
    injection H as <-. auto.
  - destruct (chr_eqb c nl) eqn:Hc.
    + destruct (existsb (chr_eqb nl) (rev r)) eqn:F; [discriminate|].
      injection H as <-. split; [exact F|]. right.
      apply chr_eqb_eq in Hc. subst c.
      rewrite <- (rev_involutive s), E. reflexivity.
    + destruct (existsb (chr_eqb nl) s) eqn:F; [discriminate|].
      injection H as <-. auto.
Qed.

Lemma is_token_head (tok : str) :
  is_token tok = true ->
  match tok with [] => false | c :: _ => py_nonspace c end = true.
Proof.
  unfold is_token. destruct tok as [|c tok]; simpl; [discriminate|].
  intros H. apply andb_prop in H as [H _]. exact H.
Qed.

Lemma is_token_last (tok : str) :
  is_token tok = true ->
  match rev tok with [] => false | c :: _ => py_nonspace c end = true.
Proof.
  unfold is_token. intros H. apply andb_prop in H as [Ht Hall].
  rewrite <- forallb_rev in Hall. rewrite <- truthy_rev in Ht.
  destruct (rev tok) as [|c r]; [discriminate|].
  simpl in Hall. apply andb_prop in Hall as [Hc _]. exact Hc.
Qed.

(** The tokenizer finds the split of a text into leading whitespace, a
    token and a remainder. *)
Lemma FIRST_TOKEN_RE_match_split (lead tok rest : str) :
  forallb py_isspace lead = true ->
  is_token tok = true ->
  is_remainder rest = true ->
  FIRST_TOKEN_RE_match (lead ++ tok ++ rest) = Some (lead, tok, rest).
Proof.
  intros Hlead Htok Hrest.
  pose proof (is_token_head _ Htok) as Hhd.
  unfold is_token in Htok. apply andb_prop in Htok as [Hne Hall].
  unfold is_remainder in Hrest. apply andb_prop in Hrest as [Hsp Hnl].
  apply negb_true_iff in Hnl.
  assert (Hb : match tok ++ rest with
               | [] => true | c :: _ => negb (py_isspace c) end = true).
  { destruct tok as [|c tok]; [discriminate|]. exact Hhd. }
  assert (Hr : match rest with
               | [] => true | c :: _ => negb (py_nonspace c) end = true).
  { destruct rest as [|c rest]; [reflexivity|].
    unfold py_nonspace. rewrite Hsp. reflexivity. }
  unfold FIRST_TOKEN_RE_match.
  rewrite (take_while_app _ _ _ Hlead Hb), (drop_while_app _ _ _ Hlead Hb).
  rewrite (take_while_app _ _ _ Hall Hr), (drop_while_app _ _ _ Hall Hr).
  destruct tok as [|c tok]; [discriminate|].
  rewrite (dot_star_eol_no_nl _ Hnl). reflexivity.
Qed.

(** What the tokenizer returns is such a split, up to a final ["\n"]
    that [$] lets pass. *)
Lemma FIRST_TOKEN_RE_match_sound (s lead tok rest : str) :
  FIRST_TOKEN_RE_match s = Some (lead, tok, rest) ->
  forallb py_isspace lead = true /\ is_token tok = true /\
  is_remainder rest = true /\
  (s = lead ++ tok ++ rest \/ s = lead ++ tok ++ rest ++ [nl]).
Proof.
  unfold FIRST_TOKEN_RE_match. intros H.
  destruct (take_while py_nonspace (drop_while py_isspace s))
    as [|c t] eqn:Et; [discriminate|].
  destruct (dot_star_eol _) as [body|] eqn:Ed; [|discriminate].
  injection H as <- <- <-.
  apply dot_star_eol_sound in Ed as [Hnl Hs2].
  pose proof (take_drop_while py_isspace s) as Hs.
  pose proof (take_drop_while py_nonspace (drop_while py_isspace s)) as Hs1.
  rewrite Et in Hs1.
  split; [apply take_while_all|].
  split.
  { unfold is_token. rewrite <- Et. simpl.
    rewrite take_while_all, Et. reflexivity. }
  split.
  { unfold is_remainder. rewrite Hnl, andb_true_r.
    destruct body as [|b body]; [reflexivity|].
    assert (Hb : py_nonspace b = false).
    { destruct Hs2 as [Hs2|Hs2];
        exact (drop_while_head _ _ _ _ Hs2). }
    unfold py_nonspace in Hb. apply negb_false_iff in Hb. exact Hb. }
  destruct Hs2 as [Hs2|Hs2]; [left|right];
    rewrite <- Hs at 1; rewrite <- Hs1, Hs2; reflexivity.
Qed.

(** The text handed to the tokenizer for a line made of leading
    whitespace, a token, a remainder and any number of ["\n"]. *)
Lemma rstrip_nl_line (lead tok rest : str) (n : nat) :
  is_token tok = true ->
  is_remainder rest = true ->
  rstrip_nl (lead ++ tok ++ rest ++ repeat nl n) = lead ++ tok ++ rest.
Proof.
  intros Htok Hrest.
  replace (lead ++ tok ++ rest ++ repeat nl n)
    with ((lead ++ tok ++ rest) ++ repeat nl n)
    by (rewrite <- !app_assoc; reflexivity).
  apply rstrip_nl_app.
  rewrite !rev_app_distr.
  unfold is_remainder in Hrest. apply andb_prop in Hrest as [_ Hnl].
  apply negb_true_iff in Hnl. rewrite <- existsb_nl_rev in Hnl.
  destruct (rev rest) as [|c r]; simpl.
  - pose proof (is_token_last _ Htok) as Hl.
    destruct (rev tok) as [|c r]; [discriminate|]. simpl.
    rewrite (nonspace_not_nl _ Hl). reflexivity.
  - simpl in Hnl. apply orb_false_iff in Hnl as [Hc _].
    rewrite Hc. reflexivity.
Qed.

(** On a line that is not blank and has no ["\n"] before its end the
    tokenizer always finds a token. *)
Lemma FIRST_TOKEN_RE_match_text_line (line : str) :
  text_line line = true ->
  non_blank line = true ->
  exists lead tok rest,
    FIRST_TOKEN_RE_match (rstrip_nl line) = Some (lead, tok, rest) /\
    rstrip_nl line = lead ++ tok ++ rest /\
    forallb py_isspace lead = true /\ is_token tok = true /\
    is_remainder rest = true /\
    existsb (chr_eqb nl) (lead ++ tok ++ rest) = false.
Proof.
  intros Htl Hnb.
  set (s := rstrip_nl line).
  assert (Hnonl : existsb (chr_eqb nl) s = false).
  { unfold text_line in Htl. subst s. unfold rstrip_nl.
    rewrite existsb_nl_rev.
    destruct (rev line) as [|c r]; [discriminate|].
    apply negb_true_iff in Htl. simpl.
    destruct (chr_eqb nl c) eqn:E.
    - clear -Htl. induction r as [|d r IH]; [reflexivity|].
      simpl in *. apply orb_false_iff in Htl as [Hd Hr].
      rewrite Hd. simpl. rewrite Hd. exact Hr.
    - simpl. rewrite E, Htl. reflexivity. }
  assert (Hvis : existsb py_nonspace s = true).
  { subst s. rewrite existsb_nonspace_rstrip_nl, <- negb_forallb_existsb,
      <- truthy_strip. exact Hnb. }
  pose proof (take_drop_while py_isspace s) as Hs.
  pose proof (take_drop_while py_nonspace (drop_while py_isspace s)) as Hs1.
  set (lead := take_while py_isspace s) in *.
  set (s1 := drop_while py_isspace s) in *.
  set (tok := take_while py_nonspace s1) in *.
  set (rest := drop_while py_nonspace s1) in *.
  assert (Hsplit : s = lead ++ tok ++ rest) by (rewrite Hs1; auto).
  assert (Hparts : existsb (chr_eqb nl) rest = false).
  { rewrite Hsplit, !existsb_app in Hnonl.
    apply orb_false_iff in Hnonl as [_ Hnonl].
    apply orb_false_iff in Hnonl as [_ Hnonl]. exact Hnonl. }
  assert (Htokne : tok <> []).
  { intros Ht. subst tok.
    destruct s1 as [|c r] eqn:E1.
    - subst s1. apply drop_while_nil in E1.
      rewrite <- negb_forallb_existsb, E1 in Hvis. discriminate.
    - simpl in Ht. pose proof (drop_while_head _ _ _ _ E1) as Hc.
      unfold py_nonspace in Ht. rewrite Hc in Ht. discriminate. }
  assert (Hm : FIRST_TOKEN_RE_match s = Some (lead, tok, rest)).
  { unfold FIRST_TOKEN_RE_match. fold lead s1 tok rest.
    destruct tok as [|c t]; [congruence|].
    rewrite (dot_star_eol_no_nl _ Hparts). reflexivity. }
  exists lead, tok, rest. split; [exact Hm|]. split; [exact Hsplit|].
  destruct (FIRST_TOKEN_RE_match_sound _ _ _ _ Hm) as (H1 & H2 & H3 & _).
  rewrite <- Hsplit. auto.
Qed.

(** *** The tokenizer against the pattern *)

Lemma take_while_app_all (p : ascii -> bool) (a b : str) :
  forallb p a = true -> take_while p (a ++ b) = a ++ take_while p b.
Proof.
  induction a as [|c a IH]; simpl; [reflexivity|].
  intros H. apply andb_prop in H as [Hc Ha]. rewrite Hc, (IH Ha).
  reflexivity.
Qed.

Lemma drop_while_app_all (p : ascii -> bool) (a b : str) :
  forallb p a = true -> drop_while p (a ++ b) = drop_while p b.
Proof.
  induction a as [|c a IH]; simpl; [reflexivity|].
  intros H. apply andb_prop in H as [Hc Ha]. rewrite Hc. exact (IH Ha).
Qed.

Lemma existsb_nl_take_while_nonspace (s : str) :
  existsb (chr_eqb nl) (take_while py_nonspace s) = false.
Proof.
  induction s as [|c s IH]; simpl; [reflexivity|].
  destruct (py_nonspace c) eqn:E; [|reflexivity].
  simpl. rewrite (nonspace_not_nl _ E), IH. reflexivity.
Qed.

Lemma existsb_nl_snoc (r : str) : existsb (chr_eqb nl) (r ++ [nl]) = true.
Proof.
  induction r as [|c r IH]; [reflexivity|].
  simpl. rewrite IH. apply orb_true_r.
Qed.

(** X27.  The tokenizer returns a match exactly when the pattern can match,
    and the match it returns is the one of the greedy quantifiers: the
    leading whitespace of every match is the same, and the token of
    every match is the start of the token returned. *)
Lemma FIRST_TOKEN_RE_match_greedy (s : str) :
  (forall lead tok rest,
     FIRST_TOKEN_RE_match s = Some (lead, tok, rest) ->
     FIRST_TOKEN_RE_matches s lead tok rest) /\
  (forall lead' tok' rest',
     FIRST_TOKEN_RE_matches s lead' tok' rest' ->
     exists tok rest more,
       FIRST_TOKEN_RE_match s = Some (lead', tok, rest) /\
       tok = tok' ++ more).
Proof.
  split.
  - intros lead tok rest H.
    destruct (FIRST_TOKEN_RE_match_sound _ _ _ _ H) as (Hl & Ht & Hr & Hs).
    unfold is_remainder in Hr. apply andb_prop in Hr as [_ Hr].
    apply negb_true_iff in Hr. repeat split; assumption.
  - intros lead tok rest (Hl & Ht & Hnl & Hs).
    pose proof (is_token_head _ Ht) as Hhd.
    unfold is_token in Ht. apply andb_prop in Ht as [Hne Hall].
    assert (Hcut : exists rest', s = lead ++ tok ++ rest' /\
                     (rest' = rest \/ rest' = rest ++ [nl])).
    { destruct Hs as [Hs|Hs]; eauto. }
    destruct Hcut as (rest' & -> & Hrest'). clear Hs.
    assert (Hb : match tok ++ rest' with
                 | [] => true | c :: _ => negb (py_isspace c) end = true).
    { destruct tok as [|c tok]; [discriminate|]. exact Hhd. }
    unfold FIRST_TOKEN_RE_match.
    rewrite (take_while_app _ _ _ Hl Hb), (drop_while_app _ _ _ Hl Hb).
    rewrite (take_while_app_all _ _ _ Hall), (drop_while_app_all _ _ _ Hall).
    destruct tok as [|c tok]; [discriminate|]. simpl app at 1.
    pose proof (take_drop_while py_nonspace rest') as Hsplit.
    set (more := take_while py_nonspace rest') in *.
    set (s2 := drop_while py_nonspace rest') in *.
    assert (Hmore : existsb (chr_eqb nl) more = false)
      by apply existsb_nl_take_while_nonspace.
    assert (Hd : exists body, dot_star_eol s2 = Some body).
    { destruct Hrest' as [ -> | -> ].
      - exists s2. apply dot_star_eol_no_nl.
        rewrite <- Hsplit, existsb_app in Hnl.
        apply orb_false_iff in Hnl as [_ Hnl]. exact Hnl.
      - (* the final newline is in [s2] *)
        destruct (rev s2) as [|x r] eqn:Er.
        + apply (f_equal (@rev ascii)) in Er. rewrite rev_involutive in Er.
          simpl in Er. rewrite Er, app_nil_r in Hsplit.
          rewrite Hsplit, existsb_nl_snoc in Hmore. discriminate.
        + assert (Hs2 : s2 = rev r ++ [x]).
          { rewrite <- (rev_involutive s2), Er. reflexivity. }
          rewrite Hs2, app_assoc in Hsplit.
          apply app_inj_tail in Hsplit as [Hbody ->].
          exists (rev r). unfold dot_star_eol. rewrite Er, chr_eqb_refl.
          rewrite <- Hbody, existsb_app in Hnl.
          apply orb_false_iff in Hnl as [_ Hnl]. rewrite Hnl. reflexivity. }
    destruct Hd as [body Hd]. rewrite Hd.
    exists (c :: tok ++ more), body, more. split; reflexivity.
Qed.

(** *** The header pattern *)

Lemma eq_ignore_case_length (a b : str) :
  eq_ignore_case a b -> length a = length b.
Proof.
  unfold eq_ignore_case. intros H.
  apply (f_equal (@length ascii)) in H. rewrite !length_map in H. exact H.
Qed.

Lemma match_literal_ci_spec (pat s r : str) :
  match_literal_ci pat s = Some r <->
  exists a, s = a ++ r /\ eq_ignore_case a pat.
Proof.
  revert s. induction pat as [|p pat IH]; intros s; simpl.
  - split.
    + intros [= <-]. exists []. split; reflexivity.
    + intros (a & -> & Ha). apply eq_ignore_case_length in Ha.
      destruct a; [reflexivity|discriminate].
  - destruct s as [|c s].
    + split; [discriminate|]. intros (a & Hs & Ha).
      apply eq_ignore_case_length in Ha.
      destruct a; discriminate.
    + destruct (chr_eqb (ascii_lower c) (ascii_lower p)) eqn:E.
      * apply chr_eqb_eq in E. rewrite IH. split.
        -- intros (a & -> & Ha). exists (c :: a). split; [reflexivity|].
           unfold eq_ignore_case in *. simpl. rewrite E, Ha. reflexivity.
        -- intros (a & Hs & Ha). destruct a as [|x a].
           { apply eq_ignore_case_length in Ha. discriminate. }
           injection Hs as <- ->. injection Ha as _ Ha.
           exists a. split; [reflexivity|exact Ha].
      * split; [discriminate|]. intros (a & Hs & Ha).
        destruct a as [|x a].
        { apply eq_ignore_case_length in Ha. discriminate. }
        injection Hs as <- ->. injection Ha as Hx _.
        rewrite Hx, chr_eqb_refl in E. discriminate.
Qed.

(** A character that agrees with a visible ASCII character up to case
    is not whitespace. *)
Lemma lower_visible (c p : ascii) :
  ascii_lower c = ascii_lower p -> py_isspace p = false ->
  py_isspace c = false.
Proof.
  intros H Hp. destruct (py_isspace c) eqn:Hc; [|reflexivity].
  assert (Hid : ascii_lower c = c).
  { clear -Hc.
    destruct c as [[] [] [] [] [] [] [] []]; vm_compute in Hc;
      try discriminate; reflexivity. }
  rewrite Hid in H. subst c.
  clear -Hc Hp.
  destruct p as [[] [] [] [] [] [] [] []]; vm_compute in Hc, Hp;
    congruence.
Qed.

Lemma eq_ignore_case_head (a pat : str) (p : ascii) (pat' : str) :
  eq_ignore_case a pat -> pat = p :: pat' -> py_isspace p = false ->
  match a with [] => true | c :: _ => negb (py_isspace c) end = true.
Proof.
  intros Ha -> Hp. destruct a as [|c a]; [reflexivity|].
  injection Ha as Hc _. rewrite (lower_visible _ _ Hc Hp). reflexivity.
Qed.

Lemma GEOM_HEADER_PATTERN_at_spec (s : str) :
  GEOM_HEADER_PATTERN_at s = true <->
  exists a ws1 b ws2 c after,
    s = a ++ ws1 ++ b ++ ws2 ++ c ++ after /\
    eq_ignore_case a (L "CARTESIAN") /\
    truthy ws1 = true /\ forallb py_isspace ws1 = true /\
    eq_ignore_case b (L "COORDINATES") /\
    forallb py_isspace ws2 = true /\
    eq_ignore_case c (L "(ANGSTROEM)").
Proof.
  unfold GEOM_HEADER_PATTERN_at. split.
  - destruct (match_literal_ci (L "CARTESIAN") s) as [s1|] eqn:E1;
      [|discriminate].
    apply match_literal_ci_spec in E1 as (a & -> & Ha).
    destruct s1 as [|x s1'] eqn:Es1; [discriminate|].
    destruct (py_isspace x) eqn:Ex; [|discriminate].
    rewrite <- Es1.
    destruct (match_literal_ci (L "COORDINATES") _) as [s2|] eqn:E2;
      [|discriminate].
    apply match_literal_ci_spec in E2 as (b & Hs1 & Hb).
    destruct (match_literal_ci (L "(ANGSTROEM)") _) as [s3|] eqn:E3;
      [|discriminate].
    apply match_literal_ci_spec in E3 as (c & Hs2 & Hc).
    intros _.
    exists a, (take_while py_isspace s1), b, (take_while py_isspace s2),
      c, s3.
    split.
    { rewrite <- Hs2, (take_drop_while py_isspace s2), <- Hs1,
        (take_drop_while py_isspace s1), Es1. reflexivity. }
    split; [exact Ha|]. split.
    { rewrite Es1. simpl. rewrite Ex. reflexivity. }
    split; [apply take_while_all|]. split; [exact Hb|].
    split; [apply take_while_all|exact Hc].
  - intros (a & ws1 & b & ws2 & c & after & -> & Ha & Hne & Hws1 & Hb
            & Hws2 & Hc).
    assert (E1 : match_literal_ci (L "CARTESIAN")
                   (a ++ ws1 ++ b ++ ws2 ++ c ++ after)
                 = Some (ws1 ++ b ++ ws2 ++ c ++ after))
      by (apply match_literal_ci_spec; eauto).
    rewrite E1.
    destruct ws1 as [|x ws1']; [discriminate|].
    simpl in Hws1. apply andb_prop in Hws1 as [Hx Hws1].
    cbn [app drop_while]. rewrite Hx.
    rewrite (drop_while_app _ ws1' _ Hws1).
    2:{ pose proof (eq_ignore_case_head b _ _ _ Hb eq_refl eq_refl) as Hh.
        destruct b; [apply eq_ignore_case_length in Hb; discriminate|].
        exact Hh. }
    assert (E2 : match_literal_ci (L "COORDINATES")
                   (b ++ ws2 ++ c ++ after) = Some (ws2 ++ c ++ after))
      by (apply match_literal_ci_spec; eauto).
    rewrite E2.
    rewrite (drop_while_app _ ws2 _ Hws2).
    2:{ pose proof (eq_ignore_case_head c _ _ _ Hc eq_refl eq_refl) as Hh.
        destruct c; [apply eq_ignore_case_length in Hc; discriminate|].
        exact Hh. }
    assert (E3 : match_literal_ci (L "(ANGSTROEM)") (c ++ after)
                 = Some after)
      by (apply match_literal_ci_spec; eauto).
    rewrite E3. reflexivity.
Qed.

(** X26.  On a line of characters below U+0100, the texts of this
    model, the search finds the pattern exactly when the line holds it:
    [CARTESIAN], whitespace, [COORDINATES], any whitespace and
    [(ANGSTROEM)], each letter in either of its two ASCII forms.  The
    characters beyond U+00FF that [re.IGNORECASE] also takes for a
    letter of the pattern (U+017F for S, U+0130 and U+0131 for I) are
    not characters of the model, and nothing is stated about lines that
    hold them. *)
Lemma GEOM_HEADER_PATTERN_search_spec (s : str) :
  GEOM_HEADER_PATTERN_search s = true <-> GEOM_HEADER_PATTERN_matches s.
Proof.
  unfold GEOM_HEADER_PATTERN_matches.
  induction s as [|x s IH].
  - change (GEOM_HEADER_PATTERN_search [])
      with (GEOM_HEADER_PATTERN_at [] || false).
    rewrite orb_false_r, GEOM_HEADER_PATTERN_at_spec. split.
    + intros (a & ws1 & b & ws2 & c & after & H). exists [], a, ws1, b, ws2, c, after.
      exact H.
    + intros (before & a & ws1 & b & ws2 & c & after & Hs & H).
      symmetry in Hs. apply app_eq_nil in Hs as [-> Hs].
      exists a, ws1, b, ws2, c, after. split; [symmetry; exact Hs|exact H].
  - change (GEOM_HEADER_PATTERN_search (x :: s))
      with (GEOM_HEADER_PATTERN_at (x :: s) || GEOM_HEADER_PATTERN_search s).
    rewrite orb_true_iff, IH, GEOM_HEADER_PATTERN_at_spec. split.
    + intros [(a & ws1 & b & ws2 & c & after & H)
             |(before & a & ws1 & b & ws2 & c & after & Hs & H)].
      * exists [], a, ws1, b, ws2, c, after. exact H.
      * exists (x :: before), a, ws1, b, ws2, c, after.
        split; [simpl; rewrite Hs; reflexivity|exact H].
    + intros (before & a & ws1 & b & ws2 & c & after & Hs & H).
      destruct before as [|y before].
      * left. exists a, ws1, b, ws2, c, after. split; [exact Hs|exact H].
      * right. injection Hs as -> Hs.
        exists before, a, ws1, b, ws2, c, after. split; [exact Hs|exact H].
Qed.

(* ===================================================================== *)
(** ** Computations that only log *)
(* ===================================================================== *)

Lemma world_eta (w : World) : mkWorld (fs w) (records w ++ []) = w.
Proof. destruct w as [f r]. simpl. rewrite app_nil_r. reflexivity. Qed.

Lemma log_only_ret {A} (a : A) : log_only (ret a).
Proof.
  exists (Ok a), []. intros w. unfold ret. rewrite world_eta. reflexivity.
Qed.

Lemma log_only_raise {A} (e : exn) : log_only (@raise A e).
Proof.
  exists (Raise e), []. intros w. unfold raise. rewrite world_eta.
  reflexivity.
Qed.

Lemma log_only_log (lv : level) (m : str) (a : list arg) :
  log_only (logging_log lv m a).
Proof. exists (Ok tt), [mkLogRecord lv m a]. intros w. reflexivity. Qed.

Lemma log_only_bind {A B} (m : M A) (k : A -> M B) :
  log_only m -> (forall a, log_only (k a)) -> log_only (bind m k).
Proof.
  intros (r & logs & Hm) Hk. destruct r as [a|e].
  - destruct (Hk a) as (r' & logs' & Hka).
    exists r', (logs ++ logs'). intros w. unfold bind.
    rewrite Hm, Hka. simpl. rewrite app_assoc. reflexivity.
  - exists (Raise e), logs. intros w. unfold bind. rewrite Hm. reflexivity.
Qed.

Lemma log_only_symbol_to_mass_token (token : str) (strict : bool) :
  log_only (symbol_to_mass_token token strict).
Proof.
  unfold symbol_to_mass_token.
  destruct (dict_get MASS_BY_SYMBOL token); [apply log_only_ret|].
  destruct strict; [apply log_only_raise|].
  apply log_only_bind; [apply log_only_log|]. intros _. apply log_only_ret.
Qed.

Lemma log_only_transform_line (line : str) (strict : bool) :
  log_only (transform_line line strict).
Proof.
  unfold transform_line.
  destruct (FIRST_TOKEN_RE_match _) as [[[lead tok] rest]|];
    [|apply log_only_ret].
  apply log_only_bind; [apply log_only_symbol_to_mass_token|].
  intros t. apply log_only_ret.
Qed.

Lemma log_only_find_geometry_block (all_lines : list str) :
  log_only (find_geometry_block all_lines).
Proof.
  unfold find_geometry_block.
  destruct (find_header all_lines 0) as [h|].
  - destruct (length all_lines <=? h + 2); [apply log_only_ret|].
    destruct (scan_end _ _ _ <=? h + 2); apply log_only_ret.
  - apply log_only_bind; [apply log_only_log|]. intros _. apply log_only_ret.
Qed.

(** The run of a computation that only logs, from any world. *)
Lemma log_only_run {A} (m : M A) (w : World) :
  log_only m ->
  m w = (result_of m empty_world,
         mkWorld (fs w) (records w ++ records (world_after m empty_world))).
Proof.
  intros (r & logs & H). unfold result_of, world_after.
  rewrite (H empty_world), (H w). reflexivity.
Qed.

Lemma transform_line_run (line : str) (strict : bool) (w : World) :
  transform_line line strict w =
  (line_result line strict,
   mkWorld (fs w) (records w ++ line_records line strict)).
Proof. apply log_only_run, log_only_transform_line. Qed.

(* ===================================================================== *)
(** ** The transformer *)
(* ===================================================================== *)

Lemma transform_loop_cons (line : str) (more : list str) (strict : bool)
    (out_lines : list str) (w : World) :
  transform_loop (line :: more) strict out_lines w =
  bind (transform_line line strict)
       (fun o => transform_loop more strict (out_lines ++ [o])) w.
Proof.
  simpl. unfold transform_line, bind.
  destruct (FIRST_TOKEN_RE_match _) as [[[lead tok] rest]|]; [|reflexivity].
  unfold ret.
  destruct (symbol_to_mass_token tok strict w) as [[t|e] w']; reflexivity.
Qed.

(** When no line raises, the loop appends one output per line, in
    order, and logs the records of the lines, in order. *)
Lemma transform_loop_ok (raw_lines : list str) (strict : bool) :
  Forall (fun l => exists o, line_result l strict = Ok o) raw_lines ->
  exists outs,
    Forall2 (fun l o => line_result l strict = Ok o) raw_lines outs /\
    forall out_lines w,
      transform_loop raw_lines strict out_lines w =
      (Ok (out_lines ++ outs),
       mkWorld (fs w)
         (records w
          ++ concat (map (fun l => line_records l strict) raw_lines))).
Proof.
  induction raw_lines as [|line more IH]; intros Hall.
  - exists []. split; [constructor|]. intros acc w. simpl.
    unfold ret. rewrite app_nil_r, world_eta. reflexivity.
  - inversion Hall as [|? ? [o Ho] Hmore]; subst.
    destruct (IH Hmore) as (outs & HF & Hrun).
    exists (o :: outs). split; [constructor; assumption|].
    intros acc w. rewrite transform_loop_cons. unfold bind.
    rewrite transform_line_run, Ho, Hrun. simpl.
    rewrite <- !app_assoc. reflexivity.
Qed.

(** The loop stops at the first line that raises: the lines after it
    are not looked at, and no output is returned. *)
Lemma transform_loop_raise (pre post : list str) (bad : str)
    (strict : bool) (e : exn) :
  Forall (fun l => exists o, line_result l strict = Ok o) pre ->
  line_result bad strict = Raise e ->
  forall out_lines w,
    transform_loop (pre ++ bad :: post) strict out_lines w =
    (Raise e,
     mkWorld (fs w)
       (records w
        ++ concat (map (fun l => line_records l strict) pre)
        ++ line_records bad strict)).
Proof.
  induction pre as [|line more IH]; intros Hall Hbad acc w.
  - simpl app. rewrite transform_loop_cons. unfold bind.
    rewrite transform_line_run, Hbad. reflexivity.
  - inversion Hall as [|? ? [o Ho] Hmore]; subst.
    change ((line :: more) ++ bad :: post)
      with (line :: (more ++ bad :: post)).
    rewrite transform_loop_cons. unfold bind.
    rewrite transform_line_run, Ho, (IH Hmore Hbad). simpl.
    rewrite <- !app_assoc. reflexivity.
Qed.

(** *** One line *)

Lemma symbol_to_mass_token_known (tok : str) (mass : nat) (strict : bool) :
  dict_get MASS_BY_SYMBOL tok = Some mass ->
  symbol_to_mass_token tok strict = ret (str_of_nat mass).
Proof. intros H. unfold symbol_to_mass_token. rewrite H. reflexivity. Qed.

Lemma transform_line_split (lead tok rest : str) (n : nat) (strict : bool) :
  forallb py_isspace lead = true ->
  is_token tok = true ->
  is_remainder rest = true ->
  transform_line (lead ++ tok ++ rest ++ repeat nl n) strict =
  bind (symbol_to_mass_token tok strict)
       (fun new_tok => ret (lead ++ new_tok ++ rest ++ [nl])).
Proof.
  intros Hl Ht Hr. unfold transform_line.
  rewrite (rstrip_nl_line _ _ _ _ Ht Hr).
  rewrite (FIRST_TOKEN_RE_match_split _ _ _ Hl Ht Hr). reflexivity.
Qed.

Lemma line_known (lead tok rest : str) (n mass : nat) (strict : bool) :
  forallb py_isspace lead = true ->
  is_token tok = true ->
  is_remainder rest = true ->
  dict_get MASS_BY_SYMBOL tok = Some mass ->
  line_result (lead ++ tok ++ rest ++ repeat nl n) strict
    = Ok (lead ++ str_of_nat mass ++ rest ++ [nl]) /\
  line_records (lead ++ tok ++ rest ++ repeat nl n) strict = [].
Proof.
  intros Hl Ht Hr Hm. unfold line_result, line_records, result_of, world_after.
  rewrite (transform_line_split _ _ _ _ _ Hl Ht Hr).
  rewrite (symbol_to_mass_token_known _ _ _ Hm). split; reflexivity.
Qed.

Lemma line_unknown_permissive (lead tok rest : str) (n : nat) :
  forallb py_isspace lead = true ->
  is_token tok = true ->
  is_remainder rest = true ->
  dict_get MASS_BY_SYMBOL tok = None ->
  line_result (lead ++ tok ++ rest ++ repeat nl n) false
    = Ok (lead ++ tok ++ rest ++ [nl]) /\
  line_records (lead ++ tok ++ rest ++ repeat nl n) false
    = [unrecognized_token_record tok].
Proof.
  intros Hl Ht Hr Hm. unfold line_result, line_records, result_of, world_after.
  rewrite (transform_line_split _ _ _ _ _ Hl Ht Hr).
  unfold symbol_to_mass_token. rewrite Hm. split; reflexivity.
Qed.

Lemma line_unknown_strict (lead tok rest : str) (n : nat) :
  forallb py_isspace lead = true ->
  is_token tok = true ->
  is_remainder rest = true ->
  dict_get MASS_BY_SYMBOL tok = None ->
  line_result (lead ++ tok ++ rest ++ repeat nl n) true
    = Raise (ValueError (unrecognized_symbol_message tok)) /\
  line_records (lead ++ tok ++ rest ++ repeat nl n) true = [].
Proof.
  intros Hl Ht Hr Hm. unfold line_result, line_records, result_of, world_after.
  rewrite (transform_line_split _ _ _ _ _ Hl Ht Hr).
  unfold symbol_to_mass_token. rewrite Hm. split; reflexivity.
Qed.

(** Without [strict] no line raises. *)
Lemma line_permissive_ok (line : str) :
  exists o, line_result line false = Ok o.
Proof.
  unfold line_result, result_of, transform_line.
  destruct (FIRST_TOKEN_RE_match _) as [[[lead tok] rest]|];
    [|eexists; reflexivity].
  unfold symbol_to_mass_token, bind.
  destruct (dict_get MASS_BY_SYMBOL tok); eexists; reflexivity.
Qed.

(** With [strict] an accepted line does not raise and logs nothing. *)
Lemma line_accepted_ok (line : str) :
  accepted_in_strict line = true ->
  (exists o, line_result line true = Ok o) /\ line_records line true = [].
Proof.
  unfold accepted_in_strict, line_result, line_records, result_of,
    world_after, transform_line.
  destruct (FIRST_TOKEN_RE_match _) as [[[lead tok] rest]|];
    [|intros _; split; [eexists|]; reflexivity].
  unfold dict_mem, symbol_to_mass_token, bind.
  destruct (dict_get MASS_BY_SYMBOL tok); [|discriminate].
  intros _. split; [eexists|]; reflexivity.
Qed.

Lemma lines_ok (raw_lines : list str) (strict : bool) :
  (strict = true -> forallb accepted_in_strict raw_lines = true) ->
  Forall (fun l => exists o, line_result l strict = Ok o) raw_lines.
Proof.
  intros H. destruct strict.
  - specialize (H eq_refl). rewrite forallb_forall in H.
    apply List.Forall_forall. intros l Hl.
    apply (line_accepted_ok l (H l Hl)).
  - apply List.Forall_forall. intros l _. apply line_permissive_ok.
Qed.

(* ===================================================================== *)
(** ** Properties of the token transformer *)
(* ===================================================================== *)

Lemma expected_mass_token_ok (sym mass : str) :
  dict_get expected_mass_token sym = Some mass ->
  is_token sym = true /\
  exists m, dict_get MASS_BY_SYMBOL sym = Some m /\ str_of_nat m = mass.
Proof.
  unfold expected_mass_token, dict_get, str_eqb.
  repeat case_bool_decide; try discriminate;
    intros [= <-]; subst sym; (split; [reflexivity|]);
    eexists; split; reflexivity.
Qed.

Lemma transformed_line_terminator (lead new_tok rest : str) :
  is_token new_tok = true ->
  is_remainder rest = true ->
  rstrip_nl (lead ++ new_tok ++ rest ++ [nl]) ++ [nl]
  = lead ++ new_tok ++ rest ++ [nl].
Proof.
  intros Ht Hr.
  pose proof (rstrip_nl_line lead new_tok rest 1 Ht Hr) as H.
  change (repeat nl 1) with [nl] in H. rewrite H.
  rewrite <- !app_assoc. reflexivity.
Qed.

(** C2.  In a block handed to the transformer, a line made of leading
    whitespace, one of the symbols N, C, O, H, a remainder and its line
    terminators comes out, at the same position, as the same leading
    whitespace, the decimal text 14, 12, 16, 1 of the symbol, the same
    remainder and one line terminator.  With [strict] set this needs
    that no line of the block is rejected. *)
Theorem known_symbol_transformation
    (raw_lines : list str) (strict : bool) (w : World) (i : nat)
    (lead sym mass rest : str) (n : nat) :
  dict_get expected_mass_token sym = Some mass ->
  raw_lines !! i = Some (lead ++ sym ++ rest ++ repeat nl n) ->
  forallb py_isspace lead = true ->
  is_remainder rest = true ->
  (strict = true -> forallb accepted_in_strict raw_lines = true) ->
  exists out logs,
    transform_geometry_lines raw_lines strict w
      = (Ok out, mkWorld (fs w) (records w ++ logs)) /\
    length out = length raw_lines /\
    out !! i = Some (lead ++ mass ++ rest ++ [nl]) /\
    rstrip_nl (lead ++ mass ++ rest ++ [nl]) ++ [nl]
      = lead ++ mass ++ rest ++ [nl].
Proof.
  intros Hsym Hi Hlead Hrest Hstrict.
  destruct (expected_mass_token_ok _ _ Hsym) as (Htok & m & Hm & Hstr).
  destruct (transform_loop_ok raw_lines strict (lines_ok _ _ Hstrict))
    as (outs & HF & Hrun).
  exists outs, (concat (map (fun l => line_records l strict) raw_lines)).
  split; [unfold transform_geometry_lines; rewrite Hrun; reflexivity|].
  split; [symmetry; exact (Forall2_length _ _ _ HF)|].
  destruct (Forall2_lookup_l _ _ _ _ _ HF Hi) as (o & Ho & Hres).
  destruct (line_known lead sym rest n m strict Hlead Htok Hrest Hm)
    as [Hk _].
  rewrite Hk, Hstr in Hres. injection Hres as <-.
  split; [exact Ho|].
  apply transformed_line_terminator; [|exact Hrest].
  rewrite <- Hstr. clear -Hsym Hm.
  unfold expected_mass_token, dict_get, str_eqb in Hsym.
  repeat case_bool_decide; try discriminate; subst sym;
    injection Hm as <-; reflexivity.
Qed.

Lemma known_symbol_transformation_witness :
  let raw_lines :=
    [ L "N   0.000  0.000  0.000" ++ [nl];
      L "  H   1.000  0.000  0.000" ++ [nl] ] in
  exists out logs,
    transform_geometry_lines raw_lines true empty_world
      = (Ok out, mkWorld (fs empty_world) (records empty_world ++ logs)) /\
    length out = length raw_lines /\
    out !! 1 = Some (L "  " ++ L "1" ++ L "   1.000  0.000  0.000" ++ [nl]) /\
    rstrip_nl (L "  " ++ L "1" ++ L "   1.000  0.000  0.000" ++ [nl]) ++ [nl]
      = L "  " ++ L "1" ++ L "   1.000  0.000  0.000" ++ [nl].
Proof.
  intros raw_lines.
  apply (known_symbol_transformation raw_lines true empty_world 1
           (L "  ") (L "H") (L "1") (L "   1.000  0.000  0.000") 1).
  - reflexivity.
  - reflexivity.
  - reflexivity.
  - reflexivity.
  - intros _. reflexivity.
Defined.

(** C3.  With [strict] set, at the first line of the block whose first
    token has no mass the transformer raises the error whose text holds
    that token and the sorted list of the supported symbols; the lines
    after it do not matter, nothing is logged and no output is
    returned. *)
Theorem strict_mode_failure
    (pre post : list str) (lead tok rest : str) (n : nat) (w : World) :
  forallb accepted_in_strict pre = true ->
  forallb py_isspace lead = true ->
  is_token tok = true ->
  is_remainder rest = true ->
  dict_get MASS_BY_SYMBOL tok = None ->
  transform_geometry_lines
    (pre ++ (lead ++ tok ++ rest ++ repeat nl n) :: post) true w
  = (Raise (ValueError
              (L "Unrecognized atomic symbol '" ++ tok
               ++ L "' in geometry block; supported: "
               ++ L "['C', 'H', 'N', 'O']")), w)
  /\ L "['C', 'H', 'N', 'O']" = repr_list (sorted (map fst MASS_BY_SYMBOL)).
Proof.
  intros Hpre Hlead Htok Hrest Hnone.
  split; [|reflexivity].
  destruct (line_unknown_strict lead tok rest n Hlead Htok Hrest Hnone)
    as [Hres Hrec].
  assert (Hok : Forall (fun l => exists o, line_result l true = Ok o) pre)
    by (apply lines_ok; intros _; exact Hpre).
  unfold transform_geometry_lines.
  rewrite (transform_loop_raise pre post _ true _ Hok Hres), Hrec.
  assert (Hlogs : concat (map (fun l => line_records l true) pre) = []).
  { clear -Hpre. induction pre as [|l pre IH]; [reflexivity|].
    simpl in Hpre. apply andb_prop in Hpre as [Hl Hpre].
    simpl. rewrite (proj2 (line_accepted_ok l Hl)), (IH Hpre). reflexivity. }
  rewrite Hlogs. simpl. rewrite world_eta. reflexivity.
Qed.

Lemma strict_mode_failure_witness :
  transform_geometry_lines
    ([L "N   0.000  0.000  0.000" ++ [nl]]
     ++ (L " " ++ L "Xx" ++ L "  2.0 2.0 2.0" ++ repeat nl 1)
     :: [L "H   1.000  0.000  0.000" ++ [nl]]) true empty_world
  = (Raise (ValueError
              (L "Unrecognized atomic symbol '" ++ L "Xx"
               ++ L "' in geometry block; supported: "
               ++ L "['C', 'H', 'N', 'O']")), empty_world)
  /\ L "['C', 'H', 'N', 'O']" = repr_list (sorted (map fst MASS_BY_SYMBOL)).
Proof.
  apply (strict_mode_failure [L "N   0.000  0.000  0.000" ++ [nl]]
           [L "H   1.000  0.000  0.000" ++ [nl]]
           (L " ") (L "Xx") (L "  2.0 2.0 2.0") 1 empty_world);
    reflexivity.
Defined.

(** C4, as stated, fails: without [strict], the line
    ["Xx  2.0 2.0 2.0\n"] passes through and one warning is logged, but
    the warning holds the token only; the text of the line is in no
    record. *)
Lemma permissive_warning_names_no_line :
  let line := L "Xx  2.0 2.0 2.0" ++ [nl] in
  let run := transform_geometry_lines [line] false empty_world in
  fst run = Ok [line] /\
  records (snd run) = [unrecognized_token_record (L "Xx")] /\
  map getMessage (records (snd run))
    = [L "Unrecognized first token 'Xx' in geometry row; leaving unchanged."] /\
  ~ (exists r, In r (records (snd run)) /\
               contains (L "Xx  2.0 2.0 2.0") (getMessage r) = true).
Proof.
  cbv zeta.
  assert (Hrun : transform_geometry_lines [L "Xx  2.0 2.0 2.0" ++ [nl]]
                   false empty_world
                 = (Ok [L "Xx  2.0 2.0 2.0" ++ [nl]],
                    mkWorld ∅ [unrecognized_token_record (L "Xx")]))
    by reflexivity.
  rewrite Hrun. simpl fst. simpl snd. simpl records.
  split; [reflexivity|]. split; [reflexivity|]. split; [reflexivity|].
  intros (r & [<-|[]] & Hc). vm_compute in Hc. discriminate Hc.
Qed.

(** C4, amended.  Without [strict], a line of the block whose first
    token has no mass comes out, at the same position, unchanged but for
    its terminators, which become one; the transformer returns, and it
    logs a warning whose text holds the token. *)
Theorem permissive_pass_through
    (raw_lines : list str) (w : World) (i : nat)
    (lead tok rest : str) (n : nat) :
  raw_lines !! i = Some (lead ++ tok ++ rest ++ repeat nl n) ->
  forallb py_isspace lead = true ->
  is_token tok = true ->
  is_remainder rest = true ->
  dict_get MASS_BY_SYMBOL tok = None ->
  exists out logs r,
    transform_geometry_lines raw_lines false w
      = (Ok out, mkWorld (fs w) (records w ++ logs)) /\
    length out = length raw_lines /\
    out !! i = Some (lead ++ tok ++ rest ++ [nl]) /\
    In r logs /\
    levelname r = WARNING /\
    getMessage r
      = L "Unrecognized first token '" ++ tok
        ++ L "' in geometry row; leaving unchanged.".
Proof.
  intros Hi Hlead Htok Hrest Hnone.
  assert (Hperm : false = true -> forallb accepted_in_strict raw_lines = true)
    by discriminate.
  destruct (transform_loop_ok raw_lines false (lines_ok _ _ Hperm))
    as (outs & HF & Hrun).
  destruct (line_unknown_permissive lead tok rest n Hlead Htok Hrest Hnone)
    as [Hres Hrec].
  exists outs, (concat (map (fun l => line_records l false) raw_lines)),
    (unrecognized_token_record tok).
  split; [unfold transform_geometry_lines; rewrite Hrun; reflexivity|].
  split; [symmetry; exact (Forall2_length _ _ _ HF)|].
  destruct (Forall2_lookup_l _ _ _ _ _ HF Hi) as (o & Ho & Hres').
  rewrite Hres in Hres'. injection Hres' as <-.
  split; [exact Ho|].
  split.
  { apply in_concat. exists [unrecognized_token_record tok].
    split; [|left; reflexivity].
    rewrite <- Hrec. apply (in_map (fun l => line_records l false)).
    apply list_elem_of_In, list_elem_of_lookup. exists i. exact Hi. }
  split; reflexivity.
Qed.

Lemma permissive_pass_through_witness :
  let raw_lines :=
    [ L "N   0.000  0.000  0.000" ++ [nl]; L "Xx  2.0 2.0 2.0" ++ [nl] ] in
  exists out logs r,
    transform_geometry_lines raw_lines false empty_world
      = (Ok out, mkWorld (fs empty_world) (records empty_world ++ logs)) /\
    length out = length raw_lines /\
    out !! 1 = Some ([] ++ L "Xx" ++ L "  2.0 2.0 2.0" ++ [nl]) /\
    In r logs /\
    levelname r = WARNING /\
    getMessage r
      = L "Unrecognized first token '" ++ L "Xx"
        ++ L "' in geometry row; leaving unchanged.".
Proof.
  intros raw_lines.
  apply (permissive_pass_through raw_lines empty_world 1
           [] (L "Xx") (L "  2.0 2.0 2.0") 1); reflexivity.
Defined.

(* ===================================================================== *)
(** ** The block locator *)
(* ===================================================================== *)

Lemma forallb_lookup {A} (p : A -> bool) (l : list A) :
  forallb p l = true <-> forall i x, l !! i = Some x -> p x = true.
Proof.
  rewrite forallb_forall. split.
  - intros H i x Hi. apply H, list_elem_of_In, list_elem_of_lookup.
    exists i. exact Hi.
  - intros H x Hx. apply list_elem_of_In, list_elem_of_lookup in Hx.
    destruct Hx as [i Hi]. exact (H i x Hi).
Qed.

Lemma non_blank_nil : non_blank [] = false.
Proof. reflexivity. Qed.

(** *** The search for the header *)

Lemma find_header_None (all_lines : list str) (i : nat) :
  find_header all_lines i = None <->
  forallb (fun l => negb (GEOM_HEADER_PATTERN_search l)) all_lines = true.
Proof.
  revert i. induction all_lines as [|l ls IH]; intros i; simpl.
  - tauto.
  - destruct (GEOM_HEADER_PATTERN_search l); simpl.
    + split; discriminate.
    + apply IH.
Qed.

(** The search returns the index of the first line the pattern is found
    in. *)
Lemma find_header_Some (all_lines : list str) (i h : nat) :
  find_header all_lines i = Some h <->
  exists j header,
    h = i + j /\ all_lines !! j = Some header /\
    GEOM_HEADER_PATTERN_search header = true /\
    forallb (fun l => negb (GEOM_HEADER_PATTERN_search l))
      (take j all_lines) = true.
Proof.
  revert i. induction all_lines as [|l ls IH]; intros i; simpl.
  - split; [discriminate|]. intros (j & hd & _ & Hj & _).
    destruct j; discriminate Hj.
  - destruct (GEOM_HEADER_PATTERN_search l) eqn:El.
    + split.
      * intros [= <-]. exists 0, l.
        split; [lia|]. split; [reflexivity|]. split; [exact El|reflexivity].
      * intros (j & hd & -> & Hj & Hhd & Hbefore).
        destruct j as [|j]; [f_equal; lia|].
        simpl in Hbefore. rewrite El in Hbefore. discriminate.
    + rewrite IH. split.
      * intros (j & hd & -> & Hj & Hhd & Hbefore).
        exists (S j), hd.
        split; [lia|]. split; [exact Hj|]. split; [exact Hhd|].
        simpl. rewrite El. exact Hbefore.
      * intros (j & hd & -> & Hj & Hhd & Hbefore).
        destruct j as [|j].
        { simpl in Hj. injection Hj as <-. congruence. }
        exists j, hd.
        split; [lia|]. split; [exact Hj|]. split; [exact Hhd|].
        simpl in Hbefore. rewrite El in Hbefore. exact Hbefore.
Qed.

(** *** The scan to the first blank line *)

Lemma scan_end_ge (fuel : nat) (all_lines : list str) (e : nat) :
  e <= scan_end fuel all_lines e.
Proof.
  revert e. induction fuel as [|fuel IH]; intros e; simpl; [lia|].
  destruct (all_lines !! e) as [l|]; [|lia].
  destruct (truthy (strip l)); [|lia].
  specialize (IH (S e)). lia.
Qed.

(** Every line the scan passes is a line of the sequence, and is not
    blank. *)
Lemma scan_end_range (fuel : nat) (all_lines : list str) (e j : nat) :
  e <= j < scan_end fuel all_lines e ->
  exists l, all_lines !! j = Some l /\ non_blank l = true.
Proof.
  revert e. induction fuel as [|fuel IH]; intros e; simpl; [lia|].
  destruct (all_lines !! e) as [l|] eqn:El; [|lia].
  destruct (truthy (strip l)) eqn:Et; [|lia].
  intros Hj. destruct (decide (j = e)) as [->|Hne].
  - exists l. split; [exact El|exact Et].
  - apply (IH (S e)). lia.
Qed.

(** With [length all_lines] as fuel the loop ends by its own test: the
    index it stops at is out of range or holds a blank line. *)
Lemma scan_end_exit (fuel : nat) (all_lines : list str) (e : nat) :
  length all_lines - e <= fuel ->
  non_blank (default [] (all_lines !! scan_end fuel all_lines e)) = false.
Proof.
  revert e. induction fuel as [|fuel IH]; intros e Hfuel; simpl.
  - rewrite (lookup_ge_None_2 all_lines e) by lia. reflexivity.
  - destruct (all_lines !! e) as [l|] eqn:El.
    + destruct (truthy (strip l)) eqn:Et.
      * apply IH. lia.
      * rewrite El. exact Et.
    + rewrite El. reflexivity.
Qed.

(** The scan passes exactly the non-blank lines in front of the first
    blank one. *)
Lemma scan_end_count (fuel : nat) (all_lines : list str) (e k : nat) :
  k <= fuel ->
  (forall i, i < k ->
     exists l, all_lines !! (e + i) = Some l /\ non_blank l = true) ->
  non_blank (default [] (all_lines !! (e + k))) = false ->
  scan_end fuel all_lines e = e + k.
Proof.
  revert fuel e. induction k as [|k IH]; intros fuel e Hfuel Hrun Hstop.
  - rewrite Nat.add_0_r in *. destruct fuel as [|fuel]; simpl; [reflexivity|].
    destruct (all_lines !! e) as [l|]; [|reflexivity].
    simpl in Hstop. unfold non_blank in Hstop. rewrite Hstop. reflexivity.
  - destruct fuel as [|fuel]; [lia|]. simpl.
    destruct (Hrun 0 ltac:(lia)) as (l & Hl & Hnb).
    rewrite Nat.add_0_r in Hl. rewrite Hl.
    unfold non_blank in Hnb. rewrite Hnb.
    rewrite (IH fuel (S e)).
    + lia.
    + lia.
    + intros i Hi. destruct (Hrun (S i) ltac:(lia)) as (l' & Hl' & Hnb').
      exists l'. split; [|exact Hnb'].
      replace (S e + i) with (e + S i) by lia. exact Hl'.
    + replace (S e + k) with (e + S k) by lia. exact Hstop.
Qed.

(** The scan moves at all exactly when the line it starts at is not
    blank. *)
Lemma scan_end_first (fuel : nat) (all_lines : list str) (e : nat) (l : str) :
  all_lines !! e = Some l ->
  0 < fuel ->
  (scan_end fuel all_lines e <= e <-> strip l = []).
Proof.
  intros Hl Hfuel. destruct fuel as [|fuel]; [lia|]. simpl.
  rewrite Hl. rewrite <- truthy_nil_iff.
  destruct (truthy (strip l)).
  - pose proof (scan_end_ge fuel all_lines (S e)).
    split; [lia|discriminate].
  - split; [reflexivity|lia].
Qed.

(** *** What the locator returns *)

(** The three ways of the locator, by the header found and the scan. *)
Lemma find_geometry_block_cases (all_lines : list str) (w : World) :
  (find_header all_lines 0 = None /\
   result_of (find_geometry_block all_lines) w = Ok None)
  \/
  (exists h,
     find_header all_lines 0 = Some h /\
     (length all_lines <= h + 2 \/
      scan_end (length all_lines) all_lines (h + 2) <= h + 2) /\
     find_geometry_block all_lines w = (Ok None, w))
  \/
  (exists h,
     find_header all_lines 0 = Some h /\
     h + 2 < length all_lines /\
     h + 2 < scan_end (length all_lines) all_lines (h + 2) /\
     find_geometry_block all_lines w =
       (Ok (Some (mkGeometryBlock (h + 2)
                    (scan_end (length all_lines) all_lines (h + 2))
                    (slice all_lines (h + 2)
                       (scan_end (length all_lines) all_lines (h + 2))))),
        w)).
Proof.
  unfold find_geometry_block, result_of.
  destruct (find_header all_lines 0) as [h|].
  - right.
    destruct (length all_lines <=? h + 2) eqn:E1.
    + left. exists h. apply Nat.leb_le in E1. auto.
    + apply Nat.leb_gt in E1.
      destruct (scan_end _ _ _ <=? h + 2) eqn:E2.
      * left. exists h. apply Nat.leb_le in E2. auto.
      * right. exists h. apply Nat.leb_gt in E2. auto.
  - left. auto.
Qed.

(* ===================================================================== *)
(** ** Properties of the block locator *)
(* ===================================================================== *)

(** C1, as stated, fails.  First, the header has to be the first line
    the pattern is found in: below, the pattern is found in line 1 and
    one non-blank line follows at index 3, but the locator starts from
    line 0, finds line 2 blank and returns no block.  Second, a header
    followed by no non-blank line gives no block, not an empty one. *)
Lemma block_locator_takes_first_header :
  let hdr := L "CARTESIAN COORDINATES (ANGSTROEM)" ++ [nl] in
  let all_lines := [hdr; hdr; [nl]; L "N 0.0 0.0 0.0" ++ [nl]; [nl]] in
  let no_data := [hdr; L "------" ++ [nl]; [nl]] in
  (all_lines !! 1 = Some hdr /\
   GEOM_HEADER_PATTERN_search hdr = true /\
   forallb non_blank (take 1 (drop 3 all_lines)) = true /\
   non_blank (default [] (all_lines !! 4)) = false /\
   find_geometry_block all_lines empty_world = (Ok None, empty_world))
  /\
  (no_data !! 0 = Some hdr /\
   forallb non_blank (take 0 (drop 2 no_data)) = true /\
   non_blank (default [] (no_data !! 2)) = false /\
   find_geometry_block no_data empty_world = (Ok None, empty_world)).
Proof. vm_compute. repeat split; reflexivity. Qed.

(** C1, amended.  When the first line the header pattern is found in is
    at index [h], and exactly [k >= 1] non-blank lines follow from index
    [h + 2] on (the line at [h + 2 + k] is blank or the sequence ends
    there), the locator returns the block with the range
    [[h + 2, h + 2 + k)] whose lines are that slice of the sequence, and
    leaves the world as it is. *)
Theorem block_locator_exact
    (all_lines : list str) (h k : nat) (header : str) (w : World) :
  all_lines !! h = Some header ->
  GEOM_HEADER_PATTERN_search header = true ->
  forallb (fun l => negb (GEOM_HEADER_PATTERN_search l))
    (take h all_lines) = true ->
  0 < k ->
  h + 2 + k <= length all_lines ->
  forallb non_blank (take k (drop (h + 2) all_lines)) = true ->
  non_blank (default [] (all_lines !! (h + 2 + k))) = false ->
  find_geometry_block all_lines w
    = (Ok (Some (mkGeometryBlock (h + 2) (h + 2 + k)
                   (take k (drop (h + 2) all_lines)))), w)
  /\ length (take k (drop (h + 2) all_lines)) = k
  /\ forall i, i < k ->
       take k (drop (h + 2) all_lines) !! i = all_lines !! (h + 2 + i).
Proof.
  intros Hh Hhdr Hfirst Hk Hlen Hrun Hstop.
  assert (Hfind : find_header all_lines 0 = Some h).
  { apply find_header_Some. exists h, header. auto. }
  assert (Hscan : scan_end (length all_lines) all_lines (h + 2) = h + 2 + k).
  { apply scan_end_count; [lia| |exact Hstop].
    intros i Hi.
    destruct (lookup_lt_is_Some_2 all_lines (h + 2 + i) ltac:(lia))
      as [l Hl].
    exists l. split; [exact Hl|].
    rewrite forallb_lookup in Hrun. apply (Hrun i).
    rewrite lookup_take_lt, lookup_drop by lia. exact Hl. }
  split.
  - unfold find_geometry_block. rewrite Hfind.
    destruct (length all_lines <=? h + 2) eqn:E1;
      [apply Nat.leb_le in E1; lia|].
    rewrite Hscan.
    destruct (h + 2 + k <=? h + 2) eqn:E2;
      [apply Nat.leb_le in E2; lia|].
    unfold slice. replace (h + 2 + k - (h + 2)) with k by lia.
    reflexivity.
  - split.
    + rewrite length_take, length_drop. lia.
    + intros i Hi. rewrite lookup_take_lt, lookup_drop by lia. reflexivity.
Qed.

Lemma block_locator_exact_witness :
  let all_lines :=
    [ L "preamble" ++ [nl];
      L "CARTESIAN COORDINATES (ANGSTROEM)" ++ [nl];
      L "---------------------------------" ++ [nl];
      L "N   0.000  0.000  0.000" ++ [nl];
      L "H   1.000  0.000  0.000" ++ [nl];
      [nl];
      L "trailer" ++ [nl] ] in
  find_geometry_block all_lines empty_world
    = (Ok (Some (mkGeometryBlock (1 + 2) (1 + 2 + 2)
                   (take 2 (drop (1 + 2) all_lines)))), empty_world)
  /\ length (take 2 (drop (1 + 2) all_lines)) = 2
  /\ forall i, i < 2 ->
       take 2 (drop (1 + 2) all_lines) !! i = all_lines !! (1 + 2 + i).
Proof.
  intros all_lines.
  apply (block_locator_exact all_lines 1 2
           (L "CARTESIAN COORDINATES (ANGSTROEM)" ++ [nl]) empty_world).
  - reflexivity.
  - reflexivity.
  - reflexivity.
  - lia.
  - simpl. lia.
  - reflexivity.
  - reflexivity.
Defined.

(** C5.  The locator never raises.  It reports "not found" exactly when
    the header pattern is found in no line, or the first line it is
    found in is at an index [h] with [h + 2] at or beyond the end of the
    sequence, or the line at [h + 2] is empty after trimming.  In
    particular it reports "not found" whenever the pattern is found in
    no line. *)
Theorem block_locator_not_found (all_lines : list str) (w : World) :
  (exists r, result_of (find_geometry_block all_lines) w = Ok r) /\
  (result_of (find_geometry_block all_lines) w = Ok None <->
   forallb (fun l => negb (GEOM_HEADER_PATTERN_search l)) all_lines = true
   \/
   exists h header,
     all_lines !! h = Some header /\
     GEOM_HEADER_PATTERN_search header = true /\
     forallb (fun l => negb (GEOM_HEADER_PATTERN_search l))
       (take h all_lines) = true /\
     (length all_lines <= h + 2 \/
      exists l, all_lines !! (h + 2) = Some l /\ strip l = [])) /\
  (forallb (fun l => negb (GEOM_HEADER_PATTERN_search l)) all_lines = true ->
   result_of (find_geometry_block all_lines) w = Ok None).
Proof.
  assert (Hfirst : forall h header,
             all_lines !! h = Some header ->
             GEOM_HEADER_PATTERN_search header = true ->
             forallb (fun l => negb (GEOM_HEADER_PATTERN_search l))
               (take h all_lines) = true ->
             find_header all_lines 0 = Some h).
  { intros h header H1 H2 H3. apply find_header_Some.
    exists h, header. auto. }
  destruct (find_geometry_block_cases all_lines w)
    as [[Hnone Hres]|[(h & Hfind & Hwhy & Hres)|(h & Hfind & Hlt & Hscan & Hres)]].
  - (* no header *)
    split; [eauto|]. split.
    + split; [intros _; left; apply (find_header_None _ 0), Hnone|auto].
    + auto.
  - (* a header, and no data line *)
    unfold result_of. rewrite Hres. simpl.
    apply find_header_Some in Hfind as Hh.
    destruct Hh as (j & header & Hj & Hlook & Hhdr & Hbefore).
    simpl in Hj. subst j.
    split; [eauto|]. split; [|auto].
    split; [|auto]. intros _. right. exists h, header.
    split; [exact Hlook|]. split; [exact Hhdr|]. split; [exact Hbefore|].
    destruct (le_lt_dec (length all_lines) (h + 2)) as [Hle|Hlt]; [left; exact Hle|].
    right. destruct Hwhy as [Hle|Hscan]; [lia|].
    destruct (lookup_lt_is_Some_2 all_lines (h + 2) Hlt) as [l Hl].
    exists l. split; [exact Hl|].
    apply (scan_end_first (length all_lines) all_lines (h + 2) l Hl);
      [lia|exact Hscan].
  - (* a block *)
    unfold result_of. rewrite Hres. simpl.
    split; [eauto|]. split.
    + split; [discriminate|].
      intros [Hno|(h' & header & Hlook & Hhdr & Hbefore & Hwhy)].
      * apply (find_header_None _ 0) in Hno. congruence.
      * pose proof (Hfirst _ _ Hlook Hhdr Hbefore) as Hh'.
        rewrite Hfind in Hh'. injection Hh' as <-.
        destruct Hwhy as [Hle|(l & Hl & Hblank)]; [lia|].
        apply (scan_end_first (length all_lines) all_lines (h + 2) l Hl)
          in Hblank; lia.
    + intros Hno. apply (find_header_None _ 0) in Hno. congruence.
Qed.

(** C10.  Whenever the locator returns a block, its range is not empty,
    its lines are as many as the range is long, and every one of them is
    non-empty after trimming; so the text the tokenizer gets for it has
    a character that is not whitespace, and the case of a line of
    whitespace only does not arise. *)
Theorem located_block_lines_non_blank
    (all_lines : list str) (w w' : World) (b : GeometryBlock) :
  find_geometry_block all_lines w = (Ok (Some b), w') ->
  start_line b < end_line b /\
  length (lines b) = end_line b - start_line b /\
  Forall (fun line =>
            strip line <> [] /\
            existsb py_nonspace (rstrip_nl line) = true)
         (lines b).
Proof.
  intros Hrun.
  destruct (find_geometry_block_cases all_lines w)
    as [[Hnone Hres]|[(h & Hfind & Hwhy & Hres)|(h & Hfind & Hlt & Hscan & Hres)]].
  - unfold result_of in Hres. rewrite Hrun in Hres. discriminate.
  - rewrite Hrun in Hres. discriminate.
  - rewrite Hrun in Hres. injection Hres as -> _. simpl.
    set (e := scan_end (length all_lines) all_lines (h + 2)) in *.
    assert (He : e <= length all_lines).
    { destruct (le_lt_dec e (length all_lines)) as [Hle|Hgt]; [exact Hle|].
      destruct (scan_end_range (length all_lines) all_lines (h + 2)
                  (length all_lines)) as (l & Hl & _).
      - fold e. lia.
      - apply lookup_lt_Some in Hl. lia. }
    split; [exact Hscan|]. split.
    + unfold slice. rewrite length_take, length_drop. lia.
    + apply Forall_lookup. intros i line Hi. unfold slice in Hi.
      apply lookup_take_Some in Hi as [Hi Hlt'].
      rewrite lookup_drop in Hi.
      destruct (scan_end_range (length all_lines) all_lines (h + 2)
                  (h + 2 + i)) as (l & Hl & Hnb).
      { fold e. lia. }
      rewrite Hi in Hl. injection Hl as <-.
      unfold non_blank in Hnb. split.
      * intros Hnil. rewrite Hnil in Hnb. discriminate.
      * rewrite existsb_nonspace_rstrip_nl, <- negb_forallb_existsb,
          <- truthy_strip. exact Hnb.
Qed.

Lemma located_block_lines_non_blank_witness :
  let all_lines :=
    [ L "CARTESIAN COORDINATES (ANGSTROEM)" ++ [nl];
      L "---------------------------------" ++ [nl];
      L "N   0.000  0.000  0.000" ++ [nl];
      L "H   1.000  0.000  0.000" ++ [nl];
      [nl] ] in
  let b := mkGeometryBlock 2 4 (slice all_lines 2 4) in
  start_line b < end_line b /\
  length (lines b) = end_line b - start_line b /\
  Forall (fun line =>
            strip line <> [] /\
            existsb py_nonspace (rstrip_nl line) = true)
         (lines b).
Proof.
  intros all_lines b.
  apply (located_block_lines_non_blank all_lines empty_world empty_world b).
  reflexivity.
Defined.

(* ===================================================================== *)
(** ** Reading and writing *)
(* ===================================================================== *)

(** *** Lines *)

Lemma text_line_cons (c : ascii) (l : str) :
  chr_eqb nl c = false -> text_line l = true -> text_line (c :: l) = true.
Proof.
  unfold text_line. intros Hc. simpl.
  destruct (rev l) as [|x r]; [discriminate|]. simpl.
  intros H. apply negb_true_iff in H. apply negb_true_iff.
  rewrite existsb_app, H. simpl. rewrite Hc. reflexivity.
Qed.

(** Every line that [readlines] gives is a text line. *)
Lemma readlines_text_lines (s : str) :
  Forall (fun l => text_line l = true) (readlines s).
Proof.
  induction s as [|c s IH]; simpl; [constructor|].
  destruct (chr_eqb c nl) eqn:Ec.
  - constructor; [reflexivity|exact IH].
  - rewrite chr_eqb_sym in Ec.
    destruct (readlines s) as [|l ls].
    + constructor; [|constructor]. unfold text_line. reflexivity.
    + inversion IH; subst. constructor; [|assumption].
      apply text_line_cons; assumption.
Qed.

(** The lines put together are the text. *)
Lemma concat_readlines (s : str) : concat (readlines s) = s.
Proof.
  induction s as [|c s IH]; simpl; [reflexivity|].
  destruct (chr_eqb c nl) eqn:Ec.
  - apply chr_eqb_eq in Ec. subst c. simpl. rewrite IH. reflexivity.
  - destruct (readlines s) as [|l ls]; simpl in *; rewrite <- IH; reflexivity.
Qed.

Lemma one_terminator_split (line : str) :
  one_terminator line = true ->
  exists body, line = body ++ [nl] /\ existsb (chr_eqb nl) body = false.
Proof.
  unfold one_terminator. intros H.
  destruct (rev line) as [|c r] eqn:E; [discriminate|].
  apply andb_prop in H as [Hc Hr]. apply chr_eqb_eq in Hc. subst c.
  apply negb_true_iff in Hr. exists (rev r). split.
  - rewrite <- (rev_involutive line), E. reflexivity.
  - rewrite existsb_nl_rev. exact Hr.
Qed.

Lemma readlines_line (body rest : str) :
  existsb (chr_eqb nl) body = false ->
  readlines ((body ++ [nl]) ++ rest) = (body ++ [nl]) :: readlines rest.
Proof.
  induction body as [|c body IH]; intros H.
  - reflexivity.
  - simpl. simpl in H. apply orb_false_iff in H as [Hc Hb].
    rewrite chr_eqb_sym, Hc. rewrite (IH Hb). reflexivity.
Qed.

(** Lines that each end in their only ["\n"] are read back as they were
    written. *)
Lemma readlines_concat (out : list str) :
  Forall (fun l => one_terminator l = true) out ->
  readlines (concat out) = out.
Proof.
  induction out as [|l out IH]; intros H; [reflexivity|].
  inversion H as [|? ? Hl Hout]; subst. simpl.
  destruct (one_terminator_split _ Hl) as (body & -> & Hb).
  rewrite (readlines_line _ _ Hb), (IH Hout). reflexivity.
Qed.

(** *** Computations on the files *)

Lemma fs_only_ret {A} (a : A) : fs_only (ret a).
Proof.
  exists (fun f => (Ok a, f)). intros [f r]. reflexivity.
Qed.

Lemma fs_only_bind {A B} (m : M A) (k : A -> M B) :
  fs_only m -> (forall a, fs_only (k a)) -> fs_only (bind m k).
Proof.
  intros [g Hg] Hk.
  assert (Hch : exists gk : A -> gmap Path node -> Res B * gmap Path node,
             forall a w, k a w = (fst (gk a (fs w)),
                                  mkWorld (snd (gk a (fs w))) (records w))).
  { clear -Hk. unfold fs_only in Hk.
    exists (fun a f => (result_of (k a) (mkWorld f []),
                        fs (world_after (k a) (mkWorld f [])))).
    intros a w. destruct (Hk a) as [ga Hga].
    unfold result_of, world_after. rewrite (Hga (mkWorld (fs w) [])), Hga.
    reflexivity. }
  destruct Hch as [gk Hgk].
  exists (fun f => match g f with
                   | (Ok a, f') => gk a f'
                   | (Raise e, f') => (Raise e, f')
                   end).
  intros w. unfold bind. rewrite Hg.
  destruct (g (fs w)) as [[a|e] f']; simpl; [|reflexivity].
  rewrite Hgk. reflexivity.
Qed.

Lemma fs_only_mkdir_from (done : Path) (todo : list string) :
  fs_only (mkdir_from done todo).
Proof.
  revert done. induction todo as [|c todo IH]; intros done; simpl.
  - apply fs_only_ret.
  - destruct (IH (done ++ [c])) as [g Hg].
    exists (fun f => match f !! (done ++ [c]) with
                     | Some Dir => g f
                     | Some (File _) => (Raise (FileExistsError (done ++ [c])), f)
                     | None => g (<[done ++ [c] := Dir]> f)
                     end).
    intros [f r]. simpl.
    destruct (f !! (done ++ [c])) as [[content|]|]; simpl;
      try rewrite Hg; reflexivity.
Qed.

Lemma fs_only_open_w (path : Path) : fs_only (open_w path).
Proof.
  exists (fun f =>
            match node_at f path with
            | Some Dir => (Raise (IsADirectoryError path), f)
            | _ =>
                match node_at f (parent path) with
                | Some Dir => (Ok tt, <[path := File []]> f)
                | Some (File _) => (Raise (NotADirectoryError path), f)
                | None => (Raise (FileNotFoundError path), f)
                end
            end).
  intros [f r]. unfold open_w. simpl.
  destruct (node_at f path) as [[c|]|];
    try destruct (node_at f (parent path)) as [[c'|]|]; reflexivity.
Qed.

Lemma fs_only_file_write (path : Path) (ln : str) :
  fs_only (file_write path ln).
Proof.
  exists (fun f =>
            match f !! path with
            | Some (File content) =>
                (Ok tt, <[path := File (content ++ ln)]> f)
            | _ => (Raise (FileNotFoundError path), f)
            end).
  intros [f r]. unfold file_write. simpl.
  destruct (f !! path) as [[c|]|]; reflexivity.
Qed.

Lemma fs_only_write_loop (path : Path) (out : list str) :
  fs_only (write_loop path out).
Proof.
  induction out as [|ln more IH]; simpl.
  - apply fs_only_ret.
  - apply fs_only_bind; [apply fs_only_file_write|]. intros _. exact IH.
Qed.

Lemma fs_only_write_text_lines (path : Path) (out : list str) :
  fs_only (write_text_lines path out).
Proof.
  unfold write_text_lines.
  apply fs_only_bind; [apply fs_only_mkdir_from|]. intros _.
  apply fs_only_bind; [apply fs_only_open_w|]. intros _.
  apply fs_only_write_loop.
Qed.

(** Two runs of such a computation on the same files do the same. *)
Lemma fs_only_run {A} (m : M A) (w1 w2 : World) :
  fs_only m ->
  fs w1 = fs w2 ->
  result_of m w1 = result_of m w2 /\
  fs (world_after m w1) = fs (world_after m w2) /\
  records (world_after m w1) = records w1.
Proof.
  intros [g Hg] Hfs. unfold result_of, world_after.
  rewrite (Hg w1), (Hg w2), Hfs. auto.
Qed.

(** *** Writing *)

Lemma write_loop_run (path : Path) (out : list str) (content : str)
    (w : World) :
  fs w !! path = Some (File content) ->
  write_loop path out w =
  (Ok tt,
   mkWorld (<[path := File (content ++ concat out)]> (fs w)) (records w)).
Proof.
  revert content w. induction out as [|ln more IH]; intros content w Hw.
  - simpl. unfold ret. rewrite app_nil_r, (insert_id _ _ _ Hw).
    destruct w; reflexivity.
  - simpl. unfold bind, file_write. rewrite Hw.
    rewrite (IH (content ++ ln)); simpl.
    + rewrite insert_insert_eq, <- app_assoc. reflexivity.
    + apply lookup_insert_eq.
Qed.

Lemma parent_neq (path : Path) : path <> [] -> parent path <> path.
Proof.
  intros Hne Heq.
  pose proof (app_removelast_last ""%string Hne) as H.
  unfold parent in Heq. rewrite Heq in H.
  apply (f_equal (@length string)) in H.
  rewrite length_app in H. simpl in H. lia.
Qed.

(** [mkdir_from] only adds directories. *)
Lemma mkdir_from_grows (done : Path) (todo : list string) (w w' : World)
    (r : Res unit) :
  mkdir_from done todo w = (r, w') ->
  fs w ⊆ fs w' /\ records w' = records w.
Proof.
  revert done w. induction todo as [|c todo IH]; intros done w; simpl.
  - intros [= <- <-]. auto.
  - destruct (fs w !! (done ++ [c])) as [[content|]|] eqn:E.
    + intros [= <- <-]. auto.
    + apply IH.
    + intros H. apply IH in H as [Hsub Hrec]. simpl in *.
      split; [|exact Hrec].
      etrans; [|exact Hsub]. apply insert_subseteq. exact E.
Qed.

(** After [mkdir_from] every directory on the way is there. *)
Lemma mkdir_from_dirs (done : Path) (todo : list string) (w w' : World) :
  mkdir_from done todo w = (Ok tt, w') ->
  forall j, j < length todo ->
            fs w' !! (done ++ take (S j) todo) = Some Dir.
Proof.
  revert done w. induction todo as [|c todo IH]; intros done w; simpl.
  - intros _ j Hj. lia.
  - intros Hrun j Hj.
    assert (Hhere : exists w1, mkdir_from (done ++ [c]) todo w1 = (Ok tt, w')
                               /\ fs w1 !! (done ++ [c]) = Some Dir).
    { destruct (fs w !! (done ++ [c])) as [[content|]|] eqn:E.
      - discriminate Hrun.
      - exists w. auto.
      - eexists. split; [exact Hrun|]. simpl. apply lookup_insert_eq. }
    destruct Hhere as (w1 & Hrun1 & Hd).
    destruct j as [|j].
    + change (take 1 (c :: todo)) with [c].
      apply mkdir_from_grows in Hrun1 as [Hsub _].
      exact (lookup_weaken _ _ _ _ Hd Hsub).
    + replace (done ++ c :: take (S j) todo)
        with ((done ++ [c]) ++ take (S j) todo)
        by (rewrite <- app_assoc; reflexivity).
      apply (IH _ _ Hrun1). lia.
Qed.

(** When they are all there, [mkdir_from] changes nothing. *)
Lemma mkdir_from_idle (done : Path) (todo : list string) (w : World) :
  (forall j, j < length todo ->
             fs w !! (done ++ take (S j) todo) = Some Dir) ->
  mkdir_from done todo w = (Ok tt, w).
Proof.
  revert done. induction todo as [|c todo IH]; intros done H; simpl.
  - reflexivity.
  - pose proof (H 0 ltac:(simpl; lia)) as H0.
    change (take 1 (c :: todo)) with [c] in H0. rewrite H0.
    apply IH. intros j Hj. specialize (H (S j) ltac:(simpl; lia)).
    rewrite <- app_assoc. exact H.
Qed.

(** What a successful [write_text_lines] leaves: the directories on the
    way, and the file with the lines, one after the other. *)
Lemma write_text_lines_ok (path : Path) (out : list str) (w w' : World) :
  write_text_lines path out w = (Ok tt, w') ->
  exists w1,
    mkdir_from [] (parent path) w = (Ok tt, w1) /\
    path <> [] /\
    node_at (fs w1) path <> Some Dir /\
    node_at (fs w1) (parent path) = Some Dir /\
    w' = mkWorld (<[path := File (concat out)]> (fs w1)) (records w1).
Proof.
  unfold write_text_lines, mkdir_parents, bind.
  destruct (mkdir_from [] (parent path) w) as [[[]|e] w1] eqn:Emk;
    [|discriminate].
  unfold open_w.
  destruct (node_at (fs w1) path) as [[c|]|] eqn:Enode;
    try discriminate;
    (destruct (node_at (fs w1) (parent path)) as [[c'|]|] eqn:Epar;
     try discriminate);
    (rewrite (write_loop_run path out []) by (simpl; apply lookup_insert_eq));
    simpl; rewrite insert_insert_eq; intros [= <-];
    exists w1; (split; [reflexivity|]);
    (split; [intros ->; simpl in Enode; discriminate|]);
    (split; [congruence|]); (split; [exact Epar|reflexivity]).
Qed.

(* ===================================================================== *)
(** ** The orchestration *)
(* ===================================================================== *)

Lemma log_only_transform_loop (raw_lines : list str) (strict : bool)
    (out_lines : list str) :
  log_only (transform_loop raw_lines strict out_lines).
Proof.
  revert out_lines. induction raw_lines as [|line more IH]; intros acc.
  - apply log_only_ret.
  - destruct (log_only_bind (transform_line line strict)
                (fun o => transform_loop more strict (acc ++ [o])))
      as (r & logs & H).
    + apply log_only_transform_line.
    + intros o. apply IH.
    + exists r, logs. intros w. rewrite transform_loop_cons. apply H.
Qed.

(** A step that only logs gives, from any world, the result it gives
    from [w], and leaves the files of [w]. *)
Lemma log_only_step {A} (m : M A) (w0 w : World) :
  log_only m ->
  fs w0 = fs w ->
  result_of m w0 = result_of m w /\ fs (world_after m w0) = fs w.
Proof.
  intros (r & logs & H) Hfs. unfold result_of, world_after.
  rewrite (H w0), (H w). simpl. auto.
Qed.

Lemma run_pair {A} (m : M A) (w : World) :
  m w = (result_of m w, world_after m w).
Proof. unfold result_of, world_after. destruct (m w). reflexivity. Qed.

(** [generate_geometry_file], step by step. *)
Lemma generate_geometry_file_run (inp outdir : Path) (strict : bool)
    (w : World) :
  generate_geometry_file inp outdir strict w =
  match node_at (fs w) inp with
  | None => (Raise (FileNotFoundError inp), w)
  | Some Dir => (Raise (IsADirectoryError inp), w)
  | Some (File content) =>
      let find :=
        find_geometry_block (readlines (universal_newlines content)) in
      let w1 := world_after find w in
      match result_of find w with
      | Raise e => (Raise e, w1)
      | Ok None =>
          (Raise (RuntimeError
                    (L "Failed to locate geometry block starting two lines after the 'CARTESIAN COORDINATES (ANGSTROEM)' header.")),
           w1)
      | Ok (Some block) =>
          let transform :=
            transform_geometry_lines (lines block) strict in
          let w2 := world_after transform w1 in
          match result_of transform w1 with
          | Raise e => (Raise e, w2)
          | Ok transformed =>
              let out_path := path_join outdir "geometry.txt" in
              let write := write_text_lines out_path transformed in
              let w3 := world_after write w2 in
              match result_of write w2 with
              | Raise e => (Raise e, w3)
              | Ok _ =>
                  (Ok out_path,
                   mkWorld (fs w3)
                     (records w3
                      ++ [mkLogRecord INFO
                            (L "Wrote geometry: %s (" ++ arrow
                             ++ L " %d lines)")
                            [APath out_path; AInt (length transformed)]]))
              end
          end
      end
  end.
Proof.
  unfold generate_geometry_file, bind at 1, read_text_lines.
  destruct (node_at (fs w) inp) as [[content|]|]; try reflexivity.
  cbv zeta. unfold bind at 1.
  rewrite (run_pair (find_geometry_block _) w).
  destruct (result_of (find_geometry_block _) w) as [[block|]|e];
    try reflexivity.
  unfold bind at 1.
  rewrite (run_pair (transform_geometry_lines _ _) _).
  destruct (result_of (transform_geometry_lines _ _) _) as [t|e];
    try reflexivity.
  unfold bind at 1.
  rewrite (run_pair (write_text_lines _ _) _).
  destruct (result_of (write_text_lines _ _) _) as [[]|e]; reflexivity.
Qed.

(** The steps before the writing depend on the input alone and leave
    the files alone; so a run is its outcome, and writes what it
    planned. *)
Lemma generate_geometry_file_outcome (a : Args) (w : World) :
  let run := generate_geometry_file (input a) (outdir a) (strict a) in
  match run_outcome a w with
  | InputNotFound | ReadFailure | BlockNotFound | UnrecognizedSymbol =>
      (exists e, result_of run w = Raise e) /\
      fs (world_after run w) = fs w /\
      planned_output a w = None
  | WriteFailure =>
      (exists e, result_of run w = Raise e) /\
      exists t, planned_output a w = Some t /\
        fs (world_after run w)
        = fs (world_after (write_text_lines (geometry_txt a) t) w)
  | Success =>
      result_of run w = Ok (geometry_txt a) /\
      exists t, planned_output a w = Some t /\
        result_of (write_text_lines (geometry_txt a) t) w = Ok tt /\
        fs (world_after run w)
        = fs (world_after (write_text_lines (geometry_txt a) t) w)
  end.
Proof.
  cbv zeta.
  pose proof (generate_geometry_file_run (input a) (outdir a) (strict a) w)
    as Hrun.
  unfold run_outcome, planned_output.
  destruct (node_at (fs w) (input a)) as [[content|]|].
  2,3: unfold result_of, world_after; rewrite Hrun; simpl; eauto.
  cbv zeta in Hrun.
  set (find := find_geometry_block (readlines (universal_newlines content)))
    in *.
  destruct (log_only_step find w w (log_only_find_geometry_block _) eq_refl)
    as [_ Hfs1].
  destruct (result_of find w) as [[block|]|e].
  2,3: unfold result_of, world_after; rewrite Hrun; simpl; eauto.
  set (transform := transform_geometry_lines (lines block) (strict a)) in *.
  destruct (log_only_step transform (world_after find w) w
              (log_only_transform_loop _ _ _) Hfs1) as [Hr2 Hfs2].
  rewrite Hr2 in Hrun.
  destruct (result_of transform w) as [t|e].
  2: unfold result_of, world_after; rewrite Hrun; simpl; eauto.
  fold (geometry_txt a) in Hrun.
  destruct (fs_only_run (write_text_lines (geometry_txt a) t)
              (world_after transform (world_after find w)) w
              (fs_only_write_text_lines _ _) Hfs2) as (Hr3 & Hfs3 & _).
  rewrite Hr3 in Hrun.
  destruct (result_of (write_text_lines (geometry_txt a) t) w)
    as [[]|e] eqn:Ew.
  - split; [unfold result_of; rewrite Hrun; reflexivity|].
    exists t. split; [reflexivity|]. split; [exact Ew|].
    unfold world_after at 1. rewrite Hrun. exact Hfs3.
  - split; [exists e; unfold result_of; rewrite Hrun; reflexivity|].
    exists t. split; [reflexivity|].
    unfold world_after at 1. rewrite Hrun. exact Hfs3.
Qed.

(** [main], step by step. *)
Lemma main_run (a : Args) (w : World) :
  main a w =
  match node_at (fs w) (input a) with
  | None =>
      (Ok 2,
       mkWorld (fs w)
         (records w
          ++ [mkLogRecord ERROR (L "Input file not found: %s")
                [APath (input a)]]))
  | Some _ =>
      let gen := generate_geometry_file (input a) (outdir a) (strict a) in
      match result_of gen w with
      | Ok geom_path =>
          (Ok 0,
           mkWorld (fs (world_after gen w))
             (records (world_after gen w)
              ++ [mkLogRecord INFO (L "Geometry saved to: %s")
                    [APath geom_path]]))
      | Raise exc =>
          (Ok 1,
           mkWorld (fs (world_after gen w))
             (records (world_after gen w)
              ++ [mkLogRecord ERROR
                    (L "Failed to generate geometry.txt: %s") [AExn exc]]))
      end
  end.
Proof.
  unfold main, bind, path_exists, try_except, logging_error, logging_info,
    logging_exception, logging_log, ret, result_of, world_after.
  destruct (node_at (fs w) (input a)) as [n|]; [|reflexivity].
  cbn [negb]. cbv zeta.
  destruct (generate_geometry_file (input a) (outdir a) (strict a) w)
    as [[p|e] w']; reflexivity.
Qed.

(** [main] returns the exit code of the outcome, and leaves the files
    that [generate_geometry_file] leaves. *)
Lemma main_outcome (a : Args) (w : World) :
  result_of (main a) w = Ok (exit_code (run_outcome a w)) /\
  fs (world_after (main a) w) =
  match run_outcome a w with
  | InputNotFound => fs w
  | _ => fs (world_after
               (generate_geometry_file (input a) (outdir a) (strict a)) w)
  end.
Proof.
  pose proof (generate_geometry_file_outcome a w) as Hgen. cbv zeta in Hgen.
  pose proof (main_run a w) as Hmain. cbv zeta in Hmain.
  unfold result_of at 1, world_after at 1. rewrite Hmain. clear Hmain.
  unfold run_outcome in *.
  destruct (node_at (fs w) (input a)) as [[content|]|].
  - destruct (result_of (find_geometry_block _) w) as [[block|]|e0].
    + destruct (result_of (transform_geometry_lines _ _) w) as [t|e0].
      * destruct (result_of (write_text_lines _ t) w) as [[]|e0].
        -- destruct Hgen as [-> _]. split; reflexivity.
        -- destruct Hgen as [[e ->] _]. split; reflexivity.
      * destruct Hgen as [[e ->] _]. split; reflexivity.
    + destruct Hgen as [[e ->] _]. split; reflexivity.
    + destruct Hgen as [[e ->] _]. split; reflexivity.
  - destruct Hgen as [[e ->] _]. split; reflexivity.
  - split; reflexivity.
Qed.

(* ===================================================================== *)
(** ** The block and its transformed lines in a run *)
(* ===================================================================== *)

(** What the locator returns, when it returns a block. *)
Lemma located_block_spec (all_lines : list str) (w : World)
    (b : GeometryBlock) :
  result_of (find_geometry_block all_lines) w = Ok (Some b) ->
  start_line b < end_line b /\
  end_line b <= length all_lines /\
  lines b = slice all_lines (start_line b) (end_line b) /\
  forall j, start_line b <= j < end_line b ->
            exists l, all_lines !! j = Some l /\ non_blank l = true.
Proof.
  intros Hrun.
  destruct (find_geometry_block_cases all_lines w)
    as [[Hnone Hres]|[(h & Hfind & Hwhy & Hres)|(h & Hfind & Hlt & Hscan & Hres)]].
  - rewrite Hrun in Hres. discriminate.
  - unfold result_of in Hrun. rewrite Hres in Hrun. discriminate.
  - unfold result_of in Hrun. rewrite Hres in Hrun.
    injection Hrun as <-. simpl.
    set (e := scan_end (length all_lines) all_lines (h + 2)) in *.
    assert (Hrange : forall j, h + 2 <= j < e ->
               exists l, all_lines !! j = Some l /\ non_blank l = true).
    { intros j Hj.
      apply (scan_end_range (length all_lines) all_lines (h + 2) j Hj). }
    split; [exact Hscan|]. split; [|split; [reflexivity|exact Hrange]].
    destruct (le_lt_dec e (length all_lines)) as [Hle|Hgt]; [exact Hle|].
    destruct (Hrange (length all_lines) ltac:(lia)) as (l & Hl & _).
    apply lookup_lt_Some in Hl. lia.
Qed.

Lemma slice_lookup {A} (l : list A) (a b i : nat) :
  i < b - a -> slice l a b !! i = l !! (a + i).
Proof.
  intros Hi. unfold slice. rewrite lookup_take_lt, lookup_drop by exact Hi.
  reflexivity.
Qed.

Lemma slice_length {A} (l : list A) (a b : nat) :
  b <= length l -> length (slice l a b) = b - a.
Proof.
  intros Hb. unfold slice. rewrite length_take, length_drop. lia.
Qed.

(** When the loop returns, every line gave its output, in order. *)
Lemma transform_loop_inv (raw_lines : list str) (strict : bool)
    (out_lines t : list str) (w w' : World) :
  transform_loop raw_lines strict out_lines w = (Ok t, w') ->
  exists outs,
    t = out_lines ++ outs /\
    Forall2 (fun l o => line_result l strict = Ok o) raw_lines outs.
Proof.
  revert out_lines w.
  induction raw_lines as [|line more IH]; intros acc w Hrun.
  - simpl in Hrun. injection Hrun as <- _. exists [].
    rewrite app_nil_r. split; [reflexivity|constructor].
  - rewrite transform_loop_cons in Hrun. unfold bind in Hrun.
    rewrite transform_line_run in Hrun.
    destruct (line_result line strict) as [o|e] eqn:Eo; [|discriminate].
    apply IH in Hrun as (outs & -> & HF).
    exists (o :: outs). rewrite <- app_assoc.
    split; [reflexivity|]. constructor; assumption.
Qed.

Lemma one_terminator_snoc (body : str) :
  existsb (chr_eqb nl) body = false -> one_terminator (body ++ [nl]) = true.
Proof.
  intros H. unfold one_terminator. rewrite rev_app_distr. simpl.
  rewrite existsb_nl_rev, H. reflexivity.
Qed.

Lemma mass_token_no_nl (tok : str) (m : nat) :
  dict_get MASS_BY_SYMBOL tok = Some m ->
  existsb (chr_eqb nl) (str_of_nat m) = false.
Proof.
  unfold MASS_BY_SYMBOL, dict_get, str_eqb.
  repeat case_bool_decide; try discriminate; intros [= <-]; reflexivity.
Qed.

(** A non-blank text line comes out with one terminator, at its end. *)
Lemma line_result_one_terminator (line : str) (strict : bool) (o : str) :
  text_line line = true ->
  non_blank line = true ->
  line_result line strict = Ok o ->
  one_terminator o = true.
Proof.
  intros Htl Hnb.
  destruct (FIRST_TOKEN_RE_match_text_line line Htl Hnb)
    as (lead & tok & rest & Hm & _ & _ & _ & _ & Hnonl).
  rewrite !existsb_app in Hnonl.
  apply orb_false_iff in Hnonl as [Hl Hnonl].
  apply orb_false_iff in Hnonl as [Ht Hr].
  unfold line_result, result_of, transform_line. rewrite Hm.
  unfold symbol_to_mass_token, bind.
  destruct (dict_get MASS_BY_SYMBOL tok) as [m|] eqn:Em.
  - simpl. intros [= <-].
    replace (lead ++ str_of_nat m ++ rest ++ [nl])
      with ((lead ++ str_of_nat m ++ rest) ++ [nl])
      by (rewrite <- !app_assoc; reflexivity).
    apply one_terminator_snoc.
    rewrite !existsb_app, Hl, Hr, (mass_token_no_nl _ _ Em). reflexivity.
  - destruct strict; simpl; [discriminate|]. intros [= <-].
    replace (lead ++ tok ++ rest ++ [nl])
      with ((lead ++ tok ++ rest) ++ [nl])
      by (rewrite <- !app_assoc; reflexivity).
    apply one_terminator_snoc.
    rewrite !existsb_app, Hl, Hr, Ht. reflexivity.
Qed.

(** *** The plan of a run *)

Lemma log_only_result {A} (m : M A) (w1 w2 : World) :
  log_only m -> result_of m w1 = result_of m w2.
Proof.
  intros (r & logs & H). unfold result_of. rewrite (H w1), (H w2).
  reflexivity.
Qed.

Lemma log_only_transform_geometry_lines (raw_lines : list str)
    (strict : bool) :
  log_only (transform_geometry_lines raw_lines strict).
Proof. apply log_only_transform_loop. Qed.

(** The plan depends on the input artifact alone. *)
Lemma planned_output_same_input (a : Args) (w1 w2 : World) :
  node_at (fs w1) (input a) = node_at (fs w2) (input a) ->
  planned_output a w1 = planned_output a w2.
Proof.
  intros Hin. unfold planned_output. rewrite Hin.
  destruct (node_at (fs w2) (input a)) as [[content|]|]; try reflexivity.
  rewrite (log_only_result _ w1 w2 (log_only_find_geometry_block _)).
  destruct (result_of (find_geometry_block _) w2) as [[b|]|e];
    try reflexivity.
  rewrite (log_only_result _ w1 w2
             (log_only_transform_geometry_lines (lines b) (strict a))).
  reflexivity.
Qed.

Lemma planned_output_Some (a : Args) (w : World) (t : list str) :
  planned_output a w = Some t <->
  exists content b,
    node_at (fs w) (input a) = Some (File content) /\
    result_of (find_geometry_block (readlines (universal_newlines content)))
      w = Ok (Some b) /\
    result_of (transform_geometry_lines (lines b) (strict a)) w = Ok t.
Proof.
  unfold planned_output. split.
  - destruct (node_at (fs w) (input a)) as [[content|]|]; try discriminate.
    destruct (result_of (find_geometry_block _) w) as [[b|]|e] eqn:Ef;
      try discriminate.
    destruct (result_of (transform_geometry_lines _ _) w) as [t'|e] eqn:Et;
      try discriminate.
    intros [= <-]. exists content, b. auto.
  - intros (content & b & -> & -> & ->). reflexivity.
Qed.

(** The outcome, from the plan and the writing. *)
Lemma run_outcome_planned (a : Args) (w : World) (t : list str) :
  planned_output a w = Some t ->
  run_outcome a w =
  match result_of (write_text_lines (geometry_txt a) t) w with
  | Ok _ => Success
  | Raise _ => WriteFailure
  end.
Proof.
  intros H. apply planned_output_Some in H as (content & b & Hn & Hf & Ht).
  unfold run_outcome. rewrite Hn, Hf, Ht. reflexivity.
Qed.

Lemma run_outcome_success (a : Args) (w : World) :
  run_outcome a w = Success <->
  exists t, planned_output a w = Some t /\
            result_of (write_text_lines (geometry_txt a) t) w = Ok tt.
Proof.
  split.
  - unfold run_outcome, planned_output.
    destruct (node_at (fs w) (input a)) as [[content|]|]; try discriminate.
    destruct (result_of (find_geometry_block _) w) as [[b|]|e];
      try discriminate.
    destruct (result_of (transform_geometry_lines _ _) w) as [t|e];
      try discriminate.
    destruct (result_of (write_text_lines _ t) w) as [[]|e] eqn:Ew;
      try discriminate.
    intros _. exists t. auto.
  - intros (t & Hp & Hw). rewrite (run_outcome_planned _ _ _ Hp), Hw.
    reflexivity.
Qed.

Lemma run_outcome_input (a : Args) (w : World) :
  run_outcome a w = InputNotFound <-> node_at (fs w) (input a) = None.
Proof.
  unfold run_outcome.
  destruct (node_at (fs w) (input a)) as [[content|]|].
  - destruct (result_of (find_geometry_block _) w) as [[b|]|e];
      try (split; discriminate).
    destruct (result_of (transform_geometry_lines _ _) w) as [t|e];
      try (split; discriminate).
    destruct (result_of (write_text_lines _ t) w) as [[]|e];
      split; discriminate.
  - split; discriminate.
  - split; reflexivity.
Qed.

(** *** Writing the same lines again *)

Lemma write_text_lines_again (path : Path) (out : list str) (w w' w2 : World) :
  write_text_lines path out w = (Ok tt, w') ->
  fs w2 = fs w' ->
  result_of (write_text_lines path out) w2 = Ok tt /\
  fs (world_after (write_text_lines path out) w2) = fs w'.
Proof.
  intros Hw Hfs.
  destruct (fs_only_run (write_text_lines path out) w2 w'
              (fs_only_write_text_lines _ _) Hfs) as (-> & -> & _).
  clear w2 Hfs.
  destruct (write_text_lines_ok _ _ _ _ Hw)
    as (w1 & Hmk & Hne & Hnd & Hpar & ->).
  assert (Hlook : forall p, p <> path ->
            (<[path := File (concat out)]> (fs w1) : gmap Path node) !! p
            = fs w1 !! p).
  { intros p Hp. apply lookup_insert_ne. congruence. }
  set (w' := mkWorld (<[path := File (concat out)]> (fs w1)) (records w1)).
  assert (Hidle : mkdir_from [] (parent path) w' = (Ok tt, w')).
  { apply mkdir_from_idle. intros j Hj. simpl.
    rewrite Hlook.
    - apply (mkdir_from_dirs [] _ _ _ Hmk j Hj).
    - intros Heq. apply (f_equal (@length string)) in Heq.
      rewrite length_take in Heq.
      pose proof (app_removelast_last ""%string Hne) as Hp.
      apply (f_equal (@length string)) in Hp. rewrite length_app in Hp.
      simpl in Hp. unfold parent in *. lia. }
  assert (Hnode : node_at (fs w') path = Some (File (concat out))).
  { destruct path as [|c path]; [congruence|]. simpl.
    apply lookup_insert_eq. }
  assert (Hparent : node_at (fs w') (parent path) = Some Dir).
  { destruct (parent path) as [|c pp] eqn:Epp; [reflexivity|].
    simpl. rewrite Hlook.
    - exact Hpar.
    - rewrite <- Epp. apply parent_neq. exact Hne. }
  unfold result_of, world_after, write_text_lines, mkdir_parents, bind.
  rewrite Hidle. unfold open_w. rewrite Hnode, Hparent.
  rewrite (write_loop_run path out []) by (simpl; apply lookup_insert_eq).
  simpl. rewrite !insert_insert_eq. split; reflexivity.
Qed.

(** *** A run of [main] that succeeds *)

Lemma exit_code_zero (o : outcome) : exit_code o = 0 <-> o = Success.
Proof. destruct o; simpl; split; congruence. Qed.

Lemma main_success (a : Args) (w w' : World) :
  main a w = (Ok 0, w') ->
  exists t,
    planned_output a w = Some t /\
    write_text_lines (geometry_txt a) t w
      = (Ok tt, world_after (write_text_lines (geometry_txt a) t) w) /\
    fs w' = fs (world_after (write_text_lines (geometry_txt a) t) w).
Proof.
  intros Hmain.
  destruct (main_outcome a w) as [Hres Hfs].
  unfold result_of in Hres. unfold world_after at 1 in Hfs.
  rewrite Hmain in Hres, Hfs. simpl in Hres, Hfs.
  injection Hres as Hcode. symmetry in Hcode.
  apply exit_code_zero in Hcode.
  pose proof (generate_geometry_file_outcome a w) as Hgen.
  cbv zeta in Hgen. rewrite Hcode in Hgen, Hfs.
  destruct Hgen as (_ & t & Hplan & Hwrite & Hgfs).
  exists t. split; [exact Hplan|]. split.
  - rewrite (run_pair (write_text_lines _ _) w), Hwrite. reflexivity.
  - rewrite Hfs. exact Hgfs.
Qed.

Lemma main_success_intro (a : Args) (w : World) (t : list str) :
  planned_output a w = Some t ->
  result_of (write_text_lines (geometry_txt a) t) w = Ok tt ->
  main a w = (Ok 0, world_after (main a) w) /\
  fs (world_after (main a) w)
  = fs (world_after (write_text_lines (geometry_txt a) t) w).
Proof.
  intros Hplan Hwrite.
  assert (Hcode : run_outcome a w = Success)
    by (apply run_outcome_success; eauto).
  destruct (main_outcome a w) as [Hres Hfs].
  pose proof (generate_geometry_file_outcome a w) as Hgen.
  cbv zeta in Hgen. rewrite Hcode in Hres, Hfs, Hgen.
  destruct Hgen as (_ & t' & Hplan' & _ & Hgfs).
  rewrite Hplan in Hplan'. injection Hplan' as <-.
  split.
  - rewrite (run_pair (main a) w), Hres. reflexivity.
  - rewrite Hfs. exact Hgfs.
Qed.

Lemma written_artifact (path : Path) (t : list str) (w : World) :
  write_text_lines path t w
    = (Ok tt, world_after (write_text_lines path t) w) ->
  fs (world_after (write_text_lines path t) w) !! path
  = Some (File (concat t)).
Proof.
  intros Hw. destruct (write_text_lines_ok _ _ _ _ Hw)
    as (w1 & _ & _ & _ & _ & ->).
  simpl. apply lookup_insert_eq.
Qed.

(* ===================================================================== *)
(** ** Properties of a run *)
(* ===================================================================== *)

(** C6.  When [generate_geometry_file] returns, the input was a file, the
    locator found a block [[start, end)] in its lines, and the artifact
    [geometry.txt] under the output directory holds exactly
    [end - start] lines: the line at position [i] is what the
    transformer gives for line [start + i] of the input, and every line
    ends in its only line terminator. *)
Theorem output_extent
    (inp dir : Path) (mode : bool) (w w' : World) (p : Path) :
  generate_geometry_file inp dir mode w = (Ok p, w') ->
  exists content b out,
    node_at (fs w) inp = Some (File content) /\
    result_of (find_geometry_block (readlines (universal_newlines content)))
      w = Ok (Some b) /\
    p = path_join dir "geometry.txt" /\
    fs w' !! p = Some (File (concat out)) /\
    readlines (concat out) = out /\
    length out = end_line b - start_line b /\
    Forall (fun o => one_terminator o = true) out /\
    forall i, i < end_line b - start_line b ->
      exists line o,
        readlines (universal_newlines content) !! (start_line b + i)
          = Some line /\
        out !! i = Some o /\
        line_result line mode = Ok o.
Proof.
  intros Hrun.
  pose proof (generate_geometry_file_outcome (mkArgs inp dir mode INFO) w)
    as Hgen.
  cbv zeta in Hgen. simpl input in Hgen. simpl outdir in Hgen.
  simpl strict in Hgen.
  assert (Hgres : result_of (generate_geometry_file inp dir mode) w = Ok p)
    by (unfold result_of; rewrite Hrun; reflexivity).
  assert (Hwa : world_after (generate_geometry_file inp dir mode) w = w')
    by (unfold world_after; rewrite Hrun; reflexivity).
  destruct (run_outcome (mkArgs inp dir mode INFO) w);
    try (destruct Hgen as [[e He] _]; rewrite Hgres in He; discriminate).
  destruct Hgen as (Hp & t & Hplan & Hwrite & Hfs).
  rewrite Hgres in Hp. rewrite Hwa in Hfs.
  apply planned_output_Some in Hplan as (content & b & Hnode & Hfind & Ht).
  simpl in Hnode, Hfind, Ht.
  set (all_lines := readlines (universal_newlines content)) in *.
  destruct (located_block_spec all_lines w b Hfind)
    as (Hlt & Hend & Hlines & Hrange).
  (* the lines of the block and their outputs *)
  unfold result_of, transform_geometry_lines in Ht.
  destruct (transform_loop (lines b) mode [] w) as [rt wt] eqn:Et.
  simpl in Ht. subst rt.
  apply transform_loop_inv in Et as (outs & -> & HF). simpl app in *.
  assert (Hlen : length outs = end_line b - start_line b).
  { rewrite <- (Forall2_length _ _ _ HF), Hlines.
    apply slice_length. exact Hend. }
  assert (Hat : forall i, i < end_line b - start_line b ->
            exists line o,
              all_lines !! (start_line b + i) = Some line /\
              outs !! i = Some o /\ line_result line mode = Ok o /\
              non_blank line = true).
  { intros i Hi.
    destruct (Hrange (start_line b + i) ltac:(lia)) as (line & Hl & Hnb).
    assert (Hbi : lines b !! i = Some line).
    { rewrite Hlines, slice_lookup by exact Hi. exact Hl. }
    destruct (Forall2_lookup_l _ _ _ _ _ HF Hbi) as (o & Ho & Hres).
    exists line, o. auto. }
  (* what was written *)
  unfold geometry_txt in Hwrite, Hfs, Hp. simpl outdir in Hwrite, Hfs, Hp.
  pose proof (run_pair (write_text_lines (path_join dir "geometry.txt")
                          outs) w) as Hw.
  rewrite Hwrite in Hw.
  destruct (write_text_lines_ok _ _ _ _ Hw)
    as (w1 & _ & _ & _ & _ & Hafter).
  exists content, b, outs.
  split; [exact Hnode|]. split; [exact Hfind|].
  injection Hp as ->. split; [reflexivity|].
  assert (Hone : Forall (fun o => one_terminator o = true) outs).
  { apply Forall_lookup. intros i o Ho.
    assert (Hi : i < end_line b - start_line b).
    { rewrite <- Hlen. apply (lookup_lt_Some _ _ _ Ho). }
    destruct (Hat i Hi) as (line & o' & Hl & Ho' & Hres & Hnb).
    rewrite Ho in Ho'. injection Ho' as <-.
    apply (line_result_one_terminator line mode o); [|exact Hnb|exact Hres].
    pose proof (readlines_text_lines (universal_newlines content)) as Htl.
    rewrite Forall_lookup in Htl. exact (Htl _ _ Hl). }
  split.
  { rewrite Hfs, Hafter. simpl. apply lookup_insert_eq. }
  split; [apply readlines_concat; exact Hone|].
  split; [exact Hlen|]. split; [exact Hone|].
  intros i Hi. destruct (Hat i Hi) as (line & o & Hl & Ho & Hres & _).
  exists line, o. auto.
Qed.

Lemma output_extent_witness :
  let w' :=
    world_after (generate_geometry_file ["run.out"] ["results"] false)
      sample_world in
  exists content b out,
    node_at (fs sample_world) ["run.out"] = Some (File content) /\
    result_of (find_geometry_block (readlines (universal_newlines content)))
      sample_world = Ok (Some b) /\
    ["results"; "geometry.txt"] = path_join ["results"] "geometry.txt" /\
    fs w' !! ["results"; "geometry.txt"] = Some (File (concat out)) /\
    readlines (concat out) = out /\
    length out = end_line b - start_line b /\
    Forall (fun o => one_terminator o = true) out /\
    forall i, i < end_line b - start_line b ->
      exists line o,
        readlines (universal_newlines content) !! (start_line b + i)
          = Some line /\
        out !! i = Some o /\
        line_result line false = Ok o.
Proof.
  intros w'.
  apply (output_extent ["run.out"] ["results"] false sample_world w'
           ["results"; "geometry.txt"]).
  vm_compute. reflexivity.
Defined.

(** C7.  When the input path is missing, or the input cannot be read,
    or the locator finds no block in the input, or the transformer
    raises, [main] leaves every file as it was: no artifact is created
    and nothing is written; the exit code is not 0. *)
Theorem failure_leaves_no_output (a : Args) (w : World) :
  node_at (fs w) (input a) = None
  \/ node_at (fs w) (input a) = Some Dir
  \/ (exists content,
        node_at (fs w) (input a) = Some (File content) /\
        result_of
          (find_geometry_block (readlines (universal_newlines content))) w
        = Ok None)
  \/ (exists content b e,
        node_at (fs w) (input a) = Some (File content) /\
        result_of
          (find_geometry_block (readlines (universal_newlines content))) w
        = Ok (Some b) /\
        result_of (transform_geometry_lines (lines b) (strict a)) w
        = Raise e) ->
  fs (world_after (main a) w) = fs w /\
  exists code, result_of (main a) w = Ok code /\ code <> 0.
Proof.
  intros Hfail.
  destruct (main_outcome a w) as [Hres Hfs].
  pose proof (generate_geometry_file_outcome a w) as Hgen. cbv zeta in Hgen.
  assert (Hout : run_outcome a w = InputNotFound
                 \/ run_outcome a w = ReadFailure
                 \/ run_outcome a w = BlockNotFound
                 \/ run_outcome a w = UnrecognizedSymbol).
  { destruct Hfail
      as [Hn|[Hn|[(content & Hn & Hf)|(content & b & e & Hn & Hf & Ht)]]].
    - left. apply run_outcome_input. exact Hn.
    - right; left. unfold run_outcome. rewrite Hn. reflexivity.
    - right; right; left. unfold run_outcome. rewrite Hn, Hf. reflexivity.
    - right; right; right. unfold run_outcome. rewrite Hn, Hf, Ht.
      reflexivity. }
  destruct Hout as [Ho|[Ho|[Ho|Ho]]]; rewrite Ho in Hres, Hfs, Hgen.
  - split; [exact Hfs|]. exists 2. split; [exact Hres|discriminate].
  - destruct Hgen as (_ & Hgfs & _).
    split; [rewrite Hfs; exact Hgfs|].
    exists 1. split; [exact Hres|discriminate].
  - destruct Hgen as (_ & Hgfs & _).
    split; [rewrite Hfs; exact Hgfs|].
    exists 1. split; [exact Hres|discriminate].
  - destruct Hgen as (_ & Hgfs & _).
    split; [rewrite Hfs; exact Hgfs|].
    exists 1. split; [exact Hres|discriminate].
Qed.

Lemma failure_leaves_no_output_witness :
  (let a := mkArgs ["missing.out"] ["results"] false INFO in
   fs (world_after (main a) sample_world) = fs sample_world /\
   exists code, result_of (main a) sample_world = Ok code /\ code <> 0)
  /\
  (let a := mkArgs ["empty.out"] ["results"] false INFO in
   fs (world_after (main a) sample_world) = fs sample_world /\
   exists code, result_of (main a) sample_world = Ok code /\ code <> 0)
  /\
  (let a := mkArgs ["unknown.out"] ["results"] true INFO in
   fs (world_after (main a) sample_world) = fs sample_world /\
   exists code, result_of (main a) sample_world = Ok code /\ code <> 0).
Proof.
  split; [|split]; cbv zeta.
  - apply (failure_leaves_no_output
             (mkArgs ["missing.out"] ["results"] false INFO) sample_world).
    left. reflexivity.
  - apply (failure_leaves_no_output
             (mkArgs ["empty.out"] ["results"] false INFO) sample_world).
    right; right; left. exists (L "no header here"). split; reflexivity.
  - apply (failure_leaves_no_output
             (mkArgs ["unknown.out"] ["results"] true INFO) sample_world).
    right; right; right.
    exists (concat sample_lines_unknown),
      (mkGeometryBlock 4 6
         [ln "  N   0.000  0.000  0.000"; ln "  Xx  2.0 2.0 2.0"]),
      (ValueError (unrecognized_symbol_message (L "Xx"))).
    split; [reflexivity|]. split; reflexivity.
Defined.


(** C9.  After a run that succeeded, a run with the same arguments on an
    input artifact that is the same writes, when it succeeds, the same
    bytes to the output artifact, whatever else the two worlds hold; and
    a run that starts from the files the first run left succeeds and
    leaves every file as it found it. *)
Theorem pipeline_idempotent (a : Args) (w1 w1' w2 : World) :
  main a w1 = (Ok 0, w1') ->
  node_at (fs w2) (input a) = node_at (fs w1) (input a) ->
  (exists content,
     fs w1' !! geometry_txt a = Some (File content) /\
     forall w2',
       main a w2 = (Ok 0, w2') ->
       fs w2' !! geometry_txt a = Some (File content)) /\
  (fs w2 = fs w1' ->
   exists w2', main a w2 = (Ok 0, w2') /\ fs w2' = fs w1').
Proof.
  intros Hrun1 Hsame.
  destruct (main_success a w1 w1' Hrun1) as (t & Hplan1 & Hw1 & Hfs1).
  pose proof (planned_output_same_input a w2 w1 Hsame) as Hplan2.
  rewrite Hplan1 in Hplan2.
  split.
  - exists (concat t). split.
    + rewrite Hfs1. apply written_artifact. exact Hw1.
    + intros w2' Hrun2.
      destruct (main_success a w2 w2' Hrun2) as (t2 & Hp2 & Hw2 & Hfs2).
      rewrite Hplan2 in Hp2. injection Hp2 as <-.
      rewrite Hfs2. apply written_artifact. exact Hw2.
  - intros Hfs.
    destruct (write_text_lines_again (geometry_txt a) t w1
                (world_after (write_text_lines (geometry_txt a) t) w1) w2
                Hw1) as [Hres2 Hfs2].
    { rewrite Hfs. exact Hfs1. }
    destruct (main_success_intro a w2 t Hplan2 Hres2) as [Hmain2 Hmfs2].
    exists (world_after (main a) w2). split; [exact Hmain2|].
    rewrite Hmfs2, Hfs2. symmetry. exact Hfs1.
Qed.

Lemma pipeline_idempotent_witness :
  let a := mkArgs ["run.out"] ["results"; "geom"] false INFO in
  let w1' := world_after (main a) sample_world in
  (exists content,
     fs w1' !! geometry_txt a = Some (File content) /\
     forall w2',
       main a w1' = (Ok 0, w2') ->
       fs w2' !! geometry_txt a = Some (File content)) /\
  (fs w1' = fs w1' ->
   exists w2', main a w1' = (Ok 0, w2') /\ fs w2' = fs w1').
Proof.
  intros a w1'.
  apply (pipeline_idempotent a sample_world w1' w1').
  - vm_compute. reflexivity.
  - vm_compute. reflexivity.
Defined.


(* ===================================================================== *)
(** ** The exit code of the process *)
(* ===================================================================== *)

(** *** The exits of the argument parser *)







(** *** The parser on some command lines *)

Example parse_args_input_only :
  Cli.parse_args [L "run.out"]
  = Cli.Namespace (mkArgs ["run.out"] [] false INFO).
Proof. reflexivity. Qed.

Example parse_args_all_options :
  Cli.parse_args [L "--outdir"; L "results/geo"; L "run.out"; L "--strict"]
  = Cli.Namespace (mkArgs ["run.out"] ["results"; "geo"] true INFO).
Proof. reflexivity. Qed.

(** An option may be cut short, and its argument written after [=]. *)
Example parse_args_abbreviations :
  Cli.parse_args [L "--log=DEBUG"; L "--str"; L "/data/run.out"]
  = Cli.Namespace (mkArgs ["data"; "run.out"] [] true DEBUG).
Proof. reflexivity. Qed.

(** After [--], and for a negative number, a dash starts no option. *)
Example parse_args_dashes :
  Cli.parse_args [L "--"; L "-weird.out"]
  = Cli.Namespace (mkArgs ["-weird.out"] [] false INFO) /\
  Cli.parse_args [L "-1"] = Cli.Namespace (mkArgs ["-1"] [] false INFO).
Proof. split; reflexivity. Qed.

(** The errors: no input, two inputs, an option without its argument,
    a level that is no choice. *)
Example parse_args_errors :
  Cli.parse_args [] = Cli.SystemExit 2 /\
  Cli.parse_args [L "a.out"; L "b.out"] = Cli.SystemExit 2 /\
  Cli.parse_args [L "a.out"; L "--outdir"; L "--strict"] = Cli.SystemExit 2 /\
  Cli.parse_args [L "a.out"; L "--log"; L "TRACE"] = Cli.SystemExit 2.
Proof. repeat split; reflexivity. Qed.

(** The help is printed when its option is reached: an option the
    parser does not know is reported at the end only, a wrong level at
    once. *)
Example parse_args_help :
  Cli.parse_args [L "-x"; L "--help"] = Cli.SystemExit 0 /\
  Cli.parse_args [L "-hh"] = Cli.SystemExit 0 /\
  Cli.parse_args [L "-hx"] = Cli.SystemExit 2 /\
  Cli.parse_args [L "--log"; L "TRACE"; L "--help"] = Cli.SystemExit 2.
Proof. repeat split; reflexivity. Qed.

Example parse_args_outside :
  Cli.parse_args [L "a/../b"] = Cli.Uncovered /\
  Cli.parse_args [L "--outdir=--"; L "a.out"] = Cli.Uncovered.
Proof. split; reflexivity. Qed.

(** *** The process *)





(* ===================================================================== *)
(** ** Runs on the sample input *)
(* ===================================================================== *)

(** Known symbols: exit code 0, and the artifact holds the two rows with
    the masses in place of the symbols. *)
Example run_known_symbols :
  let a := mkArgs ["run.out"] ["results"] false INFO in
  result_of (main a) sample_world = Ok 0 /\
  fs (world_after (main a) sample_world) !! ["results"; "geometry.txt"]
  = Some (File (ln "  14   0.000  0.000  0.000"
                ++ ln "  1   1.000  0.000  0.000")).
Proof. vm_compute. split; reflexivity. Qed.

(** An unknown symbol without [--strict]: exit code 0, the row is
    written as it was, and a warning is logged. *)
Example run_unknown_permissive :
  let a := mkArgs ["unknown.out"] ["results"] false INFO in
  result_of (main a) sample_world = Ok 0 /\
  fs (world_after (main a) sample_world) !! ["results"; "geometry.txt"]
  = Some (File (ln "  14   0.000  0.000  0.000" ++ ln "  Xx  2.0 2.0 2.0"))
  /\
  In (unrecognized_token_record (L "Xx"))
     (records (world_after (main a) sample_world)).
Proof.
  vm_compute. split; [reflexivity|]. split; [reflexivity|].
  left. reflexivity.
Qed.

(** The same with [--strict]: exit code 1, no artifact, and the error
    logged names the token and the supported symbols. *)
Example run_unknown_strict :
  let a := mkArgs ["unknown.out"] ["results"] true INFO in
  result_of (main a) sample_world = Ok 1 /\
  fs (world_after (main a) sample_world) = fs sample_world /\
  map getMessage (records (world_after (main a) sample_world))
  = [L "Failed to generate geometry.txt: Unrecognized atomic symbol 'Xx' in geometry block; supported: ['C', 'H', 'N', 'O']"].
Proof. vm_compute. repeat split; reflexivity. Qed.

(** A missing input: exit code 2, no artifact. *)
Example run_missing_input :
  let a := mkArgs ["missing.out"] ["results"] false INFO in
  result_of (main a) sample_world = Ok 2 /\
  fs (world_after (main a) sample_world) = fs sample_world.
Proof. vm_compute. split; reflexivity. Qed.

(** An input without the header: exit code 1, no artifact. *)
Example run_no_header :
  let a := mkArgs ["empty.out"] ["results"] false INFO in
  result_of (main a) sample_world = Ok 1 /\
  fs (world_after (main a) sample_world) = fs sample_world.
Proof. vm_compute. split; reflexivity. Qed.

(** An output directory that is a file: the writing fails, exit code
    1. *)
Example run_write_failure :
  let a := mkArgs ["run.out"] ["empty.out"] false INFO in
  run_outcome a sample_world = WriteFailure /\
  result_of (main a) sample_world = Ok 1.
Proof. vm_compute. split; reflexivity. Qed.

(* ===================================================================== *)
(** ** More on the block locator *)
(* ===================================================================== *)

Lemma slice_agree {A} (l1 l2 : list A) (a b : nat) :
  (forall i, i < b -> l1 !! i = l2 !! i) -> slice l1 a b = slice l2 a b.
Proof.
  intros H. unfold slice. apply list_eq. intros i.
  destruct (decide (i < b - a)) as [Hi|Hi].
  - rewrite !lookup_take_lt, !lookup_drop by exact Hi. apply H. lia.
  - rewrite !lookup_take_ge by lia. reflexivity.
Qed.

(** The run of the locator on a sequence with its first header at [h]
    and [k >= 1] non-blank lines from [h + 2] to a blank line or the
    end. *)
Lemma find_geometry_block_located
    (all_lines : list str) (h k : nat) (header : str) (w : World) :
  all_lines !! h = Some header ->
  GEOM_HEADER_PATTERN_search header = true ->
  forallb (fun l => negb (GEOM_HEADER_PATTERN_search l))
    (take h all_lines) = true ->
  0 < k ->
  h + 2 + k <= length all_lines ->
  (forall i, i < k ->
     exists l, all_lines !! (h + 2 + i) = Some l /\ non_blank l = true) ->
  non_blank (default [] (all_lines !! (h + 2 + k))) = false ->
  find_geometry_block all_lines w
  = (Ok (Some (mkGeometryBlock (h + 2) (h + 2 + k)
                 (slice all_lines (h + 2) (h + 2 + k)))), w).
Proof.
  intros Hh Hhdr Hfirst Hk Hlen Hrun Hstop.
  assert (Hfind : find_header all_lines 0 = Some h).
  { apply find_header_Some. exists h, header. auto. }
  assert (Hscan : scan_end (length all_lines) all_lines (h + 2) = h + 2 + k).
  { apply scan_end_count; [lia|exact Hrun|exact Hstop]. }
  unfold find_geometry_block. rewrite Hfind.
  destruct (length all_lines <=? h + 2) eqn:E1;
    [apply Nat.leb_le in E1; lia|].
  rewrite Hscan.
  destruct (h + 2 + k <=? h + 2) eqn:E2; [apply Nat.leb_le in E2; lia|].
  reflexivity.
Qed.

(** What a returned block says about the sequence. *)
Lemma find_geometry_block_anchor
    (all_lines : list str) (w w' : World) (b : GeometryBlock) :
  find_geometry_block all_lines w = (Ok (Some b), w') ->
  w' = w /\
  exists h header,
    all_lines !! h = Some header /\
    GEOM_HEADER_PATTERN_search header = true /\
    forallb (fun l => negb (GEOM_HEADER_PATTERN_search l))
      (take h all_lines) = true /\
    start_line b = h + 2 /\
    start_line b < end_line b /\
    end_line b <= length all_lines /\
    lines b = slice all_lines (start_line b) (end_line b) /\
    (forall j, start_line b <= j < end_line b ->
       exists l, all_lines !! j = Some l /\ non_blank l = true) /\
    non_blank (default [] (all_lines !! end_line b)) = false.
Proof.
  intros Hrun.
  destruct (find_geometry_block_cases all_lines w)
    as [[Hnone Hres]|[(h & Hfind & Hwhy & Hres)|(h & Hfind & Hlt & Hscan & Hres)]].
  - unfold result_of in Hres. rewrite Hrun in Hres. discriminate.
  - rewrite Hrun in Hres. discriminate.
  - rewrite Hrun in Hres. injection Hres as -> ->.
    split; [reflexivity|].
    apply find_header_Some in Hfind
      as (j & header & Hj & Hlook & Hhdr & Hbefore).
    simpl in Hj. subst j. exists h, header. simpl.
    set (e := scan_end (length all_lines) all_lines (h + 2)) in *.
    assert (Hrange : forall j, h + 2 <= j < e ->
               exists l, all_lines !! j = Some l /\ non_blank l = true).
    { intros j Hj.
      apply (scan_end_range (length all_lines) all_lines (h + 2) j Hj). }
    assert (He : e <= length all_lines).
    { destruct (le_lt_dec e (length all_lines)) as [Hle|Hgt]; [exact Hle|].
      destruct (Hrange (length all_lines) ltac:(lia)) as (l & Hl & _).
      apply lookup_lt_Some in Hl. lia. }
    repeat (split; [first [assumption|reflexivity]|]).
    apply scan_end_exit. lia.
Qed.

(** X1.  The block returned always starts two lines after the first line the
    header pattern is found in and is not empty; every line of it is
    non-blank, and it ends at the first blank line after its start or at
    the end of the sequence; it holds the lines between, and the locator
    logs nothing when it returns a block. *)
Theorem located_block_anchored
    (all_lines : list str) (w w' : World) (b : GeometryBlock) :
  find_geometry_block all_lines w = (Ok (Some b), w') ->
  w' = w /\
  (exists h header,
     all_lines !! h = Some header /\
     GEOM_HEADER_PATTERN_search header = true /\
     forallb (fun l => negb (GEOM_HEADER_PATTERN_search l))
       (take h all_lines) = true /\
     start_line b = h + 2) /\
  start_line b < end_line b /\
  end_line b <= length all_lines /\
  (forall j, start_line b <= j < end_line b ->
     exists l, all_lines !! j = Some l /\ strip l <> []) /\
  (forall l, all_lines !! end_line b = Some l -> strip l = []) /\
  lines b = take (end_line b - start_line b) (drop (start_line b) all_lines).
Proof.
  intros Hrun.
  destruct (find_geometry_block_anchor _ _ _ _ Hrun)
    as (Hw & h & header & Hlook & Hhdr & Hbefore & Hstart & Hlt & Hend
        & Hlines & Hrange & Hstop).
  split; [exact Hw|]. split; [exists h, header; auto|].
  split; [exact Hlt|]. split; [exact Hend|]. split; [|split; [|exact Hlines]].
  - intros j Hj. destruct (Hrange j Hj) as (l & Hl & Hnb).
    exists l. split; [exact Hl|]. intros Hnil.
    unfold non_blank in Hnb. rewrite Hnil in Hnb. discriminate.
  - intros l Hl. rewrite Hl in Hstop. simpl in Hstop.
    apply truthy_nil_iff. exact Hstop.
Qed.

Lemma located_block_anchored_witness :
  let b := mkGeometryBlock 4 6 (slice sample_lines 4 6) in
  empty_world = empty_world /\
  (exists h header,
     sample_lines !! h = Some header /\
     GEOM_HEADER_PATTERN_search header = true /\
     forallb (fun l => negb (GEOM_HEADER_PATTERN_search l))
       (take h sample_lines) = true /\
     start_line b = h + 2) /\
  start_line b < end_line b /\
  end_line b <= length sample_lines /\
  (forall j, start_line b <= j < end_line b ->
     exists l, sample_lines !! j = Some l /\ strip l <> []) /\
  (forall l, sample_lines !! end_line b = Some l -> strip l = []) /\
  lines b = take (end_line b - start_line b) (drop (start_line b) sample_lines).
Proof.
  intros b.
  apply (located_block_anchored sample_lines empty_world empty_world b).
  reflexivity.
Defined.

(** X2.  Only the first block counts: when the block found is closed by a
    blank line, whatever follows that line, a second header and block
    included, does not change what the locator returns. *)
Theorem later_lines_ignored
    (all_lines tail : list str) (w w' w2 : World) (b : GeometryBlock) :
  find_geometry_block all_lines w = (Ok (Some b), w') ->
  end_line b < length all_lines ->
  find_geometry_block (take (S (end_line b)) all_lines ++ tail) w2
  = (Ok (Some b), w2).
Proof.
  intros Hrun Hclosed.
  destruct (find_geometry_block_anchor _ _ _ _ Hrun)
    as (_ & h & header & Hlook & Hhdr & Hbefore & Hstart & Hlt & Hend
        & Hlines & Hrange & Hstop).
  destruct b as [s e ls]. simpl in *. subst s.
  set (new := take (S e) all_lines ++ tail).
  assert (Hlen : length (take (S e) all_lines) = S e).
  { rewrite length_take. lia. }
  assert (Hagree : forall i, i <= e -> new !! i = all_lines !! i).
  { intros i Hi. unfold new.
    rewrite lookup_app_l by lia. apply lookup_take_lt. lia. }
  assert (Htake : take h new = take h all_lines).
  { unfold new. rewrite take_app_le by lia.
    rewrite take_take. f_equal. lia. }
  assert (Hk : e = h + 2 + (e - (h + 2))) by lia.
  rewrite (find_geometry_block_located new h (e - (h + 2)) header w2).
  - rewrite <- Hk.
    assert (Hs : slice new (h + 2) e = slice all_lines (h + 2) e).
    { apply slice_agree. intros i Hi. apply Hagree. lia. }
    rewrite Hs, Hlines. reflexivity.
  - rewrite Hagree by lia. exact Hlook.
  - exact Hhdr.
  - rewrite Htake. exact Hbefore.
  - lia.
  - unfold new. rewrite length_app, Hlen. lia.
  - intros i Hi. rewrite Hagree by lia. apply Hrange. lia.
  - rewrite <- Hk, Hagree by lia. exact Hstop.
Qed.

Lemma later_lines_ignored_witness :
  let b := mkGeometryBlock 4 6 (slice sample_lines 4 6) in
  let tail :=
    [ ln "CARTESIAN COORDINATES (ANGSTROEM)";
      ln "---------------------------------";
      ln "  O   9.000  9.000  9.000";
      ln "" ] in
  find_geometry_block (take (S (end_line b)) sample_lines ++ tail)
    sample_world
  = (Ok (Some b), sample_world).
Proof.
  intros b tail.
  apply (later_lines_ignored sample_lines tail empty_world empty_world
           sample_world b).
  - reflexivity.
  - simpl. lia.
Defined.

(* ===================================================================== *)
(** ** More on the token transformer *)
(* ===================================================================== *)

(** The run of the loop from the outputs of the lines. *)
Lemma transform_loop_run (raw_lines outs : list str) (strict : bool) :
  Forall2 (fun l o => line_result l strict = Ok o) raw_lines outs ->
  forall out_lines w,
    transform_loop raw_lines strict out_lines w =
    (Ok (out_lines ++ outs),
     mkWorld (fs w)
       (records w
        ++ concat (map (fun l => line_records l strict) raw_lines))).
Proof.
  induction 1 as [|line o more outs Ho HF IH]; intros acc w.
  - simpl. unfold ret. rewrite app_nil_r, world_eta. reflexivity.
  - rewrite transform_loop_cons. unfold bind.
    rewrite transform_line_run, Ho, IH. simpl.
    rewrite <- !app_assoc. reflexivity.
Qed.

Lemma line_records_cases (line : str) (strict : bool) :
  line_records line strict = [] \/
  exists tok, line_records line strict = [unrecognized_token_record tok].
Proof.
  unfold line_records, world_after, transform_line.
  destruct (FIRST_TOKEN_RE_match _) as [[[lead tok] rest]|]; [|left; reflexivity].
  unfold symbol_to_mass_token, bind.
  destruct (dict_get MASS_BY_SYMBOL tok); [left; reflexivity|].
  destruct strict; [left; reflexivity|]. right. exists tok. reflexivity.
Qed.

(** X3.  Without [strict] the transformer never fails: it returns one line
    for every line it is given, leaves the files alone, and logs only
    warnings, at most one for a line. *)
Theorem permissive_never_fails (raw_lines : list str) (w : World) :
  exists out logs,
    transform_geometry_lines raw_lines false w
      = (Ok out, mkWorld (fs w) (records w ++ logs)) /\
    length out = length raw_lines /\
    length logs <= length raw_lines /\
    forallb is_warning logs = true.
Proof.
  assert (Hperm : false = true -> forallb accepted_in_strict raw_lines = true)
    by discriminate.
  destruct (transform_loop_ok raw_lines false (lines_ok _ _ Hperm))
    as (outs & HF & Hrun).
  exists outs, (concat (map (fun l => line_records l false) raw_lines)).
  split; [unfold transform_geometry_lines; rewrite Hrun; reflexivity|].
  split; [symmetry; exact (Forall2_length _ _ _ HF)|].
  clear. induction raw_lines as [|l ls [IH1 IH2]]; [split; [simpl; lia|reflexivity]|].
  simpl. rewrite length_app, forallb_app, IH2.
  destruct (line_records_cases l false) as [->|[tok ->]];
    simpl; split; first [lia|reflexivity].
Qed.

Lemma line_strict_ok (line o : str) :
  line_result line true = Ok o ->
  line_result line false = Ok o /\
  line_records line false = [] /\ line_records line true = [].
Proof.
  unfold line_result, line_records, result_of, world_after, transform_line.
  destruct (FIRST_TOKEN_RE_match _) as [[[lead tok] rest]|]; [|auto].
  unfold symbol_to_mass_token, bind.
  destruct (dict_get MASS_BY_SYMBOL tok); simpl; [auto|discriminate].
Qed.

Lemma lines_strict_ok (raw_lines outs : list str) :
  Forall2 (fun l o => line_result l true = Ok o) raw_lines outs ->
  Forall2 (fun l o => line_result l false = Ok o) raw_lines outs /\
  concat (map (fun l => line_records l false) raw_lines) = [] /\
  concat (map (fun l => line_records l true) raw_lines) = [].
Proof.
  induction 1 as [|line o more outs Ho HF (IH1 & IH2 & IH3)].
  - repeat split; constructor.
  - destruct (line_strict_ok _ _ Ho) as (H1 & H2 & H3).
    split; [constructor; assumption|].
    simpl. rewrite H2, H3, IH2, IH3. split; reflexivity.
Qed.

(** X4.  [strict] only decides whether an unknown symbol is an error: when
    the transformer returns with [strict] set, it has logged nothing,
    and without [strict] it returns the same lines and logs nothing
    either. *)
Theorem strict_agrees_with_permissive
    (raw_lines out : list str) (w w' : World) :
  transform_geometry_lines raw_lines true w = (Ok out, w') ->
  w' = w /\
  forall w2, transform_geometry_lines raw_lines false w2 = (Ok out, w2).
Proof.
  unfold transform_geometry_lines. intros Hrun.
  destruct (transform_loop_inv _ _ _ _ _ _ Hrun) as (outs & -> & HF).
  destruct (lines_strict_ok _ _ HF) as (HF' & Hlog & Hlog').
  rewrite (transform_loop_run _ _ _ HF), Hlog', world_eta in Hrun.
  split; [congruence|].
  intros w2. rewrite (transform_loop_run _ _ _ HF'), Hlog, world_eta.
  reflexivity.
Qed.

Lemma strict_agrees_with_permissive_witness :
  let raw_lines := [ln "  N   0.000  0.000  0.000"; ln "H 1.0"] in
  let out := [ln "  14   0.000  0.000  0.000"; ln "1 1.0"] in
  sample_world = sample_world /\
  forall w2, transform_geometry_lines raw_lines false w2 = (Ok out, w2).
Proof.
  intros raw_lines out.
  apply (strict_agrees_with_permissive raw_lines out sample_world sample_world).
  reflexivity.
Defined.

(** *** Lines the tokenizer cannot split *)

Lemma forallb_isspace_rstrip_nl (line : str) :
  forallb py_isspace (rstrip_nl line) = forallb py_isspace line.
Proof.
  rewrite <- (negb_involutive (forallb py_isspace (rstrip_nl line))).
  rewrite <- (negb_involutive (forallb py_isspace line)).
  rewrite !negb_forallb_existsb, existsb_nonspace_rstrip_nl. reflexivity.
Qed.

Lemma FIRST_TOKEN_RE_match_blank (s : str) :
  forallb py_isspace s = true -> FIRST_TOKEN_RE_match s = None.
Proof.
  intros H. unfold FIRST_TOKEN_RE_match.
  apply drop_while_nil in H. rewrite H. reflexivity.
Qed.

Lemma token_no_nl (tok : str) :
  forallb py_nonspace tok = true -> existsb (chr_eqb nl) tok = false.
Proof.
  induction tok as [|c tok IH]; simpl; [reflexivity|].
  intros H. apply andb_prop in H as [Hc Ht].
  rewrite (nonspace_not_nl _ Hc), (IH Ht). reflexivity.
Qed.

(** What the tokenizer returns for the text of a line. *)
Lemma FIRST_TOKEN_RE_match_line (line lead tok rest : str) :
  FIRST_TOKEN_RE_match (rstrip_nl line) = Some (lead, tok, rest) ->
  forallb py_isspace lead = true /\ is_token tok = true /\
  is_remainder rest = true /\
  rstrip_nl line = lead ++ tok ++ rest.
Proof.
  intros H.
  destruct (FIRST_TOKEN_RE_match_sound _ _ _ _ H) as (Hl & Ht & Hr & Hs).
  repeat (split; [assumption|]).
  destruct Hs as [Hs|Hs]; [exact Hs|].
  pose proof (rstrip_nl_last line) as Hlast.
  rewrite Hs, !app_assoc, rev_app_distr in Hlast. simpl in Hlast.
  discriminate Hlast.
Qed.

Lemma FIRST_TOKEN_RE_match_inner_newline (line : str) :
  existsb (chr_eqb nl) (drop_while py_isspace (rstrip_nl line)) = true ->
  FIRST_TOKEN_RE_match (rstrip_nl line) = None.
Proof.
  intros H.
  destruct (FIRST_TOKEN_RE_match (rstrip_nl line))
    as [[[lead tok] rest]|] eqn:E; [|reflexivity].
  destruct (FIRST_TOKEN_RE_match_line _ _ _ _ E) as (Hl & Ht & Hr & Hs).
  rewrite Hs in H.
  pose proof (is_token_head _ Ht) as Hhd.
  rewrite drop_while_app in H.
  - unfold is_token in Ht. apply andb_prop in Ht as [_ Ht].
    unfold is_remainder in Hr. apply andb_prop in Hr as [_ Hr].
    apply negb_true_iff in Hr.
    rewrite existsb_app, (token_no_nl _ Ht), Hr in H. discriminate.
  - exact Hl.
  - destruct tok as [|c tok]; [discriminate|]. exact Hhd.
Qed.

Lemma line_unsplit (line : str) (strict : bool) :
  FIRST_TOKEN_RE_match (rstrip_nl line) = None ->
  line_result line strict = Ok line /\ line_records line strict = [].
Proof.
  intros H. unfold line_result, line_records, result_of, world_after,
    transform_line. rewrite H. split; reflexivity.
Qed.

(** X5.  A line without a visible character, and a line with a ["\n"] after
    its first visible character other than at its end, are copied to the
    output as they are, in both modes: no symbol is replaced and no
    terminator is added. *)
Theorem unsplit_line_copied
    (raw_lines : list str) (strict : bool) (w : World) (i : nat)
    (line : str) :
  raw_lines !! i = Some line ->
  forallb py_isspace line = true \/
  existsb (chr_eqb nl) (drop_while py_isspace (rstrip_nl line)) = true ->
  (strict = true -> forallb accepted_in_strict raw_lines = true) ->
  exists out logs,
    transform_geometry_lines raw_lines strict w
      = (Ok out, mkWorld (fs w) (records w ++ logs)) /\
    out !! i = Some line.
Proof.
  intros Hi Hline Hstrict.
  assert (Hnone : FIRST_TOKEN_RE_match (rstrip_nl line) = None).
  { destruct Hline as [Hb|Hn].
    - apply FIRST_TOKEN_RE_match_blank.
      rewrite forallb_isspace_rstrip_nl. exact Hb.
    - apply FIRST_TOKEN_RE_match_inner_newline. exact Hn. }
  destruct (transform_loop_ok raw_lines strict (lines_ok _ _ Hstrict))
    as (outs & HF & Hrun).
  exists outs, (concat (map (fun l => line_records l strict) raw_lines)).
  split; [unfold transform_geometry_lines; rewrite Hrun; reflexivity|].
  destruct (Forall2_lookup_l _ _ _ _ _ HF Hi) as (o & Ho & Hres).
  rewrite (proj1 (line_unsplit line strict Hnone)) in Hres.
  injection Hres as <-. exact Ho.
Qed.

Lemma unsplit_line_copied_witness :
  (let raw_lines := [ln "N 0.0"; L "   "] in
   exists out logs,
     transform_geometry_lines raw_lines true empty_world
       = (Ok out, mkWorld (fs empty_world) (records empty_world ++ logs)) /\
     out !! 1 = Some (L "   "))
  /\
  (let raw_lines := [L "N 0.0" ++ [nl] ++ L "1.0" ++ [nl]] in
   exists out logs,
     transform_geometry_lines raw_lines false empty_world
       = (Ok out, mkWorld (fs empty_world) (records empty_world ++ logs)) /\
     out !! 0 = Some (L "N 0.0" ++ [nl] ++ L "1.0" ++ [nl])).
Proof.
  split; cbv zeta.
  - apply (unsplit_line_copied [ln "N 0.0"; L "   "] true empty_world 1
             (L "   ")).
    + reflexivity.
    + left. reflexivity.
    + intros _. reflexivity.
  - apply (unsplit_line_copied [L "N 0.0" ++ [nl] ++ L "1.0" ++ [nl]]
             false empty_world 0 (L "N 0.0" ++ [nl] ++ L "1.0" ++ [nl])).
    + reflexivity.
    + right. reflexivity.
    + discriminate.
Defined.

(** *** Columns *)

Lemma py_split_blank (t : str) :
  forallb py_isspace t = true -> py_split t = [].
Proof.
  induction t as [|c t IH]; simpl; [reflexivity|].
  intros H. apply andb_prop in H as [Hc Ht]. rewrite Hc. exact (IH Ht).
Qed.

Lemma py_split_lead (a s : str) :
  forallb py_isspace a = true -> py_split (a ++ s) = py_split s.
Proof.
  induction a as [|c a IH]; simpl; [reflexivity|].
  intros H. apply andb_prop in H as [Hc Ha]. rewrite Hc. exact (IH Ha).
Qed.

Lemma py_split_trail (s t : str) :
  forallb py_isspace t = true -> py_split (s ++ t) = py_split s.
Proof.
  intros Ht. induction s as [|c s IH].
  - simpl. apply py_split_blank. exact Ht.
  - change ((c :: s) ++ t) with (c :: (s ++ t)).
    cbn [py_split]. rewrite IH.
    destruct (py_isspace c); [reflexivity|].
    destruct s as [|d s]; [|reflexivity].
    simpl app. destruct t as [|x t]; [reflexivity|].
    simpl in Ht. apply andb_prop in Ht as [Hx Ht'].
    rewrite Hx. reflexivity.
Qed.

Lemma py_split_token (tok rest : str) :
  is_token tok = true ->
  match rest with [] => true | c :: _ => py_isspace c end = true ->
  py_split (tok ++ rest) = tok :: py_split rest.
Proof.
  unfold is_token. intros Ht Hr. apply andb_prop in Ht as [Hne Hall].
  induction tok as [|c tok IH]; [discriminate|].
  simpl in Hall. apply andb_prop in Hall as [Hc Hall].
  unfold py_nonspace in Hc. apply negb_true_iff in Hc.
  change ((c :: tok) ++ rest) with (c :: (tok ++ rest)).
  cbn [py_split]. rewrite Hc.
  destruct tok as [|d tok].
  - simpl app. destruct rest as [|x rest]; [reflexivity|].
    rewrite Hr. reflexivity.
  - change ((d :: tok) ++ rest) with (d :: (tok ++ rest)) in *.
    pose proof Hall as Hall'. simpl in Hall'.
    apply andb_prop in Hall' as [Hd _].
    unfold py_nonspace in Hd. apply negb_true_iff in Hd. rewrite Hd.
    rewrite (IH eq_refl Hall). reflexivity.
Qed.

Lemma mass_token_is_token (tok : str) (m : nat) :
  dict_get MASS_BY_SYMBOL tok = Some m ->
  is_token (str_of_nat m) = true /\
  dict_get MASS_BY_SYMBOL (str_of_nat m) = None.
Proof.
  intros H.
  assert (Hm : m = 14 \/ m = 12 \/ m = 16 \/ m = 1).
  { revert H. unfold MASS_BY_SYMBOL, dict_get, str_eqb.
    repeat case_bool_decide; try discriminate; intros [= <-]; auto. }
  destruct Hm as [ -> |[ -> |[ -> | -> ]]]; split; reflexivity.
Qed.

Lemma forallb_isspace_repeat_nl (n : nat) :
  forallb py_isspace (repeat nl n) = true.
Proof. induction n as [|n IH]; [reflexivity|exact IH]. Qed.

(** One line in and out, by the way the tokenizer takes it: copied as it
    is, or split into leading whitespace, token and remainder and put
    together again around the new token. *)
Lemma line_result_cases (line o : str) (strict : bool) :
  line_result line strict = Ok o ->
  (FIRST_TOKEN_RE_match (rstrip_nl line) = None /\ o = line) \/
  exists lead tok rest new_tok n,
    line = lead ++ tok ++ rest ++ repeat nl n /\
    o = lead ++ new_tok ++ rest ++ [nl] /\
    forallb py_isspace lead = true /\ is_token tok = true /\
    is_remainder rest = true /\ is_token new_tok = true /\
    dict_get MASS_BY_SYMBOL new_tok = None /\
    (new_tok = tok \/
     exists m, dict_get MASS_BY_SYMBOL tok = Some m /\
               new_tok = str_of_nat m).
Proof.
  unfold line_result, result_of, transform_line.
  destruct (FIRST_TOKEN_RE_match (rstrip_nl line))
    as [[[lead tok] rest]|] eqn:E.
  - destruct (FIRST_TOKEN_RE_match_line _ _ _ _ E) as (Hl & Ht & Hr & Hs).
    destruct (rstrip_nl_suffix line) as [n Hn]. rewrite Hs in Hn.
    unfold symbol_to_mass_token, bind.
    destruct (dict_get MASS_BY_SYMBOL tok) as [m|] eqn:Em.
    + simpl. intros [= <-]. right.
      destruct (mass_token_is_token _ _ Em) as [Hmt Hmn].
      exists lead, tok, rest, (str_of_nat m), n.
      split; [rewrite Hn at 1; rewrite <- !app_assoc; reflexivity|].
      split; [reflexivity|]. repeat (split; [assumption|]).
      right. exists m. auto.
    + destruct strict; simpl; [discriminate|]. intros [= <-]. right.
      exists lead, tok, rest, tok, n.
      split; [rewrite Hn at 1; rewrite <- !app_assoc; reflexivity|].
      split; [reflexivity|]. repeat (split; [assumption|]).
      left. reflexivity.
  - simpl. intros [= <-]. left. auto.
Qed.

Lemma is_remainder_head (rest : str) :
  is_remainder rest = true ->
  match rest with [] => true | c :: _ => py_isspace c end = true.
Proof. unfold is_remainder. intros H. apply andb_prop in H as [H _]. exact H. Qed.

Lemma py_split_row (lead tok rest trail : str) :
  forallb py_isspace lead = true ->
  is_token tok = true ->
  is_remainder rest = true ->
  forallb py_isspace trail = true ->
  py_split (lead ++ tok ++ rest ++ trail) = tok :: py_split rest.
Proof.
  intros Hl Ht Hr Htr.
  rewrite (py_split_lead _ _ Hl).
  rewrite (py_split_token tok (rest ++ trail) Ht).
  - rewrite (py_split_trail _ _ Htr). reflexivity.
  - pose proof (is_remainder_head _ Hr) as Hh.
    destruct rest as [|c rest]; [|exact Hh].
    simpl. destruct trail as [|x trail]; [reflexivity|].
    simpl in Htr. apply andb_prop in Htr as [Hx _]. exact Hx.
Qed.

(** X6.  Only the first column of a row can change: whenever the transformer
    returns, every output line has as many whitespace-separated columns
    as its input line, and all columns after the first are the same. *)
Theorem columns_preserved
    (raw_lines out : list str) (strict : bool) (w w' : World)
    (i : nat) (line o : str) :
  transform_geometry_lines raw_lines strict w = (Ok out, w') ->
  raw_lines !! i = Some line ->
  out !! i = Some o ->
  length (py_split o) = length (py_split line) /\
  tail (py_split o) = tail (py_split line).
Proof.
  unfold transform_geometry_lines. intros Hrun Hi Ho.
  destruct (transform_loop_inv _ _ _ _ _ _ Hrun) as (outs & -> & HF).
  simpl in Ho.
  destruct (Forall2_lookup_l _ _ _ _ _ HF Hi) as (o' & Ho' & Hres).
  rewrite Ho in Ho'. injection Ho' as <-.
  destruct (line_result_cases _ _ _ Hres)
    as [[_ ->]|(lead & tok & rest & new & n & -> & -> & Hl & Ht & Hr & Hnt & _)];
    [auto|].
  rewrite (py_split_row lead tok rest (repeat nl n) Hl Ht Hr
             (forallb_isspace_repeat_nl n)).
  rewrite (py_split_row lead new rest [nl] Hl Hnt Hr eq_refl).
  auto.
Qed.

Lemma columns_preserved_witness :
  let raw_lines := [ln "  N   0.000  0.000  0.000"; ln "Xx 1.0 2.0"] in
  let out := [ln "  14   0.000  0.000  0.000"; ln "Xx 1.0 2.0"] in
  length (py_split (ln "  14   0.000  0.000  0.000"))
  = length (py_split (ln "  N   0.000  0.000  0.000")) /\
  tail (py_split (ln "  14   0.000  0.000  0.000"))
  = tail (py_split (ln "  N   0.000  0.000  0.000")).
Proof.
  intros raw_lines out.
  apply (columns_preserved raw_lines out false empty_world
           (world_after (transform_geometry_lines raw_lines false)
              empty_world) 0).
  - reflexivity.
  - reflexivity.
  - reflexivity.
Defined.

(** *** Running the transformer on its own output *)

Lemma line_result_again (line o : str) (strict : bool) :
  line_result line strict = Ok o -> line_result o false = Ok o.
Proof.
  intros H.
  destruct (line_result_cases _ _ _ H)
    as [[Hnone ->]|(lead & tok & rest & new & n & _ & -> & Hl & _ & Hr & Hnt
                    & Hnew & _)].
  - apply (line_unsplit line false Hnone).
  - apply (line_unknown_permissive lead new rest 1 Hl Hnt Hr Hnew).
Qed.

(** X7.  The mass tokens are not symbols, so the transformer changes nothing
    in lines it has produced: without [strict], run on its own output,
    it returns that output again. *)
Theorem transform_output_stable
    (raw_lines out : list str) (strict : bool) (w w' w2 : World) :
  transform_geometry_lines raw_lines strict w = (Ok out, w') ->
  exists logs,
    transform_geometry_lines out false w2
    = (Ok out, mkWorld (fs w2) (records w2 ++ logs)).
Proof.
  unfold transform_geometry_lines. intros Hrun.
  destruct (transform_loop_inv _ _ _ _ _ _ Hrun) as (outs & -> & HF).
  simpl.
  assert (HF' : Forall2 (fun l o => line_result l false = Ok o) outs outs).
  { clear -HF. induction HF as [|line o more outs Ho HF IH]; constructor.
    - exact (line_result_again _ _ _ Ho).
    - exact IH. }
  eexists. rewrite (transform_loop_run _ _ _ HF'). reflexivity.
Qed.

Lemma transform_output_stable_witness :
  let raw_lines := [ln "  N   0.000  0.000  0.000"; ln "Xx 1.0 2.0"] in
  let out := [ln "  14   0.000  0.000  0.000"; ln "Xx 1.0 2.0"] in
  exists logs,
    transform_geometry_lines out false sample_world
    = (Ok out, mkWorld (fs sample_world) (records sample_world ++ logs)).
Proof.
  intros raw_lines out.
  apply (transform_output_stable raw_lines out false empty_world
           (world_after (transform_geometry_lines raw_lines false)
              empty_world) sample_world).
  reflexivity.
Defined.

(* ===================================================================== *)
(** ** More on reading, writing and the run *)
(* ===================================================================== *)

(** *** What writing touches *)

(** A node that [mkdir_from] leaves is the node that was there, or a new
    directory on the way. *)
Lemma mkdir_from_new (done : Path) (todo : list string) (w w' : World)
    (r : Res unit) (p : Path) :
  mkdir_from done todo w = (r, w') ->
  fs w' !! p = fs w !! p \/
  (fs w !! p = None /\ fs w' !! p = Some Dir /\
   exists j, j < length todo /\ p = done ++ take (S j) todo).
Proof.
  revert done w. induction todo as [|c todo IH]; intros done w; simpl.
  - intros [= <- <-]. left. reflexivity.
  - destruct (fs w !! (done ++ [c])) as [[content|]|] eqn:E.
    + intros [= <- <-]. left. reflexivity.
    + intros H. destruct (IH _ _ H) as [Hsame|(Hn & Hd & j & Hj & Hp)].
      * left. exact Hsame.
      * right. split; [exact Hn|]. split; [exact Hd|].
        exists (S j). split; [lia|]. rewrite Hp, <- app_assoc. reflexivity.
    + intros H. destruct (IH _ _ H) as [Hsame|(Hn & Hd & j & Hj & Hp)];
        simpl in *.
      * destruct (decide (p = done ++ [c])) as [->|Hne].
        -- right. split; [exact E|].
           split; [rewrite Hsame; apply lookup_insert_eq|].
           exists 0. split; [lia|]. reflexivity.
        -- left. rewrite Hsame. apply lookup_insert_ne. congruence.
      * right.
        assert (Hne : p <> done ++ [c]).
        { intros ->. rewrite lookup_insert_eq in Hn. discriminate. }
        rewrite lookup_insert_ne in Hn by congruence.
        split; [exact Hn|]. split; [exact Hd|].
        exists (S j). split; [lia|]. rewrite Hp, <- app_assoc. reflexivity.
Qed.

Lemma path_parent_split (path : Path) :
  path <> [] -> exists name, path = parent path ++ [name].
Proof.
  intros Hne. exists (List.last path ""%string).
  apply app_removelast_last. exact Hne.
Qed.

(** A prefix of the parent of a path is not the path, and the path lies
    under it. *)
Lemma ancestor_of_path (path : Path) (j : nat) :
  j < length (parent path) ->
  take (S j) (parent path) <> path /\
  path_under (take (S j) (parent path)) path.
Proof.
  intros Hj.
  assert (Hne : path <> []).
  { intros ->. simpl in Hj. lia. }
  destruct (path_parent_split path Hne) as [name Hp].
  split.
  - intros Heq. apply (f_equal (@length string)) in Heq.
    rewrite length_take in Heq.
    apply (f_equal (@length string)) in Hp. rewrite length_app in Hp.
    simpl in Hp. lia.
  - exists (drop (S j) (parent path) ++ [name]).
    rewrite app_assoc, take_drop. exact Hp.
Qed.

(** What [write_text_lines] leaves at a path, whether it returns or
    raises. *)
Lemma write_text_lines_touch (path : Path) (out : list str) (w w' : World)
    (r : Res unit) :
  write_text_lines path out w = (r, w') ->
  records w' = records w /\
  (forall p, p <> path ->
     fs w' !! p = fs w !! p \/
     (fs w !! p = None /\ fs w' !! p = Some Dir /\ path_under p path)) /\
  match r with
  | Ok _ => fs w' !! path = Some (File (concat out))
  | Raise _ => fs w' !! path = fs w !! path
  end.
Proof.
  unfold write_text_lines, mkdir_parents, bind.
  destruct (mkdir_from [] (parent path) w) as [r1 w1] eqn:Emk.
  pose proof (mkdir_from_grows _ _ _ _ _ Emk) as [_ Hrec1].
  assert (Hdirs : forall p,
             fs w1 !! p = fs w !! p \/
             (fs w !! p = None /\ fs w1 !! p = Some Dir /\
              p <> path /\ path_under p path)).
  { intros p.
    destruct (mkdir_from_new _ _ _ _ _ p Emk)
      as [Hsame|(Hn & Hd & j & Hj & Hp)]; [left; exact Hsame|].
    right. simpl in Hp. subst p.
    destruct (ancestor_of_path path j Hj) as [Hne Hunder]. auto. }
  assert (Hpath1 : fs w1 !! path = fs w !! path).
  { destruct (Hdirs path) as [H|(_ & _ & Hne & _)]; [exact H|congruence]. }
  assert (Hother1 : forall p, p <> path ->
             fs w1 !! p = fs w !! p \/
             (fs w !! p = None /\ fs w1 !! p = Some Dir /\ path_under p path)).
  { intros p _. destruct (Hdirs p) as [H|(H1 & H2 & _ & H3)]; auto. }
  destruct r1 as [[]|e1].
  - unfold open_w.
    destruct (node_at (fs w1) path) as [[c|]|] eqn:Enode;
      try (intros [= <- <-]; auto);
      (destruct (node_at (fs w1) (parent path)) as [[c'|]|] eqn:Epar;
       try (intros [= <- <-]; auto));
      (rewrite (write_loop_run path out []) by (simpl; apply lookup_insert_eq));
      simpl; rewrite insert_insert_eq; intros [= <- <-]; simpl;
      (split; [exact Hrec1|]);
      (split; [|apply lookup_insert_eq]);
      intros p Hp; rewrite lookup_insert_ne by congruence;
      apply Hother1; exact Hp.
  - intros [= <- <-]. auto.
Qed.

(** X8.  Writing touches the target only: every other path holds what it
    held, except that the missing directories above the target are
    created, also when the writing raises.  When the writing returns,
    the target holds the lines, one after the other, whatever it held
    before.  The log is left alone.  (What the target holds after a
    failed write is not stated: the file is opened, and so emptied,
    before the first line is written.) *)
Theorem write_touches_only_target
    (path : Path) (out : list str) (w w' : World) (r : Res unit) :
  write_text_lines path out w = (r, w') ->
  records w' = records w /\
  (forall p, p <> path ->
     fs w' !! p = fs w !! p \/
     (fs w !! p = None /\ fs w' !! p = Some Dir /\ path_under p path)) /\
  (r = Ok tt -> fs w' !! path = Some (File (concat out))).
Proof.
  intros Hrun.
  destruct (write_text_lines_touch _ _ _ _ _ Hrun) as (Hrec & Hother & Hr).
  split; [exact Hrec|]. split; [exact Hother|].
  intros ->. exact Hr.
Qed.

Lemma write_touches_only_target_witness :
  let path := ["new"; "dir"; "geometry.txt"] in
  let out := [ln "14 0.0"] in
  let w' := world_after (write_text_lines path out) sample_world in
  records w' = records sample_world /\
  (forall p, p <> path ->
     fs w' !! p = fs sample_world !! p \/
     (fs sample_world !! p = None /\ fs w' !! p = Some Dir /\
      path_under p path)) /\
  (Ok tt = Ok tt -> fs w' !! path = Some (File (concat out))).
Proof.
  intros path out w'.
  apply (write_touches_only_target path out sample_world w' (Ok tt)).
  vm_compute. reflexivity.
Defined.

(** *** Reading back what was written *)

Lemma universal_newlines_no_cr (s : str) :
  no_cr s = true -> universal_newlines s = s.
Proof.
  unfold no_cr. intros H. apply negb_true_iff in H.
  induction s as [|c s IH]; [reflexivity|].
  simpl in H. apply orb_false_iff in H as [Hc Hs].
  simpl. rewrite chr_eqb_sym, Hc, (IH Hs). reflexivity.
Qed.

Lemma no_cr_concat (out : list str) :
  forallb no_cr out = true -> no_cr (concat out) = true.
Proof.
  unfold no_cr. induction out as [|l out IH]; [reflexivity|].
  simpl. intros H. apply andb_prop in H as [Hl Hout].
  apply negb_true_iff in Hl. specialize (IH Hout).
  apply negb_true_iff in IH. apply negb_true_iff.
  rewrite existsb_app, Hl, IH. reflexivity.
Qed.

(** X9.  Lines that each end in their only ["\n"] and hold no ["\r"] are
    read back by [read_text_lines] exactly as [write_text_lines] wrote
    them. *)
Theorem write_then_read
    (path : Path) (out : list str) (w w' : World) :
  write_text_lines path out w = (Ok tt, w') ->
  forallb one_terminator out = true ->
  forallb no_cr out = true ->
  read_text_lines path w' = (Ok out, w').
Proof.
  intros Hw Hone Hcr.
  destruct (write_text_lines_ok _ _ _ _ Hw) as (w1 & _ & Hne & _ & _ & ->).
  unfold read_text_lines.
  assert (Hnode : node_at
                    (<[path := File (concat out)]> (fs w1) : gmap Path node)
                    path = Some (File (concat out))).
  { destruct path as [|c path]; [congruence|]. simpl.
    apply lookup_insert_eq. }
  simpl fs. rewrite Hnode.
  rewrite (universal_newlines_no_cr _ (no_cr_concat _ Hcr)).
  rewrite readlines_concat; [reflexivity|].
  apply List.Forall_forall. rewrite forallb_forall in Hone. exact Hone.
Qed.

Lemma write_then_read_witness :
  let path := ["results"; "geometry.txt"] in
  let out := [ln "14 0.0 0.0 0.0"; ln "1 1.0 0.0 0.0"] in
  let w' := world_after (write_text_lines path out) sample_world in
  read_text_lines path w' = (Ok out, w').
Proof.
  intros path out w'.
  apply (write_then_read path out sample_world w').
  - vm_compute. reflexivity.
  - reflexivity.
  - reflexivity.
Defined.

(** *** What a run logs *)


Lemma below_error_no_error (logs : list LogRecord) :
  forallb below_error logs = true -> existsb is_error logs = false.
Proof.
  induction logs as [|r logs IH]; simpl; [reflexivity|].
  intros H. apply andb_prop in H as [Hr Hl]. rewrite (IH Hl).
  unfold below_error in Hr. unfold is_error.
  destruct (levelname r); try discriminate; reflexivity.
Qed.








(** With the level CRITICAL, a run that fails on an input without a
    header ends with 1 and leaves the log as it was. *)
Example run_failure_not_emitted :
  exists run,
    Cli.run [L "empty.out"; L "--log"; L "CRITICAL"] = Some run /\
    run sample_world = (1, sample_world).
Proof. eexists. split; [reflexivity|]. vm_compute. reflexivity. Qed.

(** *** What a run touches *)

(** X11.  Whatever the outcome, [main] changes no path but the artifact: every
    other path holds what it held, except that the missing directories
    above the artifact may have been created.  In particular no other
    file, the input included, is changed or removed. *)
Theorem main_touches_only_artifact (a : Args) (w : World) (p : Path) :
  p <> geometry_txt a ->
  fs (world_after (main a) w) !! p = fs w !! p \/
  (fs w !! p = None /\
   fs (world_after (main a) w) !! p = Some Dir /\
   path_under p (geometry_txt a)).
Proof.
  intros Hp.
  destruct (main_outcome a w) as [_ Hfs].
  pose proof (generate_geometry_file_outcome a w) as Hgen. cbv zeta in Hgen.
  assert (Hwrite : forall t,
             fs (world_after
                   (generate_geometry_file (input a) (outdir a) (strict a)) w)
             = fs (world_after (write_text_lines (geometry_txt a) t) w) ->
             fs (world_after
                   (generate_geometry_file (input a) (outdir a) (strict a)) w)
               !! p = fs w !! p \/
             (fs w !! p = None /\
              fs (world_after
                    (generate_geometry_file (input a) (outdir a) (strict a))
                    w) !! p = Some Dir /\
              path_under p (geometry_txt a))).
  { intros t ->.
    pose proof (run_pair (write_text_lines (geometry_txt a) t) w) as Hw.
    destruct (write_text_lines_touch _ _ _ _ _ Hw) as (_ & Hother & _).
    apply Hother. exact Hp. }
  rewrite Hfs.
  destruct (run_outcome a w).
  - left. reflexivity.
  - destruct Hgen as (_ & -> & _). left. reflexivity.
  - destruct Hgen as (_ & -> & _). left. reflexivity.
  - destruct Hgen as (_ & -> & _). left. reflexivity.
  - destruct Hgen as (_ & t & _ & Hg). exact (Hwrite t Hg).
  - destruct Hgen as (_ & t & _ & _ & Hg). exact (Hwrite t Hg).
Qed.

Lemma main_touches_only_artifact_witness :
  let a := mkArgs ["run.out"] ["new"; "dir"] false INFO in
  (fs (world_after (main a) sample_world) !! ["run.out"]
   = fs sample_world !! ["run.out"] \/
   (fs sample_world !! ["run.out"] = None /\
    fs (world_after (main a) sample_world) !! ["run.out"] = Some Dir /\
    path_under ["run.out"] (geometry_txt a)))
  /\
  (fs (world_after (main a) sample_world) !! ["new"]
   = fs sample_world !! ["new"] \/
   (fs sample_world !! ["new"] = None /\
    fs (world_after (main a) sample_world) !! ["new"] = Some Dir /\
    path_under ["new"] (geometry_txt a))).
Proof.
  intros a. split.
  - apply (main_touches_only_artifact a sample_world ["run.out"]).
    discriminate.
  - apply (main_touches_only_artifact a sample_world ["new"]).
    discriminate.
Defined.

(* ===================================================================== *)
(** ** The line-swap utility *)
(* ===================================================================== *)

Lemma order_required_lines : Order.required_lines = 31%Z.
Proof. reflexivity. Qed.

(** The loop over the map, on a sequence long enough. *)
Lemma order_swap_loop_run (original_lines : list str) (h : Order.Host)
    (x y : str) :
  original_lines !! 19 = Some x ->
  original_lines !! 30 = Some y ->
  Order.swap_loop Order.content_source_map original_lines original_lines h
  = (inr (<[19 := y]> (<[30 := x]> original_lines)),
     Order.mkHost (Order.disk h)
       (Order.console h
        ++ [(Order.Stdout, Order.MsgSwap 31 20);
            (Order.Stdout, Order.MsgSwap 20 31)])).
Proof.
  intros Hx Hy.
  pose proof (lookup_lt_Some _ _ _ Hy) as Hlen.
  unfold Order.content_source_map. cbn [Order.swap_loop].
  rewrite Hx, Hy.
  assert (H30 : (30 <? length original_lines) = true)
    by (apply Nat.ltb_lt; lia).
  assert (H19 : (19 <? length (<[30 := x]> original_lines)) = true)
    by (apply Nat.ltb_lt; rewrite length_insert; lia).
  rewrite H30, H19. unfold Order.print. simpl.
  rewrite <- app_assoc. reflexivity.
Qed.

(** The loop never raises on a sequence of at least 31 lines, and
    always raises on a shorter one. *)
Lemma order_swap_loop_short (original_lines : list str) (h : Order.Host) :
  length original_lines < 31 ->
  exists h',
    Order.swap_loop Order.content_source_map original_lines
      original_lines h = (inl Order.IndexError, h').
Proof.
  intros Hlen. unfold Order.content_source_map. cbn [Order.swap_loop].
  destruct (original_lines !! 19) as [x|] eqn:Hx; [|eauto].
  assert (H30 : (30 <? length original_lines) = false)
    by (apply Nat.ltb_ge; lia).
  rewrite H30. eauto.
Qed.

Lemma exchanged_spec (l : list str) (i j : nat) (x y : str) :
  i <> j -> l !! i = Some x -> l !! j = Some y ->
  exchanged l i j = <[i := y]> (<[j := x]> l) /\
  length (exchanged l i j) = length l /\
  exchanged l i j !! i = Some y /\
  exchanged l i j !! j = Some x /\
  forall k, k <> i -> k <> j -> exchanged l i j !! k = l !! k.
Proof.
  intros Hij Hx Hy. unfold exchanged. rewrite Hx, Hy.
  pose proof (lookup_lt_Some _ _ _ Hx) as Hi.
  pose proof (lookup_lt_Some _ _ _ Hy) as Hj.
  split; [apply list_insert_insert_ne; congruence|].
  split; [rewrite !length_insert; reflexivity|].
  split.
  { rewrite list_lookup_insert_ne by congruence.
    apply list_lookup_insert_eq. exact Hi. }
  split.
  { apply list_lookup_insert_eq. rewrite length_insert. exact Hj. }
  intros k Hki Hkj. rewrite !list_lookup_insert_ne by congruence.
  reflexivity.
Qed.

(** The run of the utility on a readable input of at least 31 lines. *)
Lemma order_swap_run (inp out : Path) (h : Order.Host) (content : str) :
  node_at (Order.disk h) inp = Some (File content) ->
  31 <= length (readlines (universal_newlines content)) ->
  let lines := readlines (universal_newlines content) in
  let new_lines := exchanged lines 19 30 in
  let h1 :=
    Order.mkHost (Order.disk h)
      (Order.console h
       ++ [(Order.Stdout, Order.MsgFileRead inp (length lines));
           (Order.Stdout, Order.MsgSwapsBegin);
           (Order.Stdout, Order.MsgSwap 31 20);
           (Order.Stdout, Order.MsgSwap 20 31)]) in
  Order.swap_body inp out h =
  match Order.open_writelines out new_lines (Order.disk h) with
  | (inl e, d) => (inl e, Order.mkHost d (Order.console h1))
  | (inr _, d) =>
      (inr tt,
       Order.mkHost d
         (Order.console h1
          ++ [(Order.Stdout, Order.MsgRule);
              (Order.Stdout, Order.MsgSwapsDone);
              (Order.Stdout, Order.MsgSavedTo out)]))
  end.
Proof.
  intros Hin Hlen. cbv zeta.
  set (lines := readlines (universal_newlines content)) in *.
  destruct (lookup_lt_is_Some_2 lines 19 ltac:(lia)) as [x Hx].
  destruct (lookup_lt_is_Some_2 lines 30 ltac:(lia)) as [y Hy].
  destruct (exchanged_spec lines 19 30 x y ltac:(lia) Hx Hy) as (Hex & _).
  unfold Order.swap_body, Order.open_readlines. rewrite Hin. fold lines.
  rewrite order_required_lines.
  destruct (Z.of_nat (length lines) <? 31)%Z eqn:E;
    [apply Z.ltb_lt in E; lia|].
  rewrite (order_swap_loop_run lines _ x y Hx Hy).
  rewrite Hex. unfold Order.print. simpl.
  destruct (Order.open_writelines out _ (Order.disk h)) as [[e|[]] d].
  - rewrite <- !app_assoc. reflexivity.
  - rewrite <- !app_assoc. reflexivity.
Qed.

(** X12.  On a readable input of at least 31 lines and an output that can be
    written, the utility writes to the output the lines of the input
    with line 20 and line 31 exchanged (indices 19 and 30) and every
    other line in its place; no other path changes, and nothing goes to
    the error stream. *)
Theorem order_swap_exchanges
    (inp out : Path) (h : Order.Host) (content : str) :
  node_at (Order.disk h) inp = Some (File content) ->
  31 <= length (readlines (universal_newlines content)) ->
  node_at (Order.disk h) out <> Some Dir ->
  node_at (Order.disk h) (parent out) = Some Dir ->
  let lines := readlines (universal_newlines content) in
  let h' := Order.swap_specific_lines inp out h in
  exists new_lines,
    Order.disk h' = <[out := File (concat new_lines)]> (Order.disk h) /\
    length new_lines = length lines /\
    new_lines !! 19 = lines !! 30 /\
    new_lines !! 30 = lines !! 19 /\
    (forall k, k <> 19 -> k <> 30 -> new_lines !! k = lines !! k) /\
    exists printed,
      Order.console h' = Order.console h ++ printed /\
      existsb on_stderr printed = false.
Proof.
  intros Hin Hlen Hout Hpar. cbv zeta.
  set (lines := readlines (universal_newlines content)) in *.
  destruct (lookup_lt_is_Some_2 lines 19 ltac:(lia)) as [x Hx].
  destruct (lookup_lt_is_Some_2 lines 30 ltac:(lia)) as [y Hy].
  destruct (exchanged_spec lines 19 30 x y ltac:(lia) Hx Hy)
    as (_ & Hl & H19 & H30 & Hk).
  exists (exchanged lines 19 30).
  unfold Order.swap_specific_lines.
  rewrite (order_swap_run inp out h content Hin Hlen). cbv zeta. fold lines.
  unfold Order.open_writelines. rewrite Hpar.
  destruct (node_at (Order.disk h) out) as [[c|]|]; [|congruence|];
    simpl; (split; [reflexivity|]);
    (split; [exact Hl|]);
    (split; [rewrite H19; symmetry; exact Hy|]);
    (split; [rewrite H30; symmetry; exact Hx|]);
    (split; [exact Hk|]);
    eexists; rewrite <- !app_assoc; (split; [reflexivity|reflexivity]).
Qed.

Lemma order_swap_exchanges_witness :
  let lines := readlines (universal_newlines (concat numbered_lines)) in
  let h' :=
    Order.swap_specific_lines ["input.txt"] ["output.txt"] sample_host in
  exists new_lines,
    Order.disk h'
    = <[ ["output.txt"] := File (concat new_lines)]>
        (Order.disk sample_host) /\
    length new_lines = length lines /\
    new_lines !! 19 = lines !! 30 /\
    new_lines !! 30 = lines !! 19 /\
    (forall k, k <> 19 -> k <> 30 -> new_lines !! k = lines !! k) /\
    exists printed,
      Order.console h' = Order.console sample_host ++ printed /\
      existsb on_stderr printed = false.
Proof.
  apply (order_swap_exchanges ["input.txt"] ["output.txt"] sample_host
           (concat numbered_lines)).
  - reflexivity.
  - vm_compute. lia.
  - discriminate.
  - reflexivity.
Defined.

(** *** Every way the utility can go *)

(** The messages of a run that gets as far as the exchanges. *)
Lemma order_run (inp out : Path) (h : Order.Host) :
  Order.swap_specific_lines inp out h =
  match node_at (Order.disk h) inp with
  | None =>
      Order.mkHost (Order.disk h)
        (Order.console h
         ++ [(Order.Stderr,
              if Order.below_file (Order.disk h) inp
              then Order.MsgUnexpected
                     (Order.OSError (NotADirectoryError inp))
              else Order.MsgInputNotFound inp)])
  | Some Dir =>
      Order.mkHost (Order.disk h)
        (Order.console h
         ++ [(Order.Stderr,
              Order.MsgUnexpected
                (Order.OSError (IsADirectoryError inp)))])
  | Some (File content) =>
      let lines := readlines (universal_newlines content) in
      if length lines <? 31 then
        Order.mkHost (Order.disk h)
          (Order.console h
           ++ [(Order.Stdout, Order.MsgFileRead inp (length lines));
               (Order.Stderr,
                Order.MsgTooFewLines (length lines) 31 30)])
      else
        let begun :=
          Order.console h
          ++ [(Order.Stdout, Order.MsgFileRead inp (length lines));
              (Order.Stdout, Order.MsgSwapsBegin);
              (Order.Stdout, Order.MsgSwap 31 20);
              (Order.Stdout, Order.MsgSwap 20 31)] in
        match Order.open_writelines out (exchanged lines 19 30)
                (Order.disk h) with
        | (inr _, d) =>
            Order.mkHost d
              (begun
               ++ [(Order.Stdout, Order.MsgRule);
                   (Order.Stdout, Order.MsgSwapsDone);
                   (Order.Stdout, Order.MsgSavedTo out)])
        | (inl (Order.OSError (FileNotFoundError p)), d) =>
            Order.mkHost d
              (begun ++ [(Order.Stderr, Order.MsgInputNotFound inp)])
        | (inl e, d) =>
            Order.mkHost d (begun ++ [(Order.Stderr, Order.MsgUnexpected e)])
        end
  end.
Proof.
  destruct (node_at (Order.disk h) inp) as [[content|]|] eqn:Hin.
  - cbv zeta.
    destruct (length (readlines (universal_newlines content)) <? 31) eqn:E.
    + apply Nat.ltb_lt in E.
      unfold Order.swap_specific_lines, Order.swap_body, Order.open_readlines.
      rewrite Hin, order_required_lines.
      destruct (Z.of_nat _ <? 31)%Z eqn:E'; [|apply Z.ltb_ge in E'; lia].
      unfold Order.print. simpl. rewrite <- app_assoc. reflexivity.
    + apply Nat.ltb_ge in E.
      unfold Order.swap_specific_lines.
      rewrite (order_swap_run inp out h content Hin E). cbv zeta.
      unfold Order.open_writelines.
      destruct (node_at (Order.disk h) out) as [[c|]|];
        try destruct (node_at (Order.disk h) (parent out)) as [[c'|]|];
        try destruct (Order.below_file (Order.disk h) (parent out));
        reflexivity.
  - unfold Order.swap_specific_lines, Order.swap_body, Order.open_readlines.
    rewrite Hin. reflexivity.
  - unfold Order.swap_specific_lines, Order.swap_body, Order.open_readlines,
      Order.missing.
    rewrite Hin.
    destruct (Order.below_file (Order.disk h) inp); reflexivity.
Qed.

Lemma open_writelines_touch (out : Path) (new_lines : list str)
    (d d' : gmap Path node) (r : Order.py_exn + unit) :
  Order.open_writelines out new_lines d = (r, d') ->
  (forall p, p <> out -> d' !! p = d !! p) /\
  match r with
  | inr _ => d' = <[out := File (concat new_lines)]> d
  | inl _ => d' = d
  end.
Proof.
  unfold Order.open_writelines.
  destruct (node_at d out) as [[c|]|];
    try destruct (node_at d (parent out)) as [[c'|]|];
    try destruct (Order.below_file d (parent out));
    intros [= <- <-]; split; try reflexivity;
    intros p Hp; apply lookup_insert_ne; congruence.
Qed.

(** X13.  An input that cannot be used leaves every file as it was, the
    output is not created, and the reason goes to the error stream: for
    a missing name the message for a missing input; for a name below a
    regular file, and for a directory, the message for an unexpected
    error; for fewer than 31 lines the count. *)
Theorem order_unusable_input (inp out : Path) (h : Order.Host) :
  match node_at (Order.disk h) inp with
  | Some (File content) =>
      length (readlines (universal_newlines content)) < 31
  | _ => True
  end ->
  let h' := Order.swap_specific_lines inp out h in
  Order.disk h' = Order.disk h /\
  Order.console h' =
  Order.console h ++
  match node_at (Order.disk h) inp with
  | None =>
      if Order.below_file (Order.disk h) inp
      then [(Order.Stderr,
             Order.MsgUnexpected (Order.OSError (NotADirectoryError inp)))]
      else [(Order.Stderr, Order.MsgInputNotFound inp)]
  | Some Dir =>
      [(Order.Stderr,
        Order.MsgUnexpected (Order.OSError (IsADirectoryError inp)))]
  | Some (File content) =>
      let n := length (readlines (universal_newlines content)) in
      [(Order.Stdout, Order.MsgFileRead inp n);
       (Order.Stderr, Order.MsgTooFewLines n 31 30)]
  end.
Proof.
  intros Hbad. cbv zeta. rewrite order_run.
  destruct (node_at (Order.disk h) inp) as [[content|]|].
  - cbv zeta. apply Nat.ltb_lt in Hbad. rewrite Hbad. split; reflexivity.
  - split; reflexivity.
  - destruct (Order.below_file (Order.disk h) inp); split; reflexivity.
Qed.

Lemma order_unusable_input_witness :
  (let h' :=
     Order.swap_specific_lines ["short.txt"] ["output.txt"] sample_host in
   Order.disk h' = Order.disk sample_host /\
   Order.console h' =
   Order.console sample_host ++
   [(Order.Stdout, Order.MsgFileRead ["short.txt"] 2);
    (Order.Stderr, Order.MsgTooFewLines 2 31 30)])
  /\
  (let h' :=
     Order.swap_specific_lines ["absent.txt"] ["output.txt"] sample_host in
   Order.disk h' = Order.disk sample_host /\
   Order.console h' =
   Order.console sample_host ++
   [(Order.Stderr, Order.MsgInputNotFound ["absent.txt"])])
  /\
  (let h' :=
     Order.swap_specific_lines ["short.txt"; "in.txt"] ["output.txt"]
       sample_host in
   Order.disk h' = Order.disk sample_host /\
   Order.console h' =
   Order.console sample_host ++
   [(Order.Stderr,
     Order.MsgUnexpected
       (Order.OSError (NotADirectoryError ["short.txt"; "in.txt"])))]).
Proof.
  split; [|split].
  - apply (order_unusable_input ["short.txt"] ["output.txt"] sample_host).
    vm_compute. lia.
  - apply (order_unusable_input ["absent.txt"] ["output.txt"] sample_host).
    exact I.
  - apply (order_unusable_input ["short.txt"; "in.txt"] ["output.txt"]
             sample_host).
    exact I.
Defined.

Lemma order_touches_only_output_lemma
    (inp out : Path) (h : Order.Host) (p : Path) :
  p <> out ->
  Order.disk (Order.swap_specific_lines inp out h) !! p
  = Order.disk h !! p.
Proof.
  intros Hp. rewrite order_run.
  destruct (node_at (Order.disk h) inp) as [[content|]|];
    try reflexivity.
  cbv zeta.
  destruct (length (readlines (universal_newlines content)) <? 31);
    [reflexivity|].
  destruct (Order.open_writelines out _ (Order.disk h)) as [r d] eqn:Ew.
  destruct (open_writelines_touch _ _ _ _ _ Ew) as [Hother _].
  destruct r as [[[m|m|q|q|q|q]|]|[]]; simpl; apply Hother; exact Hp.
Qed.

(** X14.  The utility changes no path but the output, whatever the files are
    and however the run ends. *)
Theorem order_touches_only_output
    (inp out : Path) (h : Order.Host) (p : Path) :
  p <> out ->
  Order.disk (Order.swap_specific_lines inp out h) !! p
  = Order.disk h !! p.
Proof. apply order_touches_only_output_lemma. Qed.

Lemma order_touches_only_output_witness :
  Order.disk
    (Order.swap_specific_lines ["input.txt"] ["output.txt"] sample_host)
    !! ["input.txt"]
  = Order.disk sample_host !! ["input.txt"].
Proof.
  apply (order_touches_only_output ["input.txt"] ["output.txt"] sample_host
           ["input.txt"]).
  discriminate.
Defined.

(** X15.  Two branches of the utility are never taken, whatever the files
    are: the handler of [IndexError], because the lines are counted
    before they are exchanged, and the note on an assumption, because
    the map has no entry for index 22.  Every run only adds messages to
    the console. *)
Theorem order_dead_branches (inp out : Path) (h : Order.Host) :
  exists printed,
    Order.console (Order.swap_specific_lines inp out h)
    = Order.console h ++ printed /\
    forall sm, In sm printed ->
      snd sm <> Order.MsgAssumption /\
      snd sm <> Order.MsgUnexpected Order.IndexError /\
      forall name r, snd sm <> Order.MsgInvalidIndex name r.
Proof.
  rewrite order_run.
  assert (Hall : forall printed : list (Order.stream * Order.message),
             forallb
               (fun sm =>
                  match snd sm with
                  | Order.MsgAssumption | Order.MsgInvalidIndex _ _
                  | Order.MsgUnexpected Order.IndexError => false
                  | _ => true
                  end) printed = true ->
             forall sm, In sm printed ->
               snd sm <> Order.MsgAssumption /\
               snd sm <> Order.MsgUnexpected Order.IndexError /\
               forall name r, snd sm <> Order.MsgInvalidIndex name r).
  { intros printed H sm Hin. rewrite forallb_forall in H.
    specialize (H sm Hin).
    destruct (snd sm) as [| | | | | | | | | |[e|]| | |];
      try discriminate; repeat split; try discriminate;
      intros name r; discriminate. }
  destruct (node_at (Order.disk h) inp) as [[content|]|].
  - cbv zeta.
    destruct (length (readlines (universal_newlines content)) <? 31).
    + eexists. split; [reflexivity|]. apply Hall. reflexivity.
    + destruct (Order.open_writelines out _ (Order.disk h)) as [r d] eqn:Ew.
      assert (Hr : match r with inl Order.IndexError => False | _ => True end).
      { revert Ew. unfold Order.open_writelines.
        destruct (node_at (Order.disk h) out) as [[c|]|];
          try destruct (node_at (Order.disk h) (parent out)) as [[c'|]|];
          try destruct (Order.below_file (Order.disk h) (parent out));
          intros [= <- _]; exact I. }
      destruct r as [[[m|m|q|q|q|q]|]|[]]; try contradiction; simpl;
        rewrite <- app_assoc; eexists; (split; [reflexivity|]);
        apply Hall; reflexivity.
  - eexists. split; [reflexivity|]. apply Hall. reflexivity.
  - eexists. split; [reflexivity|]. apply Hall.
    destruct (Order.below_file (Order.disk h) inp); reflexivity.
Qed.

(** X16.  When the input is fine but the directory of the output does not
    exist, nothing is written, and the message on the error stream is
    the one for a missing input file, with the name of the input: the
    [FileNotFoundError] of the output is caught by the clause meant for
    the input.  When the output lies below a regular file, the error is
    [NotADirectoryError] and the message is the one for an unexpected
    error. *)
Theorem order_missing_output_directory
    (inp out : Path) (h : Order.Host) (content : str) :
  node_at (Order.disk h) inp = Some (File content) ->
  31 <= length (readlines (universal_newlines content)) ->
  node_at (Order.disk h) out = None ->
  node_at (Order.disk h) (parent out) = None ->
  let h' := Order.swap_specific_lines inp out h in
  Order.disk h' = Order.disk h /\
  exists printed,
    Order.console h' =
    Order.console h ++ printed
    ++ [(Order.Stderr,
         if Order.below_file (Order.disk h) (parent out)
         then Order.MsgUnexpected (Order.OSError (NotADirectoryError out))
         else Order.MsgInputNotFound inp)] /\
    existsb on_stderr printed = false.
Proof.
  intros Hin Hlen Hout Hpar. cbv zeta. rewrite order_run, Hin. cbv zeta.
  destruct (length (readlines (universal_newlines content)) <? 31) eqn:E;
    [apply Nat.ltb_lt in E; lia|].
  unfold Order.open_writelines. rewrite Hout, Hpar.
  destruct (Order.below_file (Order.disk h) (parent out));
    (split; [reflexivity|]); eexists; rewrite <- app_assoc;
    (split; [reflexivity|reflexivity]).
Qed.

Lemma order_missing_output_directory_witness :
  (let h' :=
     Order.swap_specific_lines ["input.txt"] ["nowhere"; "output.txt"]
       sample_host in
   Order.disk h' = Order.disk sample_host /\
   exists printed,
     Order.console h' =
     Order.console sample_host ++ printed
     ++ [(Order.Stderr, Order.MsgInputNotFound ["input.txt"])] /\
     existsb on_stderr printed = false)
  /\
  (let h' :=
     Order.swap_specific_lines ["input.txt"] ["short.txt"; "sub"; "out.txt"]
       sample_host in
   Order.disk h' = Order.disk sample_host /\
   exists printed,
     Order.console h' =
     Order.console sample_host ++ printed
     ++ [(Order.Stderr,
          Order.MsgUnexpected
            (Order.OSError
               (NotADirectoryError ["short.txt"; "sub"; "out.txt"])))] /\
     existsb on_stderr printed = false).
Proof.
  split.
  - apply (order_missing_output_directory ["input.txt"]
             ["nowhere"; "output.txt"] sample_host (concat numbered_lines)).
    + reflexivity.
    + vm_compute. lia.
    + reflexivity.
    + reflexivity.
  - apply (order_missing_output_directory ["input.txt"]
             ["short.txt"; "sub"; "out.txt"] sample_host
             (concat numbered_lines)).
    + reflexivity.
    + vm_compute. lia.
    + reflexivity.
    + reflexivity.
Defined.

(** *** Reading back what the utility wrote *)

Lemma readlines_no_nl (l : str) :
  l <> [] -> existsb (chr_eqb nl) l = false -> readlines l = [l].
Proof.
  induction l as [|c l IH]; [congruence|]. intros _ H.
  simpl in H. apply orb_false_iff in H as [Hc Hl].
  simpl. rewrite chr_eqb_sym, Hc.
  destruct l as [|d l]; [reflexivity|].
  rewrite IH by (congruence || exact Hl). reflexivity.
Qed.

Lemma text_line_split (l : str) :
  text_line l = true ->
  (l <> [] /\ existsb (chr_eqb nl) l = false) \/ one_terminator l = true.
Proof.
  unfold text_line, one_terminator.
  destruct (rev l) as [|x r] eqn:E; [discriminate|]. intros H.
  apply negb_true_iff in H.
  destruct (chr_eqb x nl) eqn:Ex.
  - right. rewrite H. reflexivity.
  - left. split.
    + intros ->. discriminate.
    + rewrite <- existsb_nl_rev, E. simpl.
      rewrite chr_eqb_sym, Ex, H. reflexivity.
Qed.

Lemma readlines_one_terminator (l rest : str) :
  one_terminator l = true -> readlines (l ++ rest) = l :: readlines rest.
Proof.
  intros H. destruct (one_terminator_split _ H) as (body & -> & Hb).
  apply readlines_line. exact Hb.
Qed.

Lemma readlines_text_line (l : str) :
  text_line l = true -> readlines l = [l].
Proof.
  intros H. destruct (text_line_split _ H) as [[Hne Hnl]|Hone].
  - apply readlines_no_nl; assumption.
  - rewrite <- (app_nil_r l) at 1.
    rewrite (readlines_one_terminator _ _ Hone). reflexivity.
Qed.

Lemma one_terminator_cons (c : ascii) (l : str) :
  chr_eqb nl c = false -> one_terminator l = true ->
  one_terminator (c :: l) = true.
Proof.
  unfold one_terminator. intros Hc. simpl.
  destruct (rev l) as [|x r]; [discriminate|]. simpl.
  intros H. apply andb_prop in H as [Hx Hr]. apply negb_true_iff in Hr.
  rewrite Hx, existsb_app, Hr. simpl. rewrite Hc. reflexivity.
Qed.

(** Every line that [readlines] gives but the last ends in its ["\n"]. *)
Lemma readlines_terminated (s : str) (i : nat) (l : str) :
  readlines s !! i = Some l ->
  i + 1 < length (readlines s) ->
  one_terminator l = true.
Proof.
  revert i l. induction s as [|c s IH]; intros i l; simpl.
  - intros H. discriminate H.
  - destruct (chr_eqb c nl) eqn:Ec.
    + destruct i as [|i]; simpl.
      * intros [= <-] _. reflexivity.
      * intros Hl Hi. apply (IH i l Hl). lia.
    + rewrite chr_eqb_sym in Ec.
      destruct (readlines s) as [|l0 ls] eqn:Er.
      * destruct i as [|i]; simpl; [lia|]. intros H. discriminate H.
      * destruct i as [|i]; simpl.
        -- intros [= <-] Hi. apply one_terminator_cons; [exact Ec|].
           apply (IH 0 l0 eq_refl). simpl. lia.
        -- intros Hl Hi. apply (IH (S i) l Hl). simpl. lia.
Qed.

(** Text lines of which every one but the last ends in its ["\n"] are
    read back as they are. *)
Lemma readlines_of_lines (ls : list str) :
  Forall (fun l => text_line l = true) ls ->
  (forall i l, ls !! i = Some l -> i + 1 < length ls ->
               one_terminator l = true) ->
  readlines (concat ls) = ls.
Proof.
  induction ls as [|l ls IH]; intros Htl Hterm; [reflexivity|].
  inversion Htl as [|? ? Hl Hls]; subst.
  destruct ls as [|l2 rest].
  - simpl. rewrite app_nil_r. apply readlines_text_line. exact Hl.
  - change (concat (l :: l2 :: rest)) with (l ++ concat (l2 :: rest)).
    rewrite readlines_one_terminator.
    + f_equal. apply IH; [exact Hls|].
      intros i x Hx Hi. apply (Hterm (S i) x Hx). simpl in *. lia.
    + apply (Hterm 0 l eq_refl). simpl. lia.
Qed.

Lemma universal_newlines_no_cr_out (s : str) :
  no_cr (universal_newlines s) = true.
Proof.
  assert (H : forall n (t : str),
             length t <= n -> no_cr (universal_newlines t) = true).
  { unfold no_cr. induction n as [|n IH]; intros t Hn.
    - destruct t; [reflexivity|simpl in Hn; lia].
    - destruct t as [|c t]; [reflexivity|]. simpl in Hn.
      cbn [universal_newlines].
      destruct (chr_eqb c cr) eqn:Ec.
      + destruct t as [|d t]; [reflexivity|]. simpl in Hn.
        destruct (chr_eqb d nl).
        * specialize (IH t ltac:(lia)). apply negb_true_iff in IH.
          apply negb_true_iff. cbn [existsb]. rewrite IH. reflexivity.
        * specialize (IH (d :: t) ltac:(simpl; lia)).
          apply negb_true_iff in IH. apply negb_true_iff.
          cbn [existsb]. rewrite IH. reflexivity.
      + specialize (IH t ltac:(lia)). apply negb_true_iff in IH.
        apply negb_true_iff. cbn [existsb].
        rewrite chr_eqb_sym, Ec, IH. reflexivity. }
  apply (H (length s)). lia.
Qed.

Lemma no_cr_lines (ls : list str) :
  no_cr (concat ls) = true -> Forall (fun l => no_cr l = true) ls.
Proof.
  unfold no_cr. induction ls as [|l ls IH]; intros H; [constructor|].
  simpl in H. apply negb_true_iff in H. rewrite existsb_app in H.
  apply orb_false_iff in H as [Hl Hls]. constructor.
  - apply negb_true_iff. exact Hl.
  - apply IH. apply negb_true_iff. exact Hls.
Qed.

(** *** Exchanging twice *)

Lemma exchanged_elem (l : list str) (i j : nat) (P : str -> Prop) :
  Forall P l -> Forall P (exchanged l i j).
Proof.
  intros H. unfold exchanged.
  destruct (l !! i) as [x|] eqn:Hx; [|exact H].
  destruct (l !! j) as [y|] eqn:Hy; [|exact H].
  rewrite Forall_lookup in H.
  apply Forall_insert; [apply Forall_insert|]; try (apply Forall_lookup; exact H).
  - exact (H _ _ Hy).
  - exact (H _ _ Hx).
Qed.

Lemma exchanged_twice (l : list str) (i j : nat) :
  i <> j -> i < length l -> j < length l ->
  exchanged (exchanged l i j) i j = l.
Proof.
  intros Hij Hi Hj.
  destruct (lookup_lt_is_Some_2 l i Hi) as [x Hx].
  destruct (lookup_lt_is_Some_2 l j Hj) as [y Hy].
  destruct (exchanged_spec l i j x y Hij Hx Hy) as (_ & Hlen & Hi1 & Hj1 & Hk1).
  destruct (exchanged_spec (exchanged l i j) i j y x Hij Hi1 Hj1)
    as (_ & _ & Hi2 & Hj2 & Hk2).
  apply list_eq. intros k.
  destruct (decide (k = i)) as [->|Hki]; [rewrite Hi2; symmetry; exact Hx|].
  destruct (decide (k = j)) as [->|Hkj]; [rewrite Hj2; symmetry; exact Hy|].
  rewrite Hk2, Hk1 by assumption. reflexivity.
Qed.

(** The files after a run that writes. *)
Lemma order_swap_written (inp out : Path) (h : Order.Host) (content : str) :
  node_at (Order.disk h) inp = Some (File content) ->
  31 <= length (readlines (universal_newlines content)) ->
  node_at (Order.disk h) out <> Some Dir ->
  node_at (Order.disk h) (parent out) = Some Dir ->
  Order.disk (Order.swap_specific_lines inp out h)
  = <[out := File (concat
                     (exchanged (readlines (universal_newlines content))
                        19 30))]> (Order.disk h).
Proof.
  intros Hin Hlen Hout Hpar. rewrite order_run, Hin. cbv zeta.
  destruct (length (readlines (universal_newlines content)) <? 31) eqn:E;
    [apply Nat.ltb_lt in E; lia|].
  unfold Order.open_writelines. rewrite Hpar.
  destruct (node_at (Order.disk h) out) as [[c|]|]; [|congruence|];
    reflexivity.
Qed.

(** The lines of the input after the exchange, when line 31 ends in its
    ["\n"]: they are read back from the output as they were written. *)
Lemma order_exchanged_read_back (content : str) :
  let lines := readlines (universal_newlines content) in
  31 <= length lines ->
  one_terminator (default [] (lines !! 30)) = true ->
  readlines (universal_newlines (concat (exchanged lines 19 30)))
  = exchanged lines 19 30.
Proof.
  cbv zeta. set (lines := readlines (universal_newlines content)).
  intros Hlen Hterm.
  destruct (lookup_lt_is_Some_2 lines 19 ltac:(lia)) as [x Hx].
  destruct (lookup_lt_is_Some_2 lines 30 ltac:(lia)) as [y Hy].
  rewrite Hy in Hterm. simpl in Hterm.
  destruct (exchanged_spec lines 19 30 x y ltac:(lia) Hx Hy)
    as (_ & Hl & H19 & H30 & Hk).
  assert (Hcr : Forall (fun l => no_cr l = true) lines).
  { apply no_cr_lines. unfold lines. rewrite concat_readlines.
    apply universal_newlines_no_cr_out. }
  rewrite universal_newlines_no_cr.
  2:{ apply no_cr_concat. apply forallb_forall. apply List.Forall_forall.
      apply exchanged_elem. exact Hcr. }
  apply readlines_of_lines.
  - apply exchanged_elem. apply readlines_text_lines.
  - intros i l Hi Hlast. rewrite Hl in Hlast.
    destruct (decide (i = 19)) as [->|Hn19].
    { rewrite H19 in Hi. injection Hi as <-. exact Hterm. }
    destruct (decide (i = 30)) as [->|Hn30].
    { rewrite H30 in Hi. injection Hi as <-.
      apply (readlines_terminated _ 19 x Hx). fold lines. lia. }
    rewrite Hk in Hi by assumption.
    apply (readlines_terminated _ i l Hi). fold lines. lia.
Qed.

(** X17.  Running the utility on its own output restores the input: when the
    input has at least 31 lines and line 31 ends in its line terminator,
    two runs in a row leave in the last output the text of the input
    (with its line terminators as they are read). *)
Theorem order_swap_twice_restores
    (inp mid out : Path) (h : Order.Host) (content : str) :
  node_at (Order.disk h) inp = Some (File content) ->
  31 <= length (readlines (universal_newlines content)) ->
  one_terminator
    (default [] (readlines (universal_newlines content) !! 30)) = true ->
  node_at (Order.disk h) mid <> Some Dir ->
  node_at (Order.disk h) (parent mid) = Some Dir ->
  node_at (Order.disk h) out <> Some Dir ->
  node_at (Order.disk h) (parent out) = Some Dir ->
  node_at
    (Order.disk
       (Order.swap_specific_lines mid out
          (Order.swap_specific_lines inp mid h))) out
  = Some (File (universal_newlines content)).
Proof.
  intros Hin Hlen Hterm Hmid Hmidp Hout Houtp.
  set (lines := readlines (universal_newlines content)) in *.
  set (h1 := Order.swap_specific_lines inp mid h).
  assert (Hd1 : Order.disk h1
                = <[mid := File (concat (exchanged lines 19 30))]>
                    (Order.disk h))
    by (apply order_swap_written; assumption).
  assert (Hmid_ne : mid <> []) by (intros ->; apply Hmid; reflexivity).
  assert (Hout_ne : out <> []) by (intros ->; apply Hout; reflexivity).
  assert (Hnode : forall p, p <> mid ->
             node_at (Order.disk h1) p = node_at (Order.disk h) p).
  { intros p Hp. destruct p as [|c p]; [reflexivity|]. simpl.
    rewrite Hd1. apply lookup_insert_ne. congruence. }
  assert (Hin1 : node_at (Order.disk h1) mid
                 = Some (File (concat (exchanged lines 19 30)))).
  { destruct mid as [|c mid]; [congruence|]. simpl. rewrite Hd1.
    apply lookup_insert_eq. }
  pose proof (order_exchanged_read_back content Hlen Hterm) as Hback.
  cbv zeta in Hback. fold lines in Hback.
  destruct (lookup_lt_is_Some_2 lines 19 ltac:(lia)) as [x Hx].
  destruct (lookup_lt_is_Some_2 lines 30 ltac:(lia)) as [y Hy].
  destruct (exchanged_spec lines 19 30 x y ltac:(lia) Hx Hy) as (_ & Hl & _).
  rewrite (order_swap_written mid out h1 _ Hin1).
  - rewrite Hback, exchanged_twice by lia.
    unfold lines. rewrite concat_readlines.
    destruct out as [|c out]; [congruence|]. simpl.
    apply lookup_insert_eq.
  - rewrite Hback, Hl. exact Hlen.
  - destruct (decide (out = mid)) as [->|Hne].
    + rewrite Hin1. discriminate.
    + rewrite Hnode by exact Hne. exact Hout.
  - rewrite Hnode; [exact Houtp|].
    intros Heq. rewrite Heq in Houtp. congruence.
Qed.

Lemma order_swap_twice_restores_witness :
  node_at
    (Order.disk
       (Order.swap_specific_lines ["output.txt"] ["again.txt"]
          (Order.swap_specific_lines ["input.txt"] ["output.txt"]
             sample_host))) ["again.txt"]
  = Some (File (universal_newlines (concat numbered_lines))).
Proof.
  apply (order_swap_twice_restores ["input.txt"] ["output.txt"]
           ["again.txt"] sample_host (concat numbered_lines)).
  - reflexivity.
  - vm_compute. lia.
  - reflexivity.
  - discriminate.
  - reflexivity.
  - discriminate.
  - reflexivity.
Defined.


(* ===================================================================== *)
(** ** The matrix script *)
(* ===================================================================== *)

Section MatrixFacts.

Context {float : Type} (zero : float) (py_float : str -> option float).

Local Abbreviation vec := (Matrix.vec float).
Local Abbreviation State := (Matrix.State float).
Local Abbreviation zero3 := (zero, zero, zero).

(** *** The array *)

Lemma getitem_zeros (rows cols a b : nat) :
  Matrix.getitem (Matrix.zeros zero rows cols) a b
  = if bool_decide (a < rows /\ b < cols) then inr zero3
    else inl Matrix.IndexError.
Proof.
  unfold Matrix.getitem, Matrix.zeros.
  destruct (replicate rows _ !! a) as [row|] eqn:Hrow.
  - apply lookup_replicate in Hrow as [-> Ha].
    destruct (replicate cols _ !! b) as [v|] eqn:Hv.
    + apply lookup_replicate in Hv as [-> Hb].
      rewrite bool_decide_eq_true_2; [reflexivity|split; assumption].
    + apply lookup_replicate_None in Hv.
      rewrite bool_decide_eq_false_2; [reflexivity|lia].
  - apply lookup_replicate_None in Hrow.
    rewrite bool_decide_eq_false_2; [reflexivity|lia].
Qed.

Lemma well_shaped_zeros :
  Matrix.well_shaped (Matrix.zeros zero Matrix.n_states Matrix.n_states).
Proof.
  unfold Matrix.well_shaped, Matrix.zeros. split.
  - apply length_replicate.
  - apply Forall_replicate. apply length_replicate.
Qed.

Lemma getitem_in_range (m : list (list vec)) (a b : nat) :
  Matrix.well_shaped m -> a < Matrix.n_states -> b < Matrix.n_states ->
  exists v, Matrix.getitem m a b = inr v.
Proof.
  intros [Hlen Hrows] Ha Hb. unfold Matrix.getitem.
  destruct (lookup_lt_is_Some_2 m a) as [row Hrow]; [lia|].
  rewrite Hrow.
  pose proof (Forall_lookup_1 _ _ _ _ Hrows Hrow) as Hr. simpl in Hr.
  destruct (lookup_lt_is_Some_2 row b) as [v Hv]; [lia|].
  rewrite Hv. exists v. reflexivity.
Qed.

Lemma getitem_out_of_range (m : list (list vec)) (a b : nat) :
  Matrix.well_shaped m -> ~ (a < Matrix.n_states /\ b < Matrix.n_states) ->
  Matrix.getitem m a b = inl Matrix.IndexError.
Proof.
  intros [Hlen Hrows] Hab. unfold Matrix.getitem.
  destruct (m !! a) as [row|] eqn:Hrow; [|reflexivity].
  pose proof (Forall_lookup_1 _ _ _ _ Hrows Hrow) as Hr. simpl in Hr.
  apply lookup_lt_Some in Hrow.
  destruct (row !! b) as [v|] eqn:Hv; [|reflexivity].
  apply lookup_lt_Some in Hv. exfalso. apply Hab. lia.
Qed.

(** An assignment in range changes the one entry and keeps the shape. *)
Lemma setitem_in_range (m : list (list vec)) (i j : nat) (v : vec) :
  Matrix.well_shaped m -> i < Matrix.n_states -> j < Matrix.n_states ->
  exists m',
    Matrix.setitem m i j v = inr m' /\
    Matrix.well_shaped m' /\
    forall a b,
      Matrix.getitem m' a b
      = if bool_decide (a = i /\ b = j) then inr v else Matrix.getitem m a b.
Proof.
  intros [Hlen Hrows] Hi Hj. unfold Matrix.setitem.
  destruct (lookup_lt_is_Some_2 m i) as [row Hrow]; [lia|].
  rewrite Hrow.
  pose proof (Forall_lookup_1 _ _ _ _ Hrows Hrow) as Hr. simpl in Hr.
  assert (Hjr : (j <? length row) = true) by (apply Nat.ltb_lt; lia).
  rewrite Hjr. eexists. split; [reflexivity|]. split.
  - split.
    + rewrite length_insert. exact Hlen.
    + apply Forall_insert; [exact Hrows|].
      rewrite length_insert. exact Hr.
  - intros a b. unfold Matrix.getitem.
    destruct (decide (a = i)) as [->|Hai].
    + rewrite list_lookup_insert_eq by lia.
      destruct (decide (b = j)) as [->|Hbj].
      * rewrite list_lookup_insert_eq by lia.
        rewrite bool_decide_eq_true_2; [reflexivity|split; reflexivity].
      * rewrite list_lookup_insert_ne by congruence. rewrite Hrow.
        rewrite bool_decide_eq_false_2; [reflexivity|intros [_ ?]; contradiction].
    + rewrite list_lookup_insert_ne by congruence.
      rewrite bool_decide_eq_false_2; [reflexivity|intros [? _]; contradiction].
Qed.


(** *** The two loops over the files *)

Lemma diagonal_rows_cons (line : str) (more : list str) :
  Matrix.diagonal_rows py_float (line :: more)
  = (if contains (L "Total Dipole Moment") (strip line) then
       match Matrix.last_three py_float (py_split (strip line)) with
       | inr v => [v]
       | inl _ => []
       end
     else []) ++ Matrix.diagonal_rows py_float more.
Proof.
  unfold Matrix.diagonal_rows. cbn [omap list_omap].
  destruct (contains _ _); [|reflexivity].
  destruct (Matrix.last_three _ _); reflexivity.
Qed.

Lemma row0_rows_cons (line : str) (more : list str) :
  Matrix.row0_rows py_float (line :: more)
  = (if length (py_split (strip line)) =? 3 then
       match Matrix.first_three py_float (py_split (strip line)) with
       | inr v => [v]
       | inl _ => []
       end
     else []) ++ Matrix.row0_rows py_float more.
Proof.
  unfold Matrix.row0_rows. cbn [omap list_omap].
  destruct (_ =? 3); [|reflexivity].
  destruct (Matrix.first_three _ _); reflexivity.
Qed.

(** The diagonal after the loop: the accepted rows, from index [k] on. *)
Lemma diagonal_loop_matrix (lines : list str) (line_num k : nat)
    (st : State) :
  Matrix.well_shaped (Matrix.matrix st) ->
  let rows := Matrix.diagonal_rows py_float lines in
  let st' := snd (Matrix.diagonal_loop py_float lines line_num k st) in
  Matrix.well_shaped (Matrix.matrix st') /\
  forall a b,
    Matrix.getitem (Matrix.matrix st') a b
    = if bool_decide (a = b /\ k <= a /\ a < Matrix.n_states /\
                      a < k + length rows)
      then inr (nth (a - k) rows zero3)
      else Matrix.getitem (Matrix.matrix st) a b.
Proof.
  revert line_num k st.
  induction lines as [|line more IH]; intros line_num k st Hshape.
  - simpl. split; [exact Hshape|]. intros a b.
    rewrite bool_decide_eq_false_2; [reflexivity|simpl; lia].
  - cbn zeta. rewrite diagonal_rows_cons. cbn [Matrix.diagonal_loop].
    destruct (contains _ (strip line)) eqn:Hmark.
    2:{ simpl app. exact (IH (S line_num) k st Hshape). }
    destruct (k <? Matrix.n_states) eqn:Hk.
    2:{ apply Nat.ltb_ge in Hk.
        destruct (IH (S line_num) k st Hshape) as [Hs Hg].
        split; [exact Hs|]. intros a b. rewrite Hg.
        rewrite !bool_decide_eq_false_2 by lia. reflexivity. }
    apply Nat.ltb_lt in Hk.
    destruct (Matrix.last_three py_float (py_split (strip line)))
      as [e|v] eqn:Hlast.
    + cbn [Matrix.and_then app].
      exact (IH (S line_num) k (Matrix.print _ _ st) Hshape).
    + cbn [Matrix.and_then].
      destruct (setitem_in_range (Matrix.matrix st) k k v Hshape Hk Hk)
        as (m' & Hset & Hshape' & Hget).
      rewrite Hset.
      destruct (IH (S line_num) (S k) (Matrix.mkState m' (Matrix.console st))
                  Hshape') as [Hs Hg].
      split; [exact Hs|]. intros a b. rewrite Hg. cbn [Matrix.matrix].
      rewrite Hget. cbn [app length].
      destruct (decide (a = b /\ S k <= a /\ a < Matrix.n_states /\
                        a < S k + length (Matrix.diagonal_rows py_float more)))
        as [Hc|Hc].
      * rewrite !bool_decide_eq_true_2 by lia.
        replace (a - k) with (S (a - S k)) by lia. reflexivity.
      * rewrite (bool_decide_eq_false_2 _ Hc).
        destruct (decide (a = k /\ b = k)) as [[-> ->]|Hd].
        -- rewrite !bool_decide_eq_true_2 by lia.
           rewrite Nat.sub_diag. reflexivity.
        -- rewrite !bool_decide_eq_false_2 by lia. reflexivity.
Qed.

(** With three columns, a conversion fails on a value only. *)
Lemma first_three_error (parts : list str) (e : Matrix.py_exn) :
  length parts = 3 ->
  Matrix.first_three py_float parts = inl e ->
  exists s, e = Matrix.ValueError s.
Proof.
  destruct parts as [|x [|y [|z [|]]]]; try discriminate. intros _.
  unfold Matrix.first_three, Matrix.item, Matrix.to_float. simpl.
  destruct (py_float x); simpl;
    [|intros [= <-]; eexists; reflexivity].
  destruct (py_float y); simpl;
    [|intros [= <-]; eexists; reflexivity].
  destruct (py_float z); simpl;
    [discriminate|intros [= <-]; eexists; reflexivity].
Qed.

(** Row 0 after the loop: the accepted rows, from column [j] on; the
    loop ends without an exception. *)
Lemma row0_loop_matrix (lines : list str) (line_num j lr : nat)
    (st : State) :
  Matrix.well_shaped (Matrix.matrix st) ->
  let rows := Matrix.row0_rows py_float lines in
  let r := Matrix.row0_loop py_float lines line_num j lr st in
  fst r = inr tt /\
  Matrix.well_shaped (Matrix.matrix (snd (snd r))) /\
  forall a b,
    Matrix.getitem (Matrix.matrix (snd (snd r))) a b
    = if bool_decide (a = 0 /\ j <= b /\ b < Matrix.n_states /\
                      b < j + length rows)
      then inr (nth (b - j) rows zero3)
      else Matrix.getitem (Matrix.matrix st) a b.
Proof.
  revert line_num j lr st.
  induction lines as [|line more IH]; intros line_num j lr st Hshape.
  - simpl. split; [reflexivity|]. split; [exact Hshape|]. intros a b.
    rewrite bool_decide_eq_false_2; [reflexivity|simpl; lia].
  - cbn zeta. rewrite row0_rows_cons. cbn [Matrix.row0_loop].
    destruct (truthy (strip line)) eqn:Htr; cbn [negb].
    2:{ assert (Hnil : strip line = []) by (apply truthy_nil_iff; exact Htr).
        rewrite Hnil. simpl app.
        exact (IH (S line_num) j lr st Hshape). }
    destruct (Matrix.n_states <=? j) eqn:Hj.
    { apply Nat.leb_le in Hj. cbn [fst snd Matrix.print Matrix.matrix].
      split; [reflexivity|]. split; [exact Hshape|]. intros a b.
      rewrite bool_decide_eq_false_2 by lia. reflexivity. }
    apply Nat.leb_gt in Hj.
    destruct (length (py_split (strip line)) =? 3) eqn:H3.
    2:{ simpl app. exact (IH (S line_num) j lr (Matrix.print _ _ st) Hshape). }
    apply Nat.eqb_eq in H3.
    destruct (Matrix.first_three py_float (py_split (strip line)))
      as [e|v] eqn:Hfirst.
    + destruct (first_three_error _ _ H3 Hfirst) as [s ->].
      cbn [Matrix.and_then app].
      exact (IH (S line_num) j lr (Matrix.print _ _ st) Hshape).
    + cbn [Matrix.and_then].
      assert (H0 : 0 < Matrix.n_states) by (unfold Matrix.n_states; lia).
      destruct (setitem_in_range (Matrix.matrix st) 0 j v Hshape H0 Hj)
        as (m' & Hset & Hshape' & Hget).
      rewrite Hset.
      destruct (IH (S line_num) (S j) (S lr)
                  (Matrix.mkState m' (Matrix.console st)) Hshape')
        as (Hr & Hs & Hg).
      split; [exact Hr|]. split; [exact Hs|]. intros a b. rewrite Hg.
      cbn [Matrix.matrix]. rewrite Hget. cbn [app length].
      destruct (decide (a = 0 /\ S j <= b /\ b < Matrix.n_states /\
                        b < S j + length (Matrix.row0_rows py_float more)))
        as [Hc|Hc].
      * rewrite !bool_decide_eq_true_2 by lia.
        replace (b - j) with (S (b - S j)) by lia. reflexivity.
      * rewrite (bool_decide_eq_false_2 _ Hc).
        destruct (decide (a = 0 /\ b = j)) as [[-> ->]|Hd].
        -- rewrite !bool_decide_eq_true_2 by lia.
           rewrite Nat.sub_diag. reflexivity.
        -- rewrite !bool_decide_eq_false_2 by lia. reflexivity.
Qed.


(** *** The parts of the script *)

Lemma read_diagonal_matrix (d : gmap Path node) (st : State) :
  Matrix.well_shaped (Matrix.matrix st) ->
  let rows :=
    Matrix.diagonal_rows py_float
      (Matrix.lines_of d Matrix.orca_filename) in
  let st' := Matrix.read_diagonal py_float d st in
  Matrix.well_shaped (Matrix.matrix st') /\
  forall a b,
    Matrix.getitem (Matrix.matrix st') a b
    = if bool_decide (a = b /\ a < Matrix.n_states /\ a < length rows)
      then inr (nth a rows zero3)
      else Matrix.getitem (Matrix.matrix st) a b.
Proof.
  intros Hshape. unfold Matrix.read_diagonal, Matrix.lines_of.
  destruct (node_at d Matrix.orca_filename) as [[content|]|].
  - cbn zeta.
    pose proof (diagonal_loop_matrix (readlines (universal_newlines content))
                  0 0 (Matrix.print Matrix.Stdout
                         (Matrix.MsgReadingDiagonal float Matrix.orca_filename)
                         st) Hshape) as H.
    cbn zeta in H.
    destruct (Matrix.diagonal_loop py_float _ 0 0 _) as [k st1].
    cbn [snd] in H. destruct H as [Hs Hg].
    assert (Hm : forall st2 : State,
               Matrix.matrix
                 (if k <? Matrix.n_states
                  then Matrix.print Matrix.Stderr
                         (Matrix.MsgDiagonalFew k Matrix.orca_filename
                            Matrix.n_states) st2
                  else st2) = Matrix.matrix st2)
      by (intros st2; destruct (k <? Matrix.n_states); reflexivity).
    rewrite Hm. cbn [Matrix.print Matrix.matrix].
    split; [exact Hs|]. intros a b. rewrite Hg.
    cbn [Matrix.print Matrix.matrix]. rewrite Nat.sub_0_r.
    destruct (decide (a = b /\ a < Matrix.n_states /\
                      a < length (Matrix.diagonal_rows py_float
                                    (readlines (universal_newlines content)))))
      as [Hc|Hc].
    + rewrite !bool_decide_eq_true_2 by lia. reflexivity.
    + rewrite !bool_decide_eq_false_2 by lia. reflexivity.
  - cbn [Matrix.print Matrix.matrix]. split; [exact Hshape|]. intros a b.
    rewrite bool_decide_eq_false_2; [reflexivity|simpl; lia].
  - cbn [Matrix.print Matrix.matrix]. split; [exact Hshape|]. intros a b.
    rewrite bool_decide_eq_false_2; [reflexivity|simpl; lia].
Qed.

Lemma read_row0_matrix (d : gmap Path node) (st : State) :
  Matrix.well_shaped (Matrix.matrix st) ->
  let rows :=
    Matrix.row0_rows py_float
      (Matrix.lines_of d Matrix.dipoli_filename) in
  let st' := Matrix.read_row0 py_float d st in
  Matrix.well_shaped (Matrix.matrix st') /\
  forall a b,
    Matrix.getitem (Matrix.matrix st') a b
    = if bool_decide (a = 0 /\ 1 <= b /\ b < Matrix.n_states /\
                      b < 1 + length rows)
      then inr (nth (b - 1) rows zero3)
      else Matrix.getitem (Matrix.matrix st) a b.
Proof.
  intros Hshape. unfold Matrix.read_row0, Matrix.lines_of.
  destruct (node_at d Matrix.dipoli_filename) as [[content|]|].
  - cbn zeta.
    pose proof (row0_loop_matrix (readlines (universal_newlines content))
                  0 1 0 (Matrix.print Matrix.Stdout
                           (Matrix.MsgReadingRow0 float Matrix.dipoli_filename)
                           st) Hshape) as H.
    cbn zeta in H.
    destruct (Matrix.row0_loop py_float _ 0 1 0 _) as [r [lr st1]].
    cbn [fst snd] in H. destruct H as (-> & Hs & Hg).
    assert (Hm : forall st2 : State,
               Matrix.matrix
                 (if lr <? Matrix.n_states - 1
                  then Matrix.print Matrix.Stderr
                         (Matrix.MsgRow0Few lr Matrix.dipoli_filename
                            (Matrix.n_states - 1) (Matrix.n_states - 1)) st2
                  else st2) = Matrix.matrix st2)
      by (intros st2; destruct (lr <? Matrix.n_states - 1); reflexivity).
    rewrite Hm. cbn [Matrix.print Matrix.matrix].
    split; [exact Hs|]. intros a b. rewrite Hg.
    cbn [Matrix.print Matrix.matrix]. reflexivity.
  - cbn [Matrix.print Matrix.matrix]. split; [exact Hshape|]. intros a b.
    rewrite bool_decide_eq_false_2; [reflexivity|simpl; lia].
  - cbn [Matrix.print Matrix.matrix]. split; [exact Hshape|]. intros a b.
    rewrite bool_decide_eq_false_2; [reflexivity|simpl; lia].
Qed.

(** Column 0 after the copy: row 0, for the indices gone through. *)
Lemma symmetry_loop_matrix (indices : list nat) (st : State) :
  Matrix.well_shaped (Matrix.matrix st) ->
  Forall (fun i => 1 <= i /\ i < Matrix.n_states) indices ->
  let r := Matrix.symmetry_loop indices st in
  fst r = inr tt /\
  Matrix.console (snd r) = Matrix.console st /\
  Matrix.well_shaped (Matrix.matrix (snd r)) /\
  forall a b,
    Matrix.getitem (Matrix.matrix (snd r)) a b
    = if bool_decide (b = 0 /\ a ∈ indices)
      then Matrix.getitem (Matrix.matrix st) 0 a
      else Matrix.getitem (Matrix.matrix st) a b.
Proof.
  revert st. induction indices as [|i more IH]; intros st Hshape Hall.
  - simpl. split; [reflexivity|]. split; [reflexivity|].
    split; [exact Hshape|]. intros a b.
    rewrite bool_decide_eq_false_2; [reflexivity|].
    intros [_ Hin]. apply elem_of_nil in Hin. exact Hin.
  - apply Forall_cons in Hall as [[Hi1 Hin] Hall].
    cbn zeta. cbn [Matrix.symmetry_loop].
    assert (H0 : 0 < Matrix.n_states) by (unfold Matrix.n_states; lia).
    destruct (getitem_in_range (Matrix.matrix st) 0 i Hshape H0 Hin)
      as [v Hv].
    rewrite Hv. cbn [Matrix.and_then].
    destruct (setitem_in_range (Matrix.matrix st) i 0 v Hshape Hin H0)
      as (m' & Hset & Hshape' & Hget).
    rewrite Hset.
    destruct (IH (Matrix.mkState m' (Matrix.console st)) Hshape' Hall)
      as (Hr & Hc & Hs & Hg).
    split; [exact Hr|]. split; [exact Hc|]. split; [exact Hs|].
    intros a b. rewrite Hg. cbn [Matrix.matrix]. rewrite !Hget.
    destruct (decide (b = 0 /\ a ∈ more)) as [[-> Hmem]|Hc'].
    + rewrite (bool_decide_eq_true_2 (0 = 0 /\ a ∈ more))
        by (split; [reflexivity|exact Hmem]).
      rewrite (bool_decide_eq_true_2 (0 = 0 /\ a ∈ i :: more))
        by (split; [reflexivity|apply elem_of_cons; right; exact Hmem]).
      rewrite bool_decide_eq_false_2 by lia. reflexivity.
    + rewrite (bool_decide_eq_false_2 _ Hc').
      destruct (decide (a = i /\ b = 0)) as [[-> ->]|Hd].
      * rewrite (bool_decide_eq_true_2 (i = i /\ 0 = 0)) by (split; reflexivity).
        rewrite bool_decide_eq_true_2; [rewrite Hv; reflexivity|].
        split; [reflexivity|apply elem_of_cons; left; reflexivity].
      * rewrite (bool_decide_eq_false_2 _ Hd).
        rewrite bool_decide_eq_false_2; [reflexivity|].
        intros [-> Hmem]. apply elem_of_cons in Hmem as [->|Hmem].
        -- apply Hd. split; reflexivity.
        -- apply Hc'. split; [reflexivity|exact Hmem].
Qed.

(** Printing the table reads entries in range and leaves the array. *)
Lemma entries_loop_matrix (i : nat) (cols : list nat) (st : State) :
  Matrix.well_shaped (Matrix.matrix st) ->
  i < Matrix.n_states ->
  Forall (fun j => j < Matrix.n_states) cols ->
  let r := Matrix.entries_loop i cols st in
  fst r = inr tt /\ Matrix.matrix (snd r) = Matrix.matrix st.
Proof.
  revert st. induction cols as [|j more IH]; intros st Hshape Hi Hall.
  - simpl. split; reflexivity.
  - apply Forall_cons in Hall as [Hj Hall].
    cbn zeta. cbn [Matrix.entries_loop].
    destruct (getitem_in_range (Matrix.matrix st) i j Hshape Hi Hj)
      as [[[x y] z] Hv].
    rewrite Hv.
    exact (IH (Matrix.print Matrix.Stdout (Matrix.MsgEntry i j x y z) st)
             Hshape Hi Hall).
Qed.

Lemma rows_loop_matrix (rows : list nat) (st : State) :
  Matrix.well_shaped (Matrix.matrix st) ->
  Forall (fun i => i < Matrix.n_states) rows ->
  let r := Matrix.rows_loop rows st in
  fst r = inr tt /\ Matrix.matrix (snd r) = Matrix.matrix st.
Proof.
  revert st. induction rows as [|i more IH]; intros st Hshape Hall.
  - simpl. split; reflexivity.
  - apply Forall_cons in Hall as [Hi Hall].
    cbn zeta. cbn [Matrix.rows_loop].
    assert (Hcols : Forall (fun j => j < Matrix.n_states)
                      (seq 0 Matrix.n_states)).
    { apply Forall_forall. intros j Hj. apply elem_of_seq in Hj. lia. }
    pose proof (entries_loop_matrix i (seq 0 Matrix.n_states) st
                  Hshape Hi Hcols) as H.
    cbn zeta in H.
    destruct (Matrix.entries_loop i (seq 0 Matrix.n_states) st) as [r st1].
    cbn [fst snd] in H. destruct H as [-> Hm].
    assert (Hshape1 : Matrix.well_shaped (Matrix.matrix st1))
      by (rewrite Hm; exact Hshape).
    destruct (IH st1 Hshape1 Hall) as [Hr Hm'].
    split; [exact Hr|]. rewrite Hm'. exact Hm.
Qed.

(** The array the script ends with, entry by entry: no exception
    reaches the top, the diagonal holds the accepted rows of the first
    file, row 0 and column 0 those of the second, and the rest is zero. *)
Lemma script_matrix (d : gmap Path node) :
  let diag :=
    Matrix.diagonal_rows py_float (Matrix.lines_of d Matrix.orca_filename) in
  let row0 :=
    Matrix.row0_rows py_float (Matrix.lines_of d Matrix.dipoli_filename) in
  let r := Matrix.script zero py_float d in
  fst r = inr tt /\
  Matrix.well_shaped (Matrix.matrix (snd r)) /\
  forall a b, a < Matrix.n_states -> b < Matrix.n_states ->
    Matrix.getitem (Matrix.matrix (snd r)) a b
    = inr (Matrix.expected_entry zero diag row0 a b).
Proof.
  cbn zeta. unfold Matrix.script, Matrix.expected_entry.
  set (st0 := Matrix.mkState
                (Matrix.zeros zero Matrix.n_states Matrix.n_states) []).
  assert (Hs0 : Matrix.well_shaped (Matrix.matrix st0))
    by exact well_shaped_zeros.
  destruct (read_diagonal_matrix d st0 Hs0) as [Hs1 Hg1].
  set (st1 := Matrix.read_diagonal py_float d st0) in *.
  destruct (read_row0_matrix d st1 Hs1) as [Hs2 Hg2].
  set (st2 := Matrix.read_row0 py_float d st1) in *.
  assert (Hidx : Forall (fun i => 1 <= i /\ i < Matrix.n_states)
                   (seq 1 (Matrix.n_states - 1))).
  { apply Forall_forall. intros i Hi. apply elem_of_seq in Hi.
    unfold Matrix.n_states in *. lia. }
  pose proof (symmetry_loop_matrix (seq 1 (Matrix.n_states - 1))
                (Matrix.print Matrix.Stdout (Matrix.MsgSymmetry float) st2)
                Hs2 Hidx) as H3.
  cbn zeta in H3.
  destruct (Matrix.symmetry_loop _ _) as [r3 st3].
  cbn [fst snd] in H3. destruct H3 as (-> & _ & Hs3 & Hg3).
  assert (Hrows : Forall (fun i => i < Matrix.n_states)
                    (seq 0 Matrix.n_states)).
  { apply Forall_forall. intros i Hi. apply elem_of_seq in Hi. lia. }
  pose proof (rows_loop_matrix (seq 0 Matrix.n_states)
                (Matrix.print Matrix.Stdout
                   (Matrix.MsgTableBegin float Matrix.n_states Matrix.n_states)
                   st3) Hs3 Hrows) as H4.
  cbn zeta in H4.
  destruct (Matrix.rows_loop _ _) as [r4 st4].
  cbn [fst snd] in H4. destruct H4 as [-> Hm4].
  cbn [fst snd Matrix.print Matrix.matrix]. rewrite Hm4.
  cbn [Matrix.print Matrix.matrix].
  split; [reflexivity|]. split; [exact Hs3|].
  intros a b Ha Hb. rewrite Hg3. cbn [Matrix.print Matrix.matrix].
  assert (Hz : forall x y, x < Matrix.n_states -> y < Matrix.n_states ->
             Matrix.getitem (Matrix.matrix st0) x y = inr zero3).
  { intros x y Hx Hy. unfold st0. cbn [Matrix.matrix].
    rewrite getitem_zeros. rewrite bool_decide_eq_true_2; [reflexivity|lia]. }
  assert (Hnth : forall (l : list vec) n, length l <= n -> nth n l zero3 = zero3)
    by (intros l n Hn; apply nth_overflow; exact Hn).
  assert (H0 : 0 < Matrix.n_states) by (unfold Matrix.n_states; lia).
  set (diag := Matrix.diagonal_rows py_float
                 (Matrix.lines_of d Matrix.orca_filename)) in *.
  set (row0 := Matrix.row0_rows py_float
                 (Matrix.lines_of d Matrix.dipoli_filename)) in *.
  assert (Hrow0 : forall y, 1 <= y -> y < Matrix.n_states ->
             Matrix.getitem (Matrix.matrix st2) 0 y
             = inr (nth (y - 1) row0 zero3)).
  { intros y Hy1 Hy. rewrite Hg2.
    destruct (decide (y < 1 + length row0)) as [Hl|Hl].
    - rewrite bool_decide_eq_true_2 by lia. reflexivity.
    - rewrite bool_decide_eq_false_2 by lia. rewrite Hg1.
      rewrite bool_decide_eq_false_2 by lia.
      rewrite (Hz 0 y H0 Hy). rewrite Hnth by lia. reflexivity. }
  destruct (decide (b = 0 /\ a ∈ seq 1 (Matrix.n_states - 1)))
    as [[-> Hmem]|Hc].
  - apply elem_of_seq in Hmem.
    rewrite bool_decide_eq_true_2
      by (split; [reflexivity|apply elem_of_seq; exact Hmem]).
    rewrite (Hrow0 a) by lia.
    rewrite (bool_decide_eq_false_2 (a = 0)) by lia.
    rewrite (bool_decide_eq_true_2 (0 = 0)) by reflexivity. reflexivity.
  - rewrite (bool_decide_eq_false_2 _ Hc).
    assert (Hab : b <> 0 \/ a = 0).
    { destruct (decide (b = 0)) as [->|]; [|left; assumption].
      destruct (decide (a = 0)) as [->|]; [right; reflexivity|].
      exfalso. apply Hc. split; [reflexivity|].
      apply elem_of_seq. unfold Matrix.n_states in *. lia. }
    destruct (decide (a = b)) as [<-|Hne].
    + rewrite (bool_decide_eq_true_2 (a = a)) by reflexivity.
      rewrite Hg2. rewrite bool_decide_eq_false_2 by lia.
      rewrite Hg1.
      destruct (decide (a < length diag)) as [Hl|Hl].
      * rewrite bool_decide_eq_true_2 by lia. reflexivity.
      * rewrite bool_decide_eq_false_2 by lia.
        rewrite (Hz a a Ha Ha). rewrite Hnth by lia. reflexivity.
    + rewrite (bool_decide_eq_false_2 (a = b)) by exact Hne.
      destruct (decide (a = 0)) as [->|Ha0].
      * rewrite (bool_decide_eq_true_2 (0 = 0)) by reflexivity.
        apply Hrow0; lia.
      * rewrite (bool_decide_eq_false_2 (a = 0)) by exact Ha0.
        rewrite (bool_decide_eq_false_2 (b = 0)) by lia.
        rewrite Hg2. rewrite bool_decide_eq_false_2 by lia.
        rewrite Hg1. rewrite bool_decide_eq_false_2 by lia.
        apply Hz; assumption.
Qed.


(** *** Columns of a line with the marker *)

Lemma py_split_nil (s : str) :
  py_split s = [] -> forallb py_isspace s = true.
Proof.
  induction s as [|c s IH]; [reflexivity|].
  cbn [py_split forallb].
  destruct (py_isspace c); [exact IH|].
  destruct s as [|d s]; [discriminate|].
  destruct (py_isspace d); [discriminate|].
  destruct (py_split (d :: s)); discriminate.
Qed.

Lemma py_split_cons2 (x d : ascii) (s : str) :
  py_split (x :: d :: s)
  = if py_isspace x then py_split (d :: s)
    else if py_isspace d then [x] :: py_split (d :: s)
    else match py_split (d :: s) with
         | word :: words => (x :: word) :: words
         | [] => [[x]]
         end.
Proof. reflexivity. Qed.

Lemma py_split_app_space (a b : str) (c : ascii) :
  py_isspace c = true ->
  py_split (a ++ c :: b) = py_split a ++ py_split b.
Proof.
  intros Hc. induction a as [|x a IH].
  - cbn [app py_split]. rewrite Hc. reflexivity.
  - destruct a as [|d a].
    + cbn [app] in *. rewrite py_split_cons2, Hc, IH.
      cbn [py_split]. destruct (py_isspace x); reflexivity.
    + change ((x :: d :: a) ++ c :: b) with (x :: d :: (a ++ c :: b)).
      rewrite (py_split_cons2 x d (a ++ c :: b)), (py_split_cons2 x d a).
      change (d :: (a ++ c :: b)) with ((d :: a) ++ c :: b).
      rewrite IH.
      destruct (py_isspace x); [reflexivity|].
      destruct (py_isspace d) eqn:Hd; [reflexivity|].
      destruct (py_split (d :: a)) as [|word words] eqn:Hsp.
      * apply py_split_nil in Hsp. cbn [forallb] in Hsp.
        rewrite Hd in Hsp. discriminate.
      * reflexivity.
Qed.

Lemma is_prefix_app (p s : str) :
  is_prefix p s = true -> exists post, s = p ++ post.
Proof.
  revert s. induction p as [|a p IH]; intros s H.
  - exists s. reflexivity.
  - destruct s as [|b s]; [discriminate|]. cbn [is_prefix] in H.
    apply andb_prop in H as [Hab Hp]. apply chr_eqb_eq in Hab as ->.
    destruct (IH s Hp) as [post ->]. exists post. reflexivity.
Qed.

Lemma contains_app (needle hay : str) :
  contains needle hay = true -> exists pre post, hay = pre ++ needle ++ post.
Proof.
  induction hay as [|c hay IH]; cbn [contains]; intros H.
  - rewrite orb_false_r in H. apply is_prefix_app in H as [post ->].
    exists [], post. reflexivity.
  - apply orb_prop in H as [H|H].
    + apply is_prefix_app in H as [post ->]. exists [], post. reflexivity.
    + destruct (IH H) as (pre & post & ->).
      exists (c :: pre), post. reflexivity.
Qed.

(** A line that holds the words of the marker has three columns at
    least. *)
Lemma marker_columns (s : str) :
  contains (L "Total Dipole Moment") s = true -> 3 <= length (py_split s).
Proof.
  intros H. apply contains_app in H as (pre & post & ->).
  assert (E : pre ++ L "Total Dipole Moment" ++ post
              = (pre ++ L "Total") ++
                " "%char :: (L "Dipole" ++ " "%char :: (L "Moment" ++ post))).
  { rewrite <- app_assoc. reflexivity. }
  rewrite E. clear E.
  rewrite (py_split_app_space (pre ++ L "Total")) by reflexivity.
  rewrite (py_split_app_space (L "Dipole")) by reflexivity.
  rewrite !length_app.
  assert (H1 : 1 <= length (py_split (pre ++ L "Total"))).
  { destruct (py_split (pre ++ L "Total")) eqn:E; [|simpl; lia].
    apply py_split_nil in E. rewrite forallb_app in E.
    apply andb_prop in E as [_ E]. discriminate E. }
  assert (H2 : 1 <= length (py_split (L "Dipole"))) by (vm_compute; lia).
  assert (H3 : 1 <= length (py_split (L "Moment" ++ post))).
  { destruct (py_split (L "Moment" ++ post)) eqn:E; [|simpl; lia].
    apply py_split_nil in E. discriminate E. }
  lia.
Qed.

Lemma item_from_end_in_range (parts : list str) (k : nat) :
  1 <= k -> k <= length parts ->
  exists s, Matrix.item_from_end parts k = inr s.
Proof.
  intros Hk1 Hk. unfold Matrix.item_from_end.
  rewrite (proj2 (Nat.leb_le _ _) Hk).
  destruct (lookup_lt_is_Some_2 parts (length parts - k)) as [s Hs]; [lia|].
  rewrite Hs. exists s. reflexivity.
Qed.

(** With three columns or more, a conversion fails on a value only. *)
Lemma last_three_error (parts : list str) (e : Matrix.py_exn) :
  3 <= length parts ->
  Matrix.last_three py_float parts = inl e ->
  exists s, e = Matrix.ValueError s.
Proof.
  intros Hlen. unfold Matrix.last_three.
  destruct (item_from_end_in_range parts 3) as [x ->]; [lia|lia|].
  destruct (item_from_end_in_range parts 2) as [y ->]; [lia|lia|].
  destruct (item_from_end_in_range parts 1) as [z ->]; [lia|lia|].
  unfold Matrix.to_float. cbn [Matrix.and_then].
  destruct (py_float x); cbn [Matrix.and_then];
    [|intros [= <-]; eexists; reflexivity].
  destruct (py_float y); cbn [Matrix.and_then];
    [|intros [= <-]; eexists; reflexivity].
  destruct (py_float z); cbn [Matrix.and_then];
    [discriminate|intros [= <-]; eexists; reflexivity].
Qed.


(** *** What the script prints *)

Lemma diagonal_loop_console (lines : list str) (line_num k : nat)
    (st : State) :
  Matrix.well_shaped (Matrix.matrix st) -> k <= Matrix.n_states ->
  let rows := Matrix.diagonal_rows py_float lines in
  let r := Matrix.diagonal_loop py_float lines line_num k st in
  fst r = Nat.min Matrix.n_states (k + length rows) /\
  exists printed,
    Matrix.console (snd r) = Matrix.console st ++ printed /\
    Forall Matrix.orca_warning printed.
Proof.
  revert line_num k st.
  induction lines as [|line more IH]; intros line_num k st Hshape Hk.
  - cbn zeta. cbn [Matrix.diagonal_loop fst snd].
    change (Matrix.diagonal_rows py_float []) with (@nil vec).
    cbn [length]. rewrite Nat.add_0_r.
    split; [symmetry; apply Nat.min_r; exact Hk|].
    exists []. rewrite app_nil_r.
    split; [reflexivity|constructor].
  - cbn zeta. rewrite diagonal_rows_cons. cbn [Matrix.diagonal_loop].
    destruct (contains _ (strip line)) eqn:Hmark.
    2:{ simpl app. exact (IH (S line_num) k st Hshape Hk). }
    destruct (k <? Matrix.n_states) eqn:Hlt.
    2:{ apply Nat.ltb_ge in Hlt.
        destruct (IH (S line_num) k st Hshape Hk) as [Hn Hp].
        split; [|exact Hp]. rewrite Hn. lia. }
    apply Nat.ltb_lt in Hlt.
    destruct (Matrix.last_three py_float (py_split (strip line)))
      as [e|v] eqn:Hlast.
    + cbn [Matrix.and_then app].
      destruct (last_three_error _ _ (marker_columns _ Hmark) Hlast)
        as [s ->].
      destruct (IH (S line_num) k
                  (Matrix.print Matrix.Stderr
                     (Matrix.MsgOrcaBadLine (line_num + 1) (strip line)
                        (Matrix.ValueError s)) st) Hshape Hk)
        as (Hn & printed & Hc & Hall).
      split; [exact Hn|].
      exists ((Matrix.Stderr,
               Matrix.MsgOrcaBadLine (line_num + 1) (strip line)
                 (Matrix.ValueError s)) :: printed).
      split.
      * rewrite Hc. cbn [Matrix.print Matrix.console].
        rewrite <- app_assoc. reflexivity.
      * constructor; [|exact Hall]. do 3 eexists. reflexivity.
    + cbn [Matrix.and_then].
      destruct (setitem_in_range (Matrix.matrix st) k k v Hshape Hlt Hlt)
        as (m' & Hset & Hshape' & _).
      rewrite Hset.
      destruct (IH (S line_num) (S k) (Matrix.mkState m' (Matrix.console st))
                  Hshape' Hlt) as (Hn & Hp).
      split; [|exact Hp]. rewrite Hn. cbn [app length]. lia.
Qed.

Lemma row0_loop_console (lines : list str) (line_num j lr : nat)
    (st : State) :
  Matrix.well_shaped (Matrix.matrix st) -> j <= Matrix.n_states ->
  let rows := Matrix.row0_rows py_float lines in
  let r := Matrix.row0_loop py_float lines line_num j lr st in
  fst (snd r) = lr + Nat.min (Matrix.n_states - j) (length rows) /\
  exists printed,
    Matrix.console (snd (snd r)) = Matrix.console st ++ printed /\
    Forall Matrix.dipoli_message printed.
Proof.
  revert line_num j lr st.
  induction lines as [|line more IH]; intros line_num j lr st Hshape Hj.
  - cbn zeta. cbn [Matrix.row0_loop fst snd].
    change (Matrix.row0_rows py_float []) with (@nil vec).
    cbn [length]. rewrite Nat.min_0_r, Nat.add_0_r.
    split; [reflexivity|].
    exists []. rewrite app_nil_r.
    split; [reflexivity|constructor].
  - cbn zeta. rewrite row0_rows_cons. cbn [Matrix.row0_loop].
    destruct (truthy (strip line)) eqn:Htr; cbn [negb].
    2:{ assert (Hnil : strip line = []) by (apply truthy_nil_iff; exact Htr).
        rewrite Hnil. simpl app.
        exact (IH (S line_num) j lr st Hshape Hj). }
    destruct (Matrix.n_states <=? j) eqn:Hle.
    { apply Nat.leb_le in Hle. cbn [fst snd Matrix.print Matrix.console].
      split; [lia|]. eexists. split; [reflexivity|].
      constructor; [|constructor]. left. do 2 eexists. reflexivity. }
    apply Nat.leb_gt in Hle.
    destruct (length (py_split (strip line)) =? 3) eqn:H3.
    2:{ simpl app.
        destruct (IH (S line_num) j lr
                    (Matrix.print Matrix.Stderr
                       (Matrix.MsgNotThreeColumns float (line_num + 1)
                          (strip line)) st) Hshape Hj)
          as (Hn & printed & Hc & Hall).
        split; [exact Hn|].
        exists ((Matrix.Stderr,
                 Matrix.MsgNotThreeColumns float (line_num + 1) (strip line))
                :: printed).
        split.
        - rewrite Hc. cbn [Matrix.print Matrix.console].
          rewrite <- app_assoc. reflexivity.
        - constructor; [|exact Hall]. right. left.
          do 2 eexists. reflexivity. }
    apply Nat.eqb_eq in H3.
    destruct (Matrix.first_three py_float (py_split (strip line)))
      as [e|v] eqn:Hfirst.
    + destruct (first_three_error _ _ H3 Hfirst) as [s ->].
      cbn [Matrix.and_then app].
      destruct (IH (S line_num) j lr
                  (Matrix.print Matrix.Stderr
                     (Matrix.MsgNotNumbers (line_num + 1) (strip line)
                        (Matrix.ValueError s)) st) Hshape Hj)
        as (Hn & printed & Hc & Hall).
      split; [exact Hn|].
      exists ((Matrix.Stderr,
               Matrix.MsgNotNumbers (line_num + 1) (strip line)
                 (Matrix.ValueError s)) :: printed).
      split.
      * rewrite Hc. cbn [Matrix.print Matrix.console].
        rewrite <- app_assoc. reflexivity.
      * constructor; [|exact Hall]. right. right.
        do 3 eexists. reflexivity.
    + cbn [Matrix.and_then].
      assert (H0 : 0 < Matrix.n_states) by (unfold Matrix.n_states; lia).
      destruct (setitem_in_range (Matrix.matrix st) 0 j v Hshape H0 Hle)
        as (m' & Hset & Hshape' & _).
      rewrite Hset.
      destruct (IH (S line_num) (S j) (S lr)
                  (Matrix.mkState m' (Matrix.console st)) Hshape' Hle)
        as (Hn & Hp).
      split; [|exact Hp]. rewrite Hn. cbn [app length]. lia.
Qed.

Lemma entries_loop_console (entry : nat -> nat -> vec) (i : nat)
    (cols : list nat) (st : State) :
  (forall j, j ∈ cols ->
     Matrix.getitem (Matrix.matrix st) i j = inr (entry i j)) ->
  let r := Matrix.entries_loop i cols st in
  fst r = inr tt /\
  Matrix.matrix (snd r) = Matrix.matrix st /\
  Matrix.console (snd r)
  = Matrix.console st ++
    map (fun j => let '(val_x, val_y, val_z) := entry i j in
                  (Matrix.Stdout, Matrix.MsgEntry i j val_x val_y val_z))
      cols.
Proof.
  revert st. induction cols as [|j more IH]; intros st Hget.
  - simpl. rewrite app_nil_r. repeat split.
  - cbn zeta. cbn [Matrix.entries_loop map].
    rewrite (Hget j) by (apply elem_of_cons; left; reflexivity).
    destruct (entry i j) as [[x y] z] eqn:He.
    destruct (IH (Matrix.print Matrix.Stdout (Matrix.MsgEntry i j x y z) st))
      as (Hr & Hm & Hc).
    { intros j' Hj'. cbn [Matrix.print Matrix.matrix].
      apply Hget. apply elem_of_cons. right. exact Hj'. }
    split; [exact Hr|]. split; [exact Hm|].
    rewrite Hc. cbn [Matrix.print Matrix.console].
    rewrite <- app_assoc. reflexivity.
Qed.

Lemma rows_loop_console (entry : nat -> nat -> vec) (rows : list nat)
    (st : State) :
  (forall i j, i ∈ rows -> j < Matrix.n_states ->
     Matrix.getitem (Matrix.matrix st) i j = inr (entry i j)) ->
  let r := Matrix.rows_loop rows st in
  fst r = inr tt /\
  Matrix.matrix (snd r) = Matrix.matrix st /\
  Matrix.console (snd r)
  = Matrix.console st ++
    flat_map (fun i =>
      map (fun j => let '(val_x, val_y, val_z) := entry i j in
                    (Matrix.Stdout, Matrix.MsgEntry i j val_x val_y val_z))
        (seq 0 Matrix.n_states)) rows.
Proof.
  revert st. induction rows as [|i more IH]; intros st Hget.
  - simpl. rewrite app_nil_r. repeat split.
  - cbn zeta. cbn [Matrix.rows_loop flat_map].
    pose proof (entries_loop_console entry i (seq 0 Matrix.n_states) st)
      as H.
    cbn zeta in H.
    destruct (Matrix.entries_loop i (seq 0 Matrix.n_states) st) as [r st1].
    cbn [fst snd] in H. destruct H as (-> & Hm & Hc).
    { intros j Hj. apply elem_of_seq in Hj. apply Hget; [|lia].
      apply elem_of_cons. left. reflexivity. }
    destruct (IH st1) as (Hr & Hm' & Hc').
    { intros i' j Hi' Hj. rewrite Hm. apply Hget; [|exact Hj].
      apply elem_of_cons. right. exact Hi'. }
    split; [exact Hr|]. split; [rewrite Hm'; exact Hm|].
    rewrite Hc', Hc. rewrite <- app_assoc. reflexivity.
Qed.


Lemma read_diagonal_console (d : gmap Path node) (st : State) :
  Matrix.well_shaped (Matrix.matrix st) ->
  exists printed,
    Matrix.console (Matrix.read_diagonal py_float d st)
    = Matrix.console st ++ printed /\
    Matrix.diagonal_report (node_at d Matrix.orca_filename)
      (length (Matrix.diagonal_rows py_float
                 (Matrix.lines_of d Matrix.orca_filename))) printed.
Proof.
  intros Hshape.
  unfold Matrix.read_diagonal, Matrix.lines_of, Matrix.diagonal_report.
  destruct (node_at d Matrix.orca_filename) as [[content|]|].
  - cbn zeta.
    pose proof (diagonal_loop_console
                  (readlines (universal_newlines content)) 0 0
                  (Matrix.print Matrix.Stdout
                     (Matrix.MsgReadingDiagonal float Matrix.orca_filename)
                     st) Hshape (Nat.le_0_l _)) as H.
    cbn zeta in H.
    destruct (Matrix.diagonal_loop py_float _ 0 0 _) as [k st1].
    cbn [fst snd] in H. destruct H as (Hk & warnings & Hc & Hall).
    cbn [Nat.add] in Hk. rewrite <- Hk.
    eexists. split; [|exists warnings; split; [exact Hall|reflexivity]].
    destruct (k <? Matrix.n_states);
      cbn [Matrix.print Matrix.console]; rewrite Hc;
      cbn [Matrix.print Matrix.console];
      rewrite <- !app_assoc; reflexivity.
  - eexists. split; reflexivity.
  - eexists. split; reflexivity.
Qed.

Lemma read_row0_console (d : gmap Path node) (st : State) :
  Matrix.well_shaped (Matrix.matrix st) ->
  exists printed,
    Matrix.console (Matrix.read_row0 py_float d st)
    = Matrix.console st ++ printed /\
    Matrix.row0_report (node_at d Matrix.dipoli_filename)
      (length (Matrix.row0_rows py_float
                 (Matrix.lines_of d Matrix.dipoli_filename))) printed.
Proof.
  intros Hshape.
  unfold Matrix.read_row0, Matrix.lines_of, Matrix.row0_report.
  destruct (node_at d Matrix.dipoli_filename) as [[content|]|].
  - cbn zeta.
    assert (H1 : 1 <= Matrix.n_states) by (unfold Matrix.n_states; lia).
    pose proof (row0_loop_console
                  (readlines (universal_newlines content)) 0 1 0
                  (Matrix.print Matrix.Stdout
                     (Matrix.MsgReadingRow0 float Matrix.dipoli_filename)
                     st) Hshape H1) as H.
    pose proof (row0_loop_matrix
                  (readlines (universal_newlines content)) 0 1 0
                  (Matrix.print Matrix.Stdout
                     (Matrix.MsgReadingRow0 float Matrix.dipoli_filename)
                     st) Hshape) as H'.
    cbn zeta in H, H'.
    destruct (Matrix.row0_loop py_float _ 0 1 0 _) as [r [lr st1]].
    cbn [fst snd] in H, H'. destruct H' as (-> & _).
    destruct H as (Hk & messages & Hc & Hall).
    cbn [Nat.add] in Hk. rewrite <- Hk.
    eexists. split; [|exists messages; split; [exact Hall|reflexivity]].
    destruct (lr <? Matrix.n_states - 1);
      cbn [Matrix.print Matrix.console]; rewrite Hc;
      cbn [Matrix.print Matrix.console];
      rewrite <- !app_assoc; reflexivity.
  - eexists. split; reflexivity.
  - eexists. split; reflexivity.
Qed.

(** All the script prints: the reports of the two parts, the line of
    part 4, and the table of the array it ends with. *)
Lemma script_console (d : gmap Path node) :
  let diag :=
    Matrix.diagonal_rows py_float (Matrix.lines_of d Matrix.orca_filename) in
  let row0 :=
    Matrix.row0_rows py_float (Matrix.lines_of d Matrix.dipoli_filename) in
  exists part1 part2,
    Matrix.diagonal_report (node_at d Matrix.orca_filename) (length diag)
      part1 /\
    Matrix.row0_report (node_at d Matrix.dipoli_filename) (length row0)
      part2 /\
    Matrix.console (snd (Matrix.script zero py_float d))
    = part1 ++ part2 ++
      [(Matrix.Stdout, Matrix.MsgSymmetry float);
       (Matrix.Stdout,
        Matrix.MsgTableBegin float Matrix.n_states Matrix.n_states)] ++
      Matrix.table (Matrix.expected_entry zero diag row0) ++
      [(Matrix.Stdout, Matrix.MsgTableEnd float)].
Proof.
  cbn zeta.
  pose proof (script_matrix d) as Hfinal. cbn zeta in Hfinal.
  revert Hfinal. unfold Matrix.script.
  set (st0 := Matrix.mkState
                (Matrix.zeros zero Matrix.n_states Matrix.n_states) []).
  assert (Hs0 : Matrix.well_shaped (Matrix.matrix st0))
    by exact well_shaped_zeros.
  destruct (read_diagonal_matrix d st0 Hs0) as [Hs1 _].
  destruct (read_diagonal_console d st0 Hs0) as (part1 & Hc1 & Hr1).
  set (st1 := Matrix.read_diagonal py_float d st0) in *.
  destruct (read_row0_matrix d st1 Hs1) as [Hs2 _].
  destruct (read_row0_console d st1 Hs1) as (part2 & Hc2 & Hr2).
  set (st2 := Matrix.read_row0 py_float d st1) in *.
  assert (Hidx : Forall (fun i => 1 <= i /\ i < Matrix.n_states)
                   (seq 1 (Matrix.n_states - 1))).
  { apply Forall_forall. intros i Hi. apply elem_of_seq in Hi.
    unfold Matrix.n_states in *. lia. }
  pose proof (symmetry_loop_matrix (seq 1 (Matrix.n_states - 1))
                (Matrix.print Matrix.Stdout (Matrix.MsgSymmetry float) st2)
                Hs2 Hidx) as H3.
  cbn zeta in H3.
  destruct (Matrix.symmetry_loop _ _) as [r3 st3].
  cbn [fst snd] in H3. destruct H3 as (-> & Hc3 & Hs3 & _).
  set (diag := Matrix.diagonal_rows py_float
                 (Matrix.lines_of d Matrix.orca_filename)) in *.
  set (row0 := Matrix.row0_rows py_float
                 (Matrix.lines_of d Matrix.dipoli_filename)) in *.
  set (st3' := Matrix.print Matrix.Stdout
                 (Matrix.MsgTableBegin float Matrix.n_states Matrix.n_states)
                 st3).
  pose proof (rows_loop_matrix (seq 0 Matrix.n_states) st3' Hs3) as H4m.
  pose proof (rows_loop_console (Matrix.expected_entry zero diag row0)
                (seq 0 Matrix.n_states) st3') as H4.
  cbn zeta in H4, H4m.
  destruct (Matrix.rows_loop _ _) as [r4 st4].
  cbn [fst snd] in H4, H4m.
  destruct H4m as [-> Hm4].
  { apply Forall_forall. intros i Hi. apply elem_of_seq in Hi. lia. }
  cbn [fst snd Matrix.print Matrix.matrix Matrix.console].
  intros (_ & _ & Hfinal).
  rewrite Hm4 in Hfinal. unfold st3' in Hfinal.
  cbn [Matrix.print Matrix.matrix] in Hfinal.
  destruct H4 as (_ & _ & Hc4).
  { intros i j Hi Hj. apply elem_of_seq in Hi.
    unfold st3'. cbn [Matrix.print Matrix.matrix].
    apply Hfinal; lia. }
  exists part1, part2. split; [exact Hr1|]. split; [exact Hr2|].
  rewrite Hc4. unfold st3'. cbn [Matrix.print Matrix.console].
  rewrite Hc3. cbn [Matrix.print Matrix.console].
  rewrite Hc2, Hc1. unfold st0. cbn [Matrix.console app].
  unfold Matrix.table. rewrite <- !app_assoc. reflexivity.
Qed.


(** *** The properties of the script *)

(** X20.  Whatever the two files are, the script ends without an
    exception reaching the top, and the array it ends with is symmetric:
    the entries at [a], [b] and at [b], [a] are the same, and an entry
    off the diagonal and outside row 0 and column 0 is zero. *)
Theorem matrix_symmetric (d : gmap Path node) (a b : nat) :
  a < Matrix.n_states -> b < Matrix.n_states ->
  let r := Matrix.script zero py_float d in
  fst r = inr tt /\
  exists v,
    Matrix.getitem (Matrix.matrix (snd r)) a b = inr v /\
    Matrix.getitem (Matrix.matrix (snd r)) b a = inr v /\
    (0 < a -> 0 < b -> a <> b -> v = zero3).
Proof.
  intros Ha Hb. cbn zeta.
  destruct (script_matrix d) as (Hr & _ & Hg). cbn zeta in Hg.
  split; [exact Hr|].
  eexists. split; [apply Hg; assumption|]. split.
  - rewrite (Hg b a Hb Ha). f_equal. unfold Matrix.expected_entry.
    destruct (decide (a = b)) as [->|Hne]; [reflexivity|].
    rewrite (bool_decide_eq_false_2 (a = b)) by exact Hne.
    rewrite (bool_decide_eq_false_2 (b = a)) by congruence.
    destruct (decide (a = 0)) as [->|Ha0].
    + rewrite (bool_decide_eq_true_2 (0 = 0)) by reflexivity.
      rewrite (bool_decide_eq_false_2 (b = 0)) by congruence.
      reflexivity.
    + rewrite (bool_decide_eq_false_2 (a = 0)) by exact Ha0.
      destruct (decide (b = 0)) as [->|Hb0].
      * rewrite (bool_decide_eq_true_2 (0 = 0)) by reflexivity. reflexivity.
      * rewrite (bool_decide_eq_false_2 (b = 0)) by exact Hb0. reflexivity.
  - intros Ha0 Hb0 Hne. unfold Matrix.expected_entry.
    rewrite (bool_decide_eq_false_2 (a = b)) by exact Hne.
    rewrite (bool_decide_eq_false_2 (a = 0)) by lia.
    rewrite (bool_decide_eq_false_2 (b = 0)) by lia. reflexivity.
Qed.

(** X21.  The diagonal comes from the first file alone: entry [k], [k]
    holds the last three columns of the [k]-th line, counted from 0,
    among the lines that hold the marker and whose last three columns
    are numbers; it is zero when there are [k] such lines or fewer, and
    when the file is missing or is a directory.  Lines after the 11th
    such line change nothing. *)
Theorem matrix_diagonal (d : gmap Path node) (k : nat) :
  k < Matrix.n_states ->
  Matrix.getitem (Matrix.matrix (snd (Matrix.script zero py_float d))) k k
  = inr (nth k (Matrix.diagonal_rows py_float
                  (Matrix.lines_of d Matrix.orca_filename)) zero3).
Proof.
  intros Hk. destruct (script_matrix d) as (_ & _ & Hg). cbn zeta in Hg.
  rewrite (Hg k k Hk Hk). unfold Matrix.expected_entry.
  rewrite (bool_decide_eq_true_2 (k = k)) by reflexivity. reflexivity.
Qed.

(** X22.  Row 0 and column 0 come from the second file alone: for [j]
    from 1 to 10, the entries at 0, [j] and at [j], 0 hold the [j]-th
    line, counted from 1, among the lines of exactly three columns that
    are numbers; they are zero when there are fewer such lines, and when
    the file is missing or is a directory. *)
Theorem matrix_row0 (d : gmap Path node) (j : nat) :
  1 <= j -> j < Matrix.n_states ->
  let m := Matrix.matrix (snd (Matrix.script zero py_float d)) in
  let v := nth (j - 1) (Matrix.row0_rows py_float
                          (Matrix.lines_of d Matrix.dipoli_filename)) zero3 in
  Matrix.getitem m 0 j = inr v /\ Matrix.getitem m j 0 = inr v.
Proof.
  intros Hj1 Hj. cbn zeta.
  destruct (script_matrix d) as (_ & _ & Hg). cbn zeta in Hg.
  assert (H0 : 0 < Matrix.n_states) by (unfold Matrix.n_states; lia).
  rewrite (Hg 0 j H0 Hj), (Hg j 0 Hj H0). unfold Matrix.expected_entry.
  rewrite (bool_decide_eq_false_2 (0 = j)) by lia.
  rewrite (bool_decide_eq_false_2 (j = 0)) by lia.
  rewrite (bool_decide_eq_true_2 (0 = 0)) by reflexivity.
  split; reflexivity.
Qed.

Lemma table_reports_nothing (entry : nat -> nat -> vec) :
  Forall (fun sm => Matrix.reported (snd sm) = None) (Matrix.table entry).
Proof.
  unfold Matrix.table. apply List.Forall_forall. intros sm Hin.
  apply in_flat_map in Hin as (i & _ & Hin).
  apply in_map_iff in Hin as (j & <- & _).
  destruct (entry i j) as [[x y] z]. reflexivity.
Qed.

(** X23.  The script never reports an [IndexError], whatever the two
    files hold: a line with the marker always has three columns, so
    [parts[-3]] is there, and the indices into the array stay in range.
    The [IndexError] of the inner [except] clause of part 1 is never
    caught, and a warning about a line always reports a value that is
    not a number. *)
Theorem matrix_reports_no_index_error (d : gmap Path node) :
  Forall (fun sm =>
            Matrix.reported (snd sm) <> Some Matrix.IndexError /\
            (forall row line_content e,
               snd sm = Matrix.MsgOrcaBadLine row line_content e \/
               snd sm = Matrix.MsgNotNumbers row line_content e ->
               exists s, e = Matrix.ValueError s))
    (Matrix.console (snd (Matrix.script zero py_float d))).
Proof.
  assert (Hnone : forall sm : Matrix.stream * Matrix.message float,
             Matrix.reported (snd sm) = None ->
             Matrix.reported (snd sm) <> Some Matrix.IndexError /\
             (forall row line_content e,
                snd sm = Matrix.MsgOrcaBadLine row line_content e \/
                snd sm = Matrix.MsgNotNumbers row line_content e ->
                exists s, e = Matrix.ValueError s)).
  { intros sm Hn. split; [rewrite Hn; discriminate|].
    intros row lc e [H|H]; rewrite H in Hn; discriminate. }
  assert (Hdir : forall sm : Matrix.stream * Matrix.message float,
             (exists name q, snd sm = Matrix.MsgDiagonalUnexpected name
                                        (Matrix.OSError q)) \/
             (exists name q, snd sm = Matrix.MsgRow0Unexpected name
                                        (Matrix.OSError q)) ->
             Matrix.reported (snd sm) <> Some Matrix.IndexError /\
             (forall row line_content e,
                snd sm = Matrix.MsgOrcaBadLine row line_content e \/
                snd sm = Matrix.MsgNotNumbers row line_content e ->
                exists s, e = Matrix.ValueError s)).
  { intros sm [(name & q & H)|(name & q & H)]; rewrite H;
      (split; [discriminate|intros row lc e [H'|H']; discriminate]). }
  destruct (script_console d) as (part1 & part2 & H1 & H2 & ->).
  apply Forall_app. split; [|apply Forall_app; split].
  - unfold Matrix.diagonal_report in H1.
    destruct (node_at d Matrix.orca_filename) as [[content|]|].
    + destruct H1 as (warnings & Hall & ->).
      constructor; [apply Hnone; reflexivity|].
      apply Forall_app. split.
      * eapply Forall_impl; [exact Hall|].
        intros sm (row & lc & s & ->). cbn [snd]. split; [discriminate|].
        intros row' lc' e [[= _ _ <-]|[=]]. eexists. reflexivity.
      * constructor; [apply Hnone; reflexivity|].
        destruct (_ <? _); [|constructor].
        constructor; [apply Hnone; reflexivity|constructor].
    + subst part1. constructor; [|constructor].
      apply Hdir. left. do 2 eexists. reflexivity.
    + subst part1. constructor; [|constructor]. apply Hnone. reflexivity.
  - unfold Matrix.row0_report in H2.
    destruct (node_at d Matrix.dipoli_filename) as [[content|]|].
    + destruct H2 as (messages & Hall & ->).
      constructor; [apply Hnone; reflexivity|].
      apply Forall_app. split.
      * eapply Forall_impl; [exact Hall|].
        intros sm [(n & row & ->)|[(row & lc & ->)|(row & lc & s & ->)]].
        -- apply Hnone. reflexivity.
        -- apply Hnone. reflexivity.
        -- cbn [snd]. split; [discriminate|].
           intros row' lc' e [[=]|[= _ _ <-]]. eexists. reflexivity.
      * constructor; [apply Hnone; reflexivity|].
        destruct (_ <? _); [|constructor].
        constructor; [apply Hnone; reflexivity|constructor].
    + subst part2. constructor; [|constructor].
      apply Hdir. right. do 2 eexists. reflexivity.
    + subst part2. constructor; [|constructor]. apply Hnone. reflexivity.
  - constructor; [apply Hnone; reflexivity|].
    constructor; [apply Hnone; reflexivity|].
    apply Forall_app. split.
    + eapply Forall_impl; [apply table_reports_nothing|]. exact Hnone.
    + constructor; [apply Hnone; reflexivity|constructor].
Qed.

(** X24.  The counts the script prints are those of the entries it has
    set: for a file that is read, the number of accepted rows, stopped
    at 11 for the diagonal and at 10 for row 0, with the shortfall
    warning exactly when the count is under that; between the opening
    line and the count stand only the messages about single lines.  For
    a missing file or a directory the part prints its one error and the
    script goes on. *)
Theorem matrix_counts_reported (d : gmap Path node) :
  exists part1 part2 rest,
    Matrix.console (snd (Matrix.script zero py_float d))
    = part1 ++ part2 ++ rest /\
    Matrix.diagonal_report (node_at d Matrix.orca_filename)
      (length (Matrix.diagonal_rows py_float
                 (Matrix.lines_of d Matrix.orca_filename))) part1 /\
    Matrix.row0_report (node_at d Matrix.dipoli_filename)
      (length (Matrix.row0_rows py_float
                 (Matrix.lines_of d Matrix.dipoli_filename))) part2.
Proof.
  destruct (script_console d) as (part1 & part2 & H1 & H2 & Hc).
  exists part1, part2. eexists. split; [exact Hc|]. split; assumption.
Qed.

(** X25.  The script always ends by printing the whole table, 121 lines
    in row order between the heading and the closing line, and the
    values printed at [i], [j] are those of the accepted rows of the two
    files: the diagonal from the first, row 0 and column 0 from the
    second, zero elsewhere. *)
Theorem matrix_table_printed (d : gmap Path node) :
  let diag :=
    Matrix.diagonal_rows py_float (Matrix.lines_of d Matrix.orca_filename) in
  let row0 :=
    Matrix.row0_rows py_float (Matrix.lines_of d Matrix.dipoli_filename) in
  exists before,
    Matrix.console (snd (Matrix.script zero py_float d))
    = before ++
      [(Matrix.Stdout,
        Matrix.MsgTableBegin float Matrix.n_states Matrix.n_states)] ++
      Matrix.table (Matrix.expected_entry zero diag row0) ++
      [(Matrix.Stdout, Matrix.MsgTableEnd float)] /\
    length (Matrix.table (Matrix.expected_entry zero diag row0)) = 121.
Proof.
  cbn zeta.
  destruct (script_console d) as (part1 & part2 & _ & _ & Hc).
  exists (part1 ++ part2 ++ [(Matrix.Stdout, Matrix.MsgSymmetry float)]).
  split.
  - rewrite Hc. rewrite <- !app_assoc. reflexivity.
  - unfold Matrix.table.
    generalize (Matrix.expected_entry zero
                  (Matrix.diagonal_rows py_float
                     (Matrix.lines_of d Matrix.orca_filename))
                  (Matrix.row0_rows py_float
                     (Matrix.lines_of d Matrix.dipoli_filename))).
    intros entry. cbn [Matrix.n_states seq flat_map].
    rewrite !length_app, !length_map. reflexivity.
Qed.

End MatrixFacts.

Lemma matrix_symmetric_witness :
  let r := Matrix.script 0%Z sample_float sample_disk in
  fst r = inr tt /\
  exists v,
    Matrix.getitem (Matrix.matrix (snd r)) 0 1 = inr v /\
    Matrix.getitem (Matrix.matrix (snd r)) 1 0 = inr v /\
    (0 < 0 -> 0 < 1 -> 0 <> 1 -> v = (0, 0, 0)%Z).
Proof.
  apply (matrix_symmetric 0%Z sample_float sample_disk 0 1);
    unfold Matrix.n_states; lia.
Defined.

Lemma matrix_diagonal_witness :
  Matrix.getitem
    (Matrix.matrix (snd (Matrix.script 0%Z sample_float sample_disk))) 0 0
  = inr (1, 2, 3)%Z.
Proof.
  apply (matrix_diagonal 0%Z sample_float sample_disk 0).
  unfold Matrix.n_states. lia.
Defined.

Lemma matrix_row0_witness :
  let m := Matrix.matrix (snd (Matrix.script 0%Z sample_float sample_disk)) in
  Matrix.getitem m 0 1 = inr (4, 5, 6)%Z /\
  Matrix.getitem m 1 0 = inr (4, 5, 6)%Z.
Proof.
  apply (matrix_row0 0%Z sample_float sample_disk 1);
    unfold Matrix.n_states; lia.
Defined.

(** *** A last line without terminator *)

Lemma one_terminator_app (a l : str) :
  existsb (chr_eqb nl) a = false -> one_terminator l = true ->
  one_terminator (a ++ l) = true.
Proof.
  induction a as [|c a IH]; intros Ha Hl; [exact Hl|].
  simpl in Ha. apply orb_false_iff in Ha as [Hc Ha].
  simpl. apply one_terminator_cons; [exact Hc|]. exact (IH Ha Hl).
Qed.

Lemma one_terminator_text_line (l : str) :
  one_terminator l = true -> text_line l = true.
Proof.
  unfold one_terminator, text_line.
  destruct (rev l) as [|c r]; [discriminate|].
  intros H. apply andb_prop in H as [_ H]. exact H.
Qed.

(** X18.  When the input has exactly 31 lines and the last has no line
    terminator, that line is moved to position 20 as it is, so in the
    output it runs into the line after it: read again, the output has
    30 lines, and its line 20 is line 31 of the input followed by
    line 21. *)
Theorem order_unterminated_line_glued
    (inp out : Path) (h : Order.Host) (content : str) :
  node_at (Order.disk h) inp = Some (File content) ->
  length (readlines (universal_newlines content)) = 31 ->
  one_terminator
    (default [] (readlines (universal_newlines content) !! 30)) = false ->
  node_at (Order.disk h) out <> Some Dir ->
  node_at (Order.disk h) (parent out) = Some Dir ->
  exists written line21 line31,
    node_at (Order.disk (Order.swap_specific_lines inp out h)) out
      = Some (File written) /\
    readlines (universal_newlines content) !! 20 = Some line21 /\
    readlines (universal_newlines content) !! 30 = Some line31 /\
    length (readlines (universal_newlines written)) = 30 /\
    readlines (universal_newlines written) !! 19 = Some (line31 ++ line21).
Proof.
  intros Hin Hlen Hopen Hout Hpar.
  set (lines := readlines (universal_newlines content)) in *.
  destruct (lookup_lt_is_Some_2 lines 19 ltac:(lia)) as [x Hx].
  destruct (lookup_lt_is_Some_2 lines 20 ltac:(lia)) as [z Hz].
  destruct (lookup_lt_is_Some_2 lines 30 ltac:(lia)) as [y Hy].
  rewrite Hy in Hopen. simpl in Hopen.
  destruct (exchanged_spec lines 19 30 x y ltac:(lia) Hx Hy)
    as (_ & Hl & H19 & H30 & Hk).
  set (new := exchanged lines 19 30) in *.
  pose proof (readlines_text_lines (universal_newlines content)) as Htl.
  fold lines in Htl.
  assert (Hy_open : existsb (chr_eqb nl) y = false).
  { rewrite Forall_lookup in Htl.
    destruct (text_line_split y (Htl _ _ Hy)) as [[_ H]|H];
      [exact H|congruence]. }
  assert (Hterm : forall i l, lines !! i = Some l -> i < 30 ->
                              one_terminator l = true).
  { intros i l Hi Hlt. apply (readlines_terminated _ i l Hi).
    fold lines. lia. }
  assert (H20 : new !! 20 = Some z) by (rewrite Hk by lia; exact Hz).
  (* the lines written, and the lines they are read as *)
  set (glued := take 19 new ++ (y ++ z) :: drop 21 new).
  assert (Hnew : new = take 19 new ++ y :: z :: drop 21 new).
  { rewrite <- (take_drop_middle new 19 y H19) at 1.
    rewrite (drop_S new z 20 H20). reflexivity. }
  assert (Hconcat : concat new = concat glued).
  { rewrite Hnew at 1. unfold glued.
    rewrite !concat_app. simpl. rewrite <- !app_assoc. reflexivity. }
  assert (Hnew_tl : Forall (fun l => text_line l = true) new)
    by (apply exchanged_elem; exact Htl).
  assert (Hlen19 : length (take 19 new) = 19)
    by (rewrite length_take; lia).
  assert (Hglued_len : length glued = 30).
  { unfold glued. rewrite length_app, Hlen19. simpl.
    rewrite length_drop. lia. }
  assert (Hglued19 : glued !! 19 = Some (y ++ z)).
  { unfold glued. rewrite lookup_app_r by lia.
    rewrite Hlen19. reflexivity. }
  assert (Hread : readlines (concat glued) = glued).
  { apply readlines_of_lines.
    - unfold glued. apply Forall_app. split; [apply Forall_take; exact Hnew_tl|].
      constructor; [|apply Forall_drop; exact Hnew_tl].
      apply one_terminator_text_line, one_terminator_app; [exact Hy_open|].
      apply (Hterm 20 z Hz). lia.
    - intros i l Hi Hlast. rewrite Hglued_len in Hlast.
      destruct (decide (i < 19)) as [Hlt|Hge].
      + unfold glued in Hi. rewrite lookup_app_l in Hi by lia.
        rewrite lookup_take_lt, Hk in Hi by lia.
        apply (Hterm i l Hi). lia.
      + destruct (decide (i = 19)) as [->|Hne].
        * rewrite Hglued19 in Hi. injection Hi as <-.
          apply one_terminator_app; [exact Hy_open|].
          apply (Hterm 20 z Hz). lia.
        * unfold glued in Hi. rewrite lookup_app_r in Hi by lia.
          rewrite Hlen19 in Hi.
          destruct (i - 19) as [|j] eqn:Ej; [lia|]. simpl in Hi.
          rewrite lookup_drop, Hk in Hi by lia.
          apply (Hterm _ l Hi). lia. }
  exists (concat new), z, y.
  split.
  { rewrite (order_swap_written inp out h content Hin) by (assumption || fold lines; lia).
    destruct out as [|c out]; [exfalso; apply Hout; reflexivity|]. simpl.
    apply lookup_insert_eq. }
  split; [exact Hz|]. split; [exact Hy|].
  assert (Hcr : no_cr (concat new) = true).
  { apply no_cr_concat. apply forallb_forall. apply List.Forall_forall.
    apply exchanged_elem. apply no_cr_lines. unfold lines.
    rewrite concat_readlines. apply universal_newlines_no_cr_out. }
  rewrite (universal_newlines_no_cr _ Hcr), Hconcat, Hread.
  split; [exact Hglued_len|exact Hglued19].
Qed.

Lemma order_unterminated_line_glued_witness :
  let content := concat (take 30 numbered_lines) ++ L "row 31" in
  let h := Order.mkHost (<[ ["in.txt"] := File content ]> ∅) [] in
  exists written line21 line31,
    node_at (Order.disk (Order.swap_specific_lines ["in.txt"] ["out.txt"] h))
      ["out.txt"] = Some (File written) /\
    readlines (universal_newlines content) !! 20 = Some line21 /\
    readlines (universal_newlines content) !! 30 = Some line31 /\
    length (readlines (universal_newlines written)) = 30 /\
    readlines (universal_newlines written) !! 19 = Some (line31 ++ line21).
Proof.
  intros content h.
  apply (order_unterminated_line_glued ["in.txt"] ["out.txt"] h content).
  - reflexivity.
  - vm_compute. reflexivity.
  - vm_compute. reflexivity.
  - discriminate.
  - reflexivity.
Defined.

(** *** The script *)

Lemma sample_rows_read :
  readlines (universal_newlines (concat Order.sample_rows))
  = Order.sample_rows.
Proof. vm_compute. reflexivity. Qed.

(** X19.  The script never touches an input that is there.  When there is
    none, it creates one of 40 numbered lines, and, unless the name of
    the output is taken by a directory, writes the output with lines 20
    and 31 of it exchanged. *)
Theorem order_script_runs (h : Order.Host) :
  let h' := Order.script h in
  (forall n, Order.disk h !! Order.nome_file_input = Some n ->
             Order.disk h' !! Order.nome_file_input = Some n) /\
  (Order.disk h !! Order.nome_file_input = None ->
   Order.disk h' !! Order.nome_file_input
   = Some (File (concat Order.sample_rows)) /\
   (Order.disk h !! Order.nome_file_output <> Some Dir ->
    Order.disk h' !! Order.nome_file_output
    = Some (File (concat (exchanged Order.sample_rows 19 30))))).
Proof.
  cbv zeta. unfold Order.script. split.
  - intros n Hn.
    rewrite order_touches_only_output_lemma by discriminate.
    unfold Order.create_sample. simpl node_at.
    unfold Order.nome_file_input in *. rewrite Hn. exact Hn.
  - intros Hnone.
    assert (Hcreated :
              Order.disk (Order.create_sample Order.nome_file_input h)
              = <[Order.nome_file_input := File (concat Order.sample_rows)]>
                  (Order.disk h)).
    { unfold Order.create_sample. simpl node_at.
      unfold Order.nome_file_input in *. rewrite Hnone. reflexivity. }
    split.
    + rewrite order_touches_only_output_lemma by discriminate.
      rewrite Hcreated. apply lookup_insert_eq.
    + intros Hout.
      rewrite (order_swap_written Order.nome_file_input
                 Order.nome_file_output _ (concat Order.sample_rows)).
      * rewrite sample_rows_read. apply lookup_insert_eq.
      * simpl node_at. rewrite Hcreated. apply lookup_insert_eq.
      * rewrite sample_rows_read. vm_compute. lia.
      * simpl node_at. rewrite Hcreated.
        rewrite lookup_insert_ne by discriminate. exact Hout.
      * reflexivity.
Qed.
